(** * Reseller dashboard: order retrieval facade and CSV upload validator

    A shallow embedding of the order API client ([src/utils/api.ts]) and of
    the Orders page helpers ([calculateOrderAmount], [getDisplayStatus],
    [fetchTabOrders], [handleUpload], [downloadTemplate]).

    Conventions of the embedding:
    - a JavaScript [number] used in arithmetic is a binary64 [float]; a number
      used as a counter, page index or HTTP status is a [Z];
    - a JavaScript string is the [string] of the bytes of its UTF-8
      encoding. The code looks for ASCII text only ([split], [includes],
      [endsWith], [indexOf], the regular expressions), and for ASCII text
      bytes and characters agree. [trim] removes the encodings of the white
      space and the line terminators of ECMAScript. [toLowerCase] is the
      ASCII mapping on ASCII text and the mapping of the runtime's Unicode
      tables, [unicodeLower], on any other text;
    - an optional property is an [option] ([None] is [undefined]/[null]);
    - object literals sent as query parameters are [gmap string ParamVal];
    - effectful code ([localStorage], [window.location], [toast], the HTTP
      clients) runs in the state-and-exception monad [Eff] over [World]. *)

From Stdlib Require Import ZArith List String Ascii Bool Floats Permutation Lia.
From stdpp Require Import gmap strings list fin_maps pretty.
Import ListNotations.
Local Open Scope string_scope.
Local Open Scope Z_scope.

(** ** String primitives of the JavaScript runtime *)

(** [s.includes(needle)] *)
Fixpoint includes (needle s : string) : bool :=
  String.prefix needle s ||
  match s with
  | EmptyString => false
  | String _ t => includes needle t
  end.

(** [s.endsWith(suffix)] *)
Definition endsWith (suffix s : string) : bool :=
  let n := String.length s in
  let k := String.length suffix in
  (k <=? n)%nat && String.eqb (String.substring (n - k) k s) suffix.

(** [s.split(sep)] for a one-character separator: never empty, the empty
    string splits into one empty piece. *)
Fixpoint split (sep : ascii) (s : string) : list string :=
  match s with
  | EmptyString => [EmptyString]
  | String c t =>
      if Ascii.eqb c sep then EmptyString :: split sep t
      else match split sep t with
           | h :: r => String c h :: r
           | [] => [String c EmptyString]
           end
  end.

(** [xs.join(sep)] *)
Fixpoint join (sep : string) (xs : list string) : string :=
  match xs with
  | [] => EmptyString
  | [x] => x
  | x :: r => x ++ sep ++ join sep r
  end.

(** The code points [trim] removes: the WhiteSpace and LineTerminator
    productions of ECMAScript. These are TAB, LF, VT, FF, CR, SPACE, NO-BREAK
    SPACE, the other members of the Unicode category Zs (U+1680, U+2000 to
    U+200A, U+202F, U+205F, U+3000), the separators U+2028 and U+2029, and
    the byte order mark U+FEFF. *)
Definition whiteSpaceCodePoints : list Z :=
  [ 9; 10; 11; 12; 13; 32; 160; 5760;
    8192; 8193; 8194; 8195; 8196; 8197; 8198; 8199; 8200; 8201; 8202;
    8232; 8233; 8239; 8287; 12288; 65279 ].

Definition byteOf (n : Z) : ascii := ascii_of_nat (Z.to_nat n).

(** The UTF-8 encoding of a code point. *)
Definition utf8 (cp : Z) : string :=
  if cp <? 128 then String (byteOf cp) EmptyString
  else if cp <? 2048 then
    String (byteOf (192 + cp / 64)) (String (byteOf (128 + cp mod 64)) EmptyString)
  else if cp <? 65536 then
    String (byteOf (224 + cp / 4096))
      (String (byteOf (128 + (cp / 64) mod 64))
         (String (byteOf (128 + cp mod 64)) EmptyString))
  else
    String (byteOf (240 + cp / 262144))
      (String (byteOf (128 + (cp / 4096) mod 64))
         (String (byteOf (128 + (cp / 64) mod 64))
            (String (byteOf (128 + cp mod 64)) EmptyString))).

Definition whiteSpace : list string := map utf8 whiteSpaceCodePoints.

(** [s] without its prefix [p], when it starts with [p]. *)
Fixpoint dropPrefix (p s : string) : option string :=
  match p with
  | EmptyString => Some s
  | String a p' =>
      match s with
      | EmptyString => None
      | String b s' => if Ascii.eqb a b then dropPrefix p' s' else None
      end
  end.

(** [s] without the first of [marks] it starts with. *)
Fixpoint dropMark (marks : list string) (s : string) : option string :=
  match marks with
  | [] => None
  | m :: r =>
      match dropPrefix m s with
      | Some t => Some t
      | None => dropMark r s
      end
  end.

(** Takes leading marks off, at most [fuel] of them. *)
Fixpoint dropMarks (fuel : nat) (marks : list string) (s : string) : string :=
  match fuel with
  | O => s
  | S n =>
      match dropMark marks s with
      | Some t => dropMarks n marks t
      | None => s
      end
  end.

(** [s.trimStart()]. Every step takes at least one byte off, so the length
    of the text is fuel enough: the result starts with no white space
    ([trimStart_done]). *)
Definition trimStart (s : string) : string :=
  dropMarks (String.length s) whiteSpace s.

(** [s.trimEnd()]: the same from the other end, on the reversed text
    ([trimEnd_done]). *)
Definition trimEnd (s : string) : string :=
  String.rev
    (dropMarks (String.length s) (map String.rev whiteSpace) (String.rev s)).

(** [s.trim()] *)
Definition trim (s : string) : string := trimEnd (trimStart s).

Definition lowerAscii (c : ascii) : ascii :=
  let n := nat_of_ascii c in
  if ((65 <=? n)%nat && (n <=? 90)%nat) then ascii_of_nat (n + 32) else c.

Fixpoint lowerAsciiText (s : string) : string :=
  match s with
  | EmptyString => EmptyString
  | String c t => String (lowerAscii c) (lowerAsciiText t)
  end.

(** Every byte is below 128: the text has ASCII characters only. *)
Fixpoint isAsciiText (s : string) : bool :=
  match s with
  | EmptyString => true
  | String c t => (nat_of_ascii c <? 128)%nat && isAsciiText t
  end.

(** [s.toLowerCase()]. On ASCII text the Unicode case conversion maps [A-Z]
    to [a-z] and nothing else. A text with a character outside ASCII is
    converted with the case tables of the runtime, [unicodeLower], which
    differ between Unicode versions. *)
Definition toLowerCase (unicodeLower : string -> string) (s : string) : string :=
  if isAsciiText s then lowerAsciiText s else unicodeLower s.

(** [xs.includes(x)] on an array of strings *)
Definition arrayIncludes (xs : list string) (x : string) : bool :=
  existsb (String.eqb x) xs.

(** [xs.indexOf(x)]: the first position of [x], [-1] when absent. *)
Fixpoint indexOfFrom (i : Z) (xs : list string) (x : string) : Z :=
  match xs with
  | [] => -1
  | y :: r => if String.eqb y x then i else indexOfFrom (i + 1) r x
  end.

Definition indexOf (xs : list string) (x : string) : Z := indexOfFrom 0 xs x.

(** [xs[i]] for an index already known to be an integer *)
Definition at_index (xs : list string) (i : Z) : option string :=
  if i <? 0 then None else xs !! Z.to_nat i.

(** ** The regular expressions of the soft CSV checks

    The three patterns of [handleUpload] are sequences of literal characters
    and of [\d+] / [\w+] runs, so the matcher handles exactly that fragment:
    a backtracking match of a list of items at a position, and the unanchored
    search [String.prototype.match] performs. *)
Module Regex.

Inductive item :=
| Lit (c : ascii)
| Plus (cls : ascii -> bool).

Definition digit (c : ascii) : bool :=
  let n := nat_of_ascii c in (48 <=? n)%nat && (n <=? 57)%nat.

Definition word (c : ascii) : bool :=
  let n := nat_of_ascii c in
  digit c || ((65 <=? n)%nat && (n <=? 90)%nat)
          || ((97 <=? n)%nat && (n <=? 122)%nat) || (n =? 95)%nat.

(** [matchHere toEnd items s]: [items] match a prefix of [s] (all of [s]
    when [toEnd], the pattern ending in [$]). *)
Fixpoint matchHere (toEnd : bool) (items : list item) (s : string) : bool :=
  match items with
  | [] => if toEnd then match s with EmptyString => true | _ => false end else true
  | Lit c :: rest =>
      match s with
      | String c' s' => Ascii.eqb c c' && matchHere toEnd rest s'
      | EmptyString => false
      end
  | Plus cls :: rest =>
      (fix run (s : string) : bool :=
         match s with
         | String c' s' => cls c' && (run s' || matchHere toEnd rest s')
         | EmptyString => false
         end) s
  end.

(** A pattern without [^]: a match may start anywhere. *)
Fixpoint search (toEnd : bool) (items : list item) (s : string) : bool :=
  matchHere toEnd items s ||
  match s with
  | EmptyString => false
  | String _ t => search toEnd items t
  end.

(** [/\d+-\d+-\d+/] *)
Definition amazonOrderId : list item :=
  [Plus digit; Lit "-"%char; Plus digit; Lit "-"%char; Plus digit].

(** [/\w+-\d+/] *)
Definition genericOrderId : list item :=
  [Plus word; Lit "-"%char; Plus digit].

(** [/^\d+$/] *)
Definition allDigits (s : string) : bool := matchHere true [Plus digit] s.

End Regex.

(** ** Order amounts ([Orders] page)

    A product row of an order as the backend sends it. [final_price] is read
    through [parseFloat], so the field is kept as [parseFloat] sees it: absent,
    a text with no numeric prefix, or a value with the double it parses to.
    [quantity] is the number the row carries. *)
Inductive PriceField :=
| PriceMissing
| PriceNonNumeric (raw : string)
| PriceNumeric (value : float).

Record Product := {
  final_price : PriceField;
  quantity : float
}.

(** [parseFloat(x)]: [NaN] when there is nothing numeric to read. *)
Definition parseFloat (x : PriceField) : float :=
  match x with
  | PriceMissing => nan
  | PriceNonNumeric _ => nan
  | PriceNumeric v => v
  end.

(** [calculateOrderAmount(products)]; [None] is a [products] that is missing
    or not an array. *)
Definition calculateOrderAmount (products : option (list Product)) : float :=
  match products with
  | None => 0%float
  | Some ps =>
      fold_left
        (fun sum product =>
           (sum + parseFloat product.(final_price) * product.(quantity))%float)
        ps 0%float
  end.

(** ** Orders as the backend sends them *)

(** [order_id] arrives as a number or as a string. *)
Inductive OrderId :=
| IdNum (n : Z)
| IdStr (s : string).

Record Order := {
  order_id : option OrderId;
  order_serial : option string;
  status : option string;
  status_payment : option string;
  status_return : option string;
  status_dispute : option string;
  status_shipping : option string;
  products : option (list Product)
}.

(** [id.toString()] *)
Definition idToString (i : OrderId) : string :=
  match i with
  | IdNum n => pretty n
  | IdStr s => s
  end.

(** Truthiness of an optional string: present and not empty. *)
Definition truthy (o : option string) : bool :=
  match o with
  | Some s => negb (String.eqb s EmptyString)
  | None => false
  end.

Definition truthyId (o : option OrderId) : bool :=
  match o with
  | Some (IdNum n) => negb (n =? 0)
  | Some (IdStr s) => negb (String.eqb s EmptyString)
  | None => false
  end.

(** ** Status badges ([Orders] page) *)

(** The own properties of [statusVariants]: code, variant, label. *)
Definition statusVariants : list (string * (string * string)) :=
  [ ("OS", ("outline", "Processing"));
    ("OB", ("secondary", "Ordered"));
    ("OC", ("destructive", "Cancelled"));
    ("PU", ("outline", "Unpaid"));
    ("PD", ("secondary", "Paid"));
    ("SU", ("outline", "Unshipped"));
    ("SP", ("secondary", "Processing"));
    ("SS", ("default", "Shipped"));
    ("RA", ("outline", "Awaiting Return"));
    ("RR", ("default", "Return Requested"));
    ("RC", ("secondary", "Return Completed"));
    ("RS", ("secondary", "Return Shipped"));
    ("RD", ("destructive", "Return Denied"));
    ("DP", ("outline", "Dispute Pending"));
    ("DD", ("destructive", "Dispute Denied"));
    ("DN", ("default", "No Dispute"));
    ("AD", ("secondary", "Dispute Accepted"));
    ("shipped", ("default", "Shipped"));
    ("processing", ("secondary", "Processing"));
    ("delivered", ("default", "Delivered"));
    ("pending", ("outline", "Pending"));
    ("paid", ("secondary", "Paid"));
    ("cancelled", ("destructive", "Cancelled"));
    ("awaiting-payment", ("outline", "Awaiting Payment"));
    ("ticketed", ("secondary", "Ticketed"));
    ("abnormal", ("destructive", "Abnormal")) ].

(** Property names every object literal inherits from [Object.prototype];
    each holds a truthy value that has neither [label] nor [variant]. *)
Definition objectPrototypeKeys : list string :=
  [ "constructor"; "__defineGetter__"; "__defineSetter__"; "hasOwnProperty";
    "__lookupGetter__"; "__lookupSetter__"; "isPrototypeOf";
    "propertyIsEnumerable"; "toString"; "valueOf"; "__proto__";
    "toLocaleString" ].

Record DisplayStatus := {
  ds_status : option string;
  ds_variant : option string
}.

Fixpoint assoc {V : Type} (k : string) (kvs : list (string * V)) : option V :=
  match kvs with
  | [] => None
  | (k', v) :: r => if String.eqb k' k then Some v else assoc k r
  end.

(** [statusVariants[code]] when the result is truthy, already turned into
    the object [getDisplayStatus] returns from it. A missing code is looked up
    under the key ["undefined"]. *)
Definition lookupVariant (code : option string) : option DisplayStatus :=
  let key := default "undefined" code in
  match assoc key statusVariants with
  | Some (variant, label) =>
      Some {| ds_status := Some label; ds_variant := Some variant |}
  | None =>
      if arrayIncludes objectPrototypeKeys key
      then Some {| ds_status := None; ds_variant := None |}
      else None
  end.

(** [getDisplayStatus(order)] *)
Definition getDisplayStatus (order : Order) : DisplayStatus :=
  if bool_decide (order.(status) = Some "OC") then
    {| ds_status := Some "Cancelled"; ds_variant := Some "destructive" |}
  else if bool_decide (order.(status_payment) = Some "PU") then
    {| ds_status := Some "Awaiting Payment"; ds_variant := Some "outline" |}
  else
    let returnStatus :=
      if truthy order.(status_return)
         && negb (bool_decide (order.(status_return) = Some "RN"))
      then lookupVariant order.(status_return) else None in
    match returnStatus with
    | Some r => r
    | None =>
        let disputeStatus :=
          if truthy order.(status_dispute)
             && negb (bool_decide (order.(status_dispute) = Some "DN"))
          then lookupVariant order.(status_dispute) else None in
        match disputeStatus with
        | Some d => d
        | None =>
            let shippingStatus :=
              if truthy order.(status_shipping)
              then lookupVariant order.(status_shipping) else None in
            match shippingStatus with
            | Some s => s
            | None =>
                match lookupVariant order.(status) with
                | Some m => m
                | None =>
                    {| ds_status := Some "Processing";
                       ds_variant := Some "secondary" |}
                end
            end
        end
    end.

(** ** HTTP layer: requests, replies, thrown values *)

Inductive ParamVal :=
| PNum (n : Z)
| PStr (s : string).

(** The [detail] field of an error body: a string, an array or an object.
    An object keeps the text [JSON.stringify] renders it to. *)
Inductive DetailItem :=
| ItemStr (s : string)
| ItemObj (json : string).

Inductive Detail :=
| DetailStr (s : string)
| DetailArr (items : list DetailItem)
| DetailObj (json : string).

(** A JSON object body: the fields the client reads, and the text
    [JSON.stringify] renders the whole object to. *)
Record JsonObject := {
  orders : option (list Order);
  total_count : option Z;
  orders_processed : option Z;
  detail : option Detail;
  fields : Order;
  json_text : string
}.

(** [response.data] *)
Inductive ResponseData :=
| DataNull
| DataText (s : string)
| DataArray (elements : list Order)
| DataObject (o : JsonObject).

Record AxiosResponse := {
  resp_status : Z;
  resp_statusText : string;
  resp_data : ResponseData
}.

(** A thrown value: an [Error] with its [message], and for an axios error the
    [response] (when the server answered) and whether a [request] was made. *)
Record JsError := {
  message : string;
  response : option AxiosResponse;
  request : bool
}.

(** [new Error(msg)] *)
Definition newError (msg : string) : JsError :=
  {| message := msg; response := None; request := false |}.

(** The [TypeError] of reading a property of [undefined] or [null] (the
    message is the one V8 gives). *)
Definition typeError (base property : string) : JsError :=
  newError ("Cannot read properties of " ++ base ++ " (reading '" ++ property ++ "')").

Inductive Client := UserApi | OrderApiClient | BillApiClient | Axios.
Inductive Method := GET | POST.

Record Request := {
  req_client : Client;
  req_method : Method;
  req_url : string;
  req_params : gmap string ParamVal;
  req_authorization : option string;
  req_upload : option string
}.

(** How the axios adapter settles a request. *)
Inductive Reply :=
| Fulfilled (r : AxiosResponse)
| Rejected (e : JsError).

Definition Backend : Type := Request -> Reply.

(** ** The browser state the client touches *)

Inductive ToastKind := ToastError | ToastWarning | ToastInfo | ToastSuccess.

Definition Toast : Type := ToastKind * string.

Record World := {
  localStorage : gmap string string;
  pathname : string;
  navigations : list string;
  toasts : list Toast;
  sent : list Request
}.

Inductive Outcome (A : Type) :=
| Returned (a : A)
| Thrown (e : JsError).
Arguments Returned {A} a.
Arguments Thrown {A} e.

(** A computation that may read and change the [World] and may throw. *)
Definition Eff (A : Type) : Type := World -> Outcome A * World.

#[global] Instance eff_ret : MRet Eff := fun A a w => (Returned a, w).

#[global] Instance eff_bind : MBind Eff := fun A B f m w =>
  match m w with
  | (Returned a, w') => f a w'
  | (Thrown e, w') => (Thrown e, w')
  end.

Definition throw {A : Type} (e : JsError) : Eff A := fun w => (Thrown e, w).

(** [try { body } catch (e) { handler e }] *)
Definition tryCatch {A : Type} (body : Eff A) (handler : JsError -> Eff A) : Eff A :=
  fun w =>
    match body w with
    | (Returned a, w') => (Returned a, w')
    | (Thrown e, w') => handler e w'
    end.

Definition toast (kind : ToastKind) (text : string) : Eff unit := fun w =>
  (Returned tt,
   {| localStorage := w.(localStorage); pathname := w.(pathname);
      navigations := w.(navigations); toasts := w.(toasts) ++ [(kind, text)];
      sent := w.(sent) |}).

(** [localStorage.getItem(key)] *)
Definition getItem (key : string) : Eff (option string) := fun w =>
  (Returned (w.(localStorage) !! key), w).

(** [localStorage.removeItem(key)] *)
Definition removeItem (key : string) : Eff unit := fun w =>
  (Returned tt,
   {| localStorage := delete key w.(localStorage); pathname := w.(pathname);
      navigations := w.(navigations); toasts := w.(toasts);
      sent := w.(sent) |}).

Definition getPathname : Eff string := fun w => (Returned w.(pathname), w).

(** [window.location.href = path]: the browser navigates there. *)
Definition setHref (path : string) : Eff unit := fun w =>
  (Returned tt,
   {| localStorage := w.(localStorage); pathname := path;
      navigations := w.(navigations) ++ [path]; toasts := w.(toasts);
      sent := w.(sent) |}).

(** The request leaves the browser and the adapter settles it. *)
Definition dispatch (backend : Backend) (req : Request) : Eff Reply := fun w =>
  (Returned (backend req),
   {| localStorage := w.(localStorage); pathname := w.(pathname);
      navigations := w.(navigations); toasts := w.(toasts);
      sent := w.(sent) ++ [req] |}).

(** [String(x)] of a [detail] value inside a template literal. *)
Definition itemToString (i : DetailItem) : string :=
  match i with
  | ItemStr s => s
  | ItemObj _ => "[object Object]"
  end.

Definition detailToString (d : Detail) : string :=
  match d with
  | DetailStr s => s
  | DetailArr items => join "," (map itemToString items)
  | DetailObj _ => "[object Object]"
  end.

(** [data?.detail] when truthy. *)
Definition truthyDetail (data : ResponseData) : option Detail :=
  match data with
  | DataObject o =>
      match o.(detail) with
      | Some (DetailStr s) => if String.eqb s EmptyString then None else Some (DetailStr s)
      | d => d
      end
  | _ => None
  end.

(** [a || b] on strings *)
Definition orElse (a b : string) : string :=
  if String.eqb a EmptyString then b else a.

(** [API_BASE_URL] when [VITE_API_BASE_URL] is not set. *)
Definition API_BASE_URL : string :=
  "https://jh6x5iq1s9.execute-api.ap-southeast-2.amazonaws.com/dev".

(** ** Query parameters of the order listings ([orderApi]) *)

Record OrderFilters := {
  page : option Z;
  page_size : option Z;
  from_date : option string;
  to_date : option string;
  order_search_item : option string;
  source_option : option string;
  store_by : option string
}.

(** [filters = {}] *)
Definition noFilters : OrderFilters :=
  {| page := None; page_size := None; from_date := None; to_date := None;
     order_search_item := None; source_option := None; store_by := None |}.

(** [n || d] on numbers *)
Definition numOr (n : option Z) (d : Z) : Z :=
  match n with
  | Some v => if v =? 0 then d else v
  | None => d
  end.

(** [s || d] on strings *)
Definition strOr (s : option string) (d : string) : string :=
  match s with
  | Some v => orElse v d
  | None => d
  end.

(** [...(cond && { key: value })] spread into the object literal [m] *)
Definition spread (cond : bool) (key : string) (value : option string)
    (m : gmap string ParamVal) : gmap string ParamVal :=
  match value with
  | Some v => if cond then <[key := PStr v]> m else m
  | None => m
  end.

(** The [params] literal of [getAllOrders]. *)
Definition getAllOrders_params (filters : OrderFilters) : gmap string ParamVal :=
  let p := <["page" := PNum (numOr filters.(page) 1)]> ∅ in
  let p := <["page_size" := PNum (numOr filters.(page_size) 20)]> p in
  let p := spread (truthy filters.(from_date)) "from_date" filters.(from_date) p in
  let p := spread (truthy filters.(to_date)) "to_date" filters.(to_date) p in
  let p := spread (truthy filters.(order_search_item))
             "order_search_item" filters.(order_search_item) p in
  let p := spread (truthy filters.(source_option)
                   && negb (bool_decide (filters.(source_option) = Some "All")))
             "source_option" filters.(source_option) p in
  <["store_by" := PStr (strOr filters.(store_by) "last_modified")]> p.

(** The [params] literal the six tab listings share word for word. *)
Definition tabListing_params (filters : OrderFilters) : gmap string ParamVal :=
  let p := <["page" := PNum (numOr filters.(page) 1)]> ∅ in
  let p := <["page_size" := PNum (numOr filters.(page_size) 20)]> p in
  let p := spread (truthy filters.(from_date)) "from_date" filters.(from_date) p in
  let p := spread (truthy filters.(to_date)) "to_date" filters.(to_date) p in
  let p := spread (truthy filters.(order_search_item))
             "order_search_item" filters.(order_search_item) p in
  let p := spread (truthy filters.(source_option))
             "source_option" filters.(source_option) p in
  <["store_by" := PStr (strOr filters.(store_by) "last_modified")]> p.

Definition getConfirmedOrders_params := tabListing_params.
Definition getWaitForShippingOrders_params := tabListing_params.
Definition getUnpaidOrders_params := tabListing_params.
Definition getAbnormalOrders_params := tabListing_params.
Definition getTicketedOrders_params := tabListing_params.
Definition getCancelledOrders_params := tabListing_params.

(** ** The API client ([src/utils/api.ts]) *)

Section Api.

Variable backend : Backend.

(** Request interceptor of the three service clients. *)
Definition addAuthToken (config : Request) : Eff Request :=
  token ← getItem "accessToken";
  mret (if truthy token
        then {| req_client := config.(req_client);
                req_method := config.(req_method);
                req_url := config.(req_url);
                req_params := config.(req_params);
                req_authorization := Some ("Bearer " ++ default EmptyString token);
                req_upload := config.(req_upload) |}
        else config).

(** Response interceptor of the three service clients; it always ends in
    [Promise.reject(error)]. *)
Definition responseErrorInterceptor {A : Type} (error : JsError) : Eff A :=
  match error.(response) with
  | None =>
      toast ToastError
        ("Network error: " ++ error.(message) ++ ". Please check your connection.");;
      throw error
  | Some r =>
      (if includes "Network Error" error.(message) || includes "CORS" error.(message)
       then
         toast ToastError
           "CORS Error: Unable to connect to the backend service. Please check CORS configuration."
       else if r.(resp_status) =? 401 then
         removeItem "accessToken";;
         removeItem "refreshToken";;
         removeItem "user";;
         toast ToastError "Your session has expired. Please log in again.";;
         path ← getPathname;
         if String.eqb path "/auth/login" then mret tt else setHref "/auth/login"
       else if r.(resp_status) =? 422 then
         toast ToastError
           ("Validation error: " ++
            match truthyDetail r.(resp_data) with
            | Some d => detailToString d
            | None => "Validation error"
            end)
       else if 500 <=? r.(resp_status) then
         toast ToastError "Server error. Our team has been notified."
       else
         toast ToastError
           ("Error: " ++
            match truthyDetail r.(resp_data) with
            | Some d => detailToString d
            | None => orElse error.(message) "Unknown error"
            end));;
      throw error
  end.

(** A call through one of the intercepted clients ([orderApiClient.get],
    [orderApiClient.post], ...). The success interceptor only logs. *)
Definition clientCall (config : Request) : Eff AxiosResponse :=
  config ← addAuthToken config;
  reply ← dispatch backend config;
  match reply with
  | Fulfilled r => mret r
  | Rejected e => responseErrorInterceptor e
  end.

Definition orderApiClient_get (path : string) (params : gmap string ParamVal)
    : Eff AxiosResponse :=
  clientCall {| req_client := OrderApiClient; req_method := GET;
                req_url := path; req_params := params;
                req_authorization := None; req_upload := None |}.

(** [orderApiClient.post('/orders/upload', formData, ...)] *)
Definition orderApiClient_postFile (path : string) (fileName : string)
    : Eff AxiosResponse :=
  clientCall {| req_client := OrderApiClient; req_method := POST;
                req_url := path; req_params := ∅;
                req_authorization := None; req_upload := Some fileName |}.

(** The bare [axios.get(url, { headers, timeout, params })]: no interceptor
    is registered on the default instance. *)
Definition axios_get (url : string) (authorization : string)
    (params : gmap string ParamVal) : Eff AxiosResponse :=
  reply ← dispatch backend
    {| req_client := Axios; req_method := GET; req_url := url;
       req_params := params; req_authorization := Some authorization;
       req_upload := None |};
  match reply with
  | Fulfilled r => mret r
  | Rejected e => throw e
  end.

(** A listing call: the [catch] logs and rethrows. *)
Definition listing (path : string) (params : gmap string ParamVal)
    : Eff ResponseData :=
  tryCatch
    (response ← orderApiClient_get path params; mret response.(resp_data))
    (fun error => throw error).

Definition getAllOrders (filters : OrderFilters) : Eff ResponseData :=
  listing "/orders/get-all-orders" (getAllOrders_params filters).

Definition getConfirmedOrders (filters : OrderFilters) : Eff ResponseData :=
  listing "/orders/get-confirmed-orders" (getConfirmedOrders_params filters).

Definition getWaitForShippingOrders (filters : OrderFilters) : Eff ResponseData :=
  listing "/orders/get-unshipped-orders" (getWaitForShippingOrders_params filters).

Definition getUnpaidOrders (filters : OrderFilters) : Eff ResponseData :=
  listing "/orders/get-unpaid-orders" (getUnpaidOrders_params filters).

Definition getAbnormalOrders (filters : OrderFilters) : Eff ResponseData :=
  listing "/orders/get-returned-orders" (getAbnormalOrders_params filters).

Definition getTicketedOrders (filters : OrderFilters) : Eff ResponseData :=
  listing "/orders/get-ticketed-orders" (getTicketedOrders_params filters).

Definition getCancelledOrders (filters : OrderFilters) : Eff ResponseData :=
  listing "/orders/get-cancelled-orders" (getCancelledOrders_params filters).

End Api.

(** ** Single-order lookups ([orderApi.getOrderById], [orderApi.getOrderDetails]) *)

(** What [getOrderDetails] hands back: an element of a listing, or the body
    of a single-resource answer. *)
Inductive LookupResult :=
| FoundInList (order : Order)
| SingleResource (data : JsonObject).

(** One pass of the loop body that neither returned nor threw. *)
Inductive Attempt :=
| Found (r : LookupResult)
| NotFound.

(** [orders.find(order => order.order_id.toString() === orderId.toString()
                       || order.order_serial === orderId.toString())];
    an element without [order_id] makes the callback throw. *)
Fixpoint findOrder (orderId : string) (elements : list Order) : Outcome (option Order) :=
  match elements with
  | [] => Returned None
  | order :: rest =>
      match order.(order_id) with
      | None => Thrown (typeError "undefined" "toString")
      | Some i =>
          if String.eqb (idToString i) orderId
             || bool_decide (order.(order_serial) = Some orderId)
          then Returned (Some order)
          else findOrder orderId rest
      end
  end.

Definition searchListing (orderId : string) (elements : list Order) : Eff Attempt :=
  match findOrder orderId elements with
  | Returned (Some order) => mret (Found (FoundInList order))
  | Returned None => mret NotFound
  | Thrown e => throw e
  end.

(** The text both lookups append after ["Could not retrieve order details."];
    they differ in the no-response wording. *)
Definition lookupErrorMessage (noResponse : string) (error : JsError) : string :=
  "Could not retrieve order details." ++
  match error.(response) with
  | Some r =>
      " Server responded with " ++ pretty r.(resp_status) ++ ": " ++
      match truthyDetail r.(resp_data) with
      | Some d => detailToString d
      | None => r.(resp_statusText)
      end
  | None =>
      if error.(request) then noResponse else " " ++ error.(message)
  end.

Section SingleOrder.

Variable backend : Backend.

(** [orderApi.getOrderById(orderId)]: the direct endpoint, nothing else. *)
Definition getOrderById (orderId : string) : Eff ResponseData :=
  tryCatch
    (response ← orderApiClient_get backend ("/orders/order/" ++ orderId) ∅;
     match response.(resp_data) with
     | DataNull | DataText _ => throw (newError "API returned invalid data format")
     | data => mret data
     end)
    (fun error =>
       toast ToastError
         (lookupErrorMessage
            " No response received from server. Check network connection or CORS settings."
            error);;
       throw error).

(** The [try] block of one loop iteration of [getOrderDetails]. *)
Definition tryEndpoint (orderId endpoint : string) : Eff Attempt :=
  token ← getItem "accessToken";
  response ← axios_get backend (API_BASE_URL ++ endpoint)
               ("Bearer " ++ default "null" token)
               (<["order_id" := PStr orderId]> ∅);
  match response.(resp_data) with
  | DataArray elements => searchListing orderId elements
  | DataObject o =>
      match o.(orders) with
      | Some elements => searchListing orderId elements
      | None =>
          if truthyId o.(fields).(order_id)
          then mret (Found (SingleResource o))
          else mret NotFound
      end
  | DataNull | DataText _ => mret NotFound
  end.

(** [for (const endpoint of endpoints) { try { ... } catch (e) { error = e } }]
    followed by [throw error || new Error(...)]. *)
Fixpoint tryEndpoints (orderId : string) (endpoints : list string)
    (error : option JsError) : Eff LookupResult :=
  match endpoints with
  | [] =>
      throw (default
               (newError "Failed to fetch order details after trying all endpoints")
               error)
  | endpoint :: rest =>
      step ← tryCatch (a ← tryEndpoint orderId endpoint; mret (inl a))
                      (fun e => mret (inr e));
      match step with
      | inl (Found r) => mret r
      | inl NotFound => tryEndpoints orderId rest error
      | inr e => tryEndpoints orderId rest (Some e)
      end
  end.

Definition lookupEndpoints : list string := ["/orders/get-all-orders"; "/orders"].

(** [orderApi.getOrderDetails(orderId)] *)
Definition getOrderDetails (orderId : string) : Eff LookupResult :=
  tryCatch
    (tryEndpoints orderId lookupEndpoints None)
    (fun error =>
       toast ToastError
         (lookupErrorMessage " No response received from server." error);;
       throw error).

End SingleOrder.

(** ** The Orders page: state, listing by tab *)

(** A file picked by the user: its [name], its [size] in bytes, and the
    [text] that [FileReader.readAsText] delivers to [onload]. *)
Record File := {
  name : string;
  size : Z;
  text : string
}.

(** The [useState] cells of the [Orders] component. *)
Record OrdersState := {
  st_selectedTab : string;
  st_searchTerm : string;
  st_selectedMarketplace : string;
  st_dateRange_from : string;
  st_dateRange_to : string;
  st_uploadDialogOpen : bool;
  st_selectedFile : option File;
  st_isUploading : bool;
  st_sortBy : string;
  st_orders : list Order;
  st_page : Z;
  st_pageSize : Z;
  st_totalCount : Z;
  st_isLoading : bool
}.

(** The state right after the component mounts. *)
Definition initialState : OrdersState :=
  {| st_selectedTab := "all"; st_searchTerm := EmptyString; st_selectedMarketplace := "ALL";
     st_dateRange_from := EmptyString;
     st_dateRange_to := EmptyString; st_uploadDialogOpen := false;
     st_selectedFile := None; st_isUploading := false; st_sortBy := "last_modified";
     st_orders := []; st_page := 1; st_pageSize := 20; st_totalCount := 0;
     st_isLoading := false |}.

Definition setIsLoading (b : bool) (st : OrdersState) : OrdersState :=
  {| st_selectedTab := st.(st_selectedTab); st_searchTerm := st.(st_searchTerm);
     st_selectedMarketplace := st.(st_selectedMarketplace);
     st_dateRange_from := st.(st_dateRange_from);
     st_dateRange_to := st.(st_dateRange_to);
     st_uploadDialogOpen := st.(st_uploadDialogOpen);
     st_selectedFile := st.(st_selectedFile); st_isUploading := st.(st_isUploading);
     st_sortBy := st.(st_sortBy); st_orders := st.(st_orders);
     st_page := st.(st_page); st_pageSize := st.(st_pageSize);
     st_totalCount := st.(st_totalCount); st_isLoading := b |}.

(** [setOrders(os); setTotalCount(n)] *)
Definition setOrdersAndCount (os : list Order) (n : Z) (st : OrdersState) : OrdersState :=
  {| st_selectedTab := st.(st_selectedTab); st_searchTerm := st.(st_searchTerm);
     st_selectedMarketplace := st.(st_selectedMarketplace);
     st_dateRange_from := st.(st_dateRange_from);
     st_dateRange_to := st.(st_dateRange_to);
     st_uploadDialogOpen := st.(st_uploadDialogOpen);
     st_selectedFile := st.(st_selectedFile); st_isUploading := st.(st_isUploading);
     st_sortBy := st.(st_sortBy); st_orders := os;
     st_page := st.(st_page); st_pageSize := st.(st_pageSize);
     st_totalCount := n; st_isLoading := st.(st_isLoading) |}.

(** The upload cells: [setIsUploading], [setSelectedFile], [setUploadDialogOpen]. *)
Definition setUpload (uploading : bool) (file : option File) (dialog : bool)
    (st : OrdersState) : OrdersState :=
  {| st_selectedTab := st.(st_selectedTab); st_searchTerm := st.(st_searchTerm);
     st_selectedMarketplace := st.(st_selectedMarketplace);
     st_dateRange_from := st.(st_dateRange_from);
     st_dateRange_to := st.(st_dateRange_to);
     st_uploadDialogOpen := dialog;
     st_selectedFile := file; st_isUploading := uploading;
     st_sortBy := st.(st_sortBy); st_orders := st.(st_orders);
     st_page := st.(st_page); st_pageSize := st.(st_pageSize);
     st_totalCount := st.(st_totalCount); st_isLoading := st.(st_isLoading) |}.

(** [getErrorMessage(error)]. Every value thrown in this development is an
    [Error], whose [message] is a string, so the first test of the source
    decides; its later branches read thrown values that carry no string
    message. *)
Definition getErrorMessage (error : JsError) : string :=
  if String.eqb error.(message) "Network Error"
  then "Network error: Cannot connect to server. Please check your internet connection."
  else error.(message).

(** The filter literal [fetchTabOrders] builds from the component state. *)
Definition tabFilters (st : OrdersState) : OrderFilters :=
  {| from_date := Some st.(st_dateRange_from);
     to_date := Some st.(st_dateRange_to);
     order_search_item := Some st.(st_searchTerm);
     source_option := Some st.(st_selectedMarketplace);
     page := Some st.(st_page);
     page_size := Some st.(st_pageSize);
     store_by := Some st.(st_sortBy) |}.

(** [response.orders || []] and [response.total_count || 0]; reading a
    property of a [null] body throws. *)
Definition readPage (data : ResponseData) : Eff (list Order * Z) :=
  match data with
  | DataNull => throw (typeError "null" "orders")
  | DataObject o => mret (default [] o.(orders), default 0 o.(total_count))
  | DataText _ | DataArray _ => mret ([], 0)
  end.

Section OrdersPage.

Variable backend : Backend.

(** The [switch (tab)] of [fetchTabOrders]. *)
Definition fetchByTab (tab : string) (filters : OrderFilters) : Eff ResponseData :=
  if String.eqb tab "awaiting-payment" then getUnpaidOrders backend filters
  else if String.eqb tab "processing" then getWaitForShippingOrders backend filters
  else if String.eqb tab "shipped" then getConfirmedOrders backend filters
  else if String.eqb tab "abnormal" then getAbnormalOrders backend filters
  else if String.eqb tab "ticketed" then getTicketedOrders backend filters
  else if String.eqb tab "cancelled" then getCancelledOrders backend filters
  else getAllOrders backend filters.

(** [fetchTabOrders(tab)]: the [try] fills the list and the count, the
    [catch] reports, the [finally] clears the loading flag. *)
Definition fetchTabOrders (tab : string) (st : OrdersState) : Eff OrdersState :=
  let st := setIsLoading true st in
  st ← tryCatch
         (response ← fetchByTab tab (tabFilters st);
          '(os, n) ← readPage response;
          mret (setOrdersAndCount os n st))
         (fun error =>
            toast ToastError ("Failed to fetch orders: " ++ getErrorMessage error);;
            mret st);
  mret (setIsLoading false st).

End OrdersPage.

(** ** CSV upload ([handleUpload], [uploadFile], [downloadTemplate]) *)

Definition requiredFields : list string :=
  [ "order-id"; "sku"; "quantity-purchased"; "recipient-name"; "ship-address-1";
    "ship-city"; "ship-state"; "ship-postal-code"; "order-item-id" ].

Definition expectedHeader : list string :=
  [ "order-id"; "ship-phone"; "sku"; "quantity-purchased"; "recipient-name";
    "ship-address-1"; "ship-address-2"; "ship-address-3"; "ship-city";
    "ship-state"; "ship-postal-code"; "consumer_price"; "order-item-id";
    "product-name"; "shipping-price" ].

Definition essentialFields : list string :=
  [ "order-id"; "sku"; "quantity-purchased"; "recipient-name" ].

Definition normalizeFieldName (field : string) : string :=
  if includes "ship" field && includes "phone" field then "ship-phone" else field.

Section Validation.

(** The case mapping of the runtime's Unicode tables ([toLowerCase]). *)
Variable unicodeLower : string -> string.

(** [header.split(',').map(field => field.trim().toLowerCase())] of the
    trimmed first line. *)
Definition headerFieldsOf (line : string) : list string :=
  map (fun field => toLowerCase unicodeLower (trim field))
    (split ","%char (trim line)).

Definition missingFieldsOf (headerFields : list string) : list string :=
  let normalizedHeaderFields := map normalizeFieldName headerFields in
  List.filter
    (fun field =>
       negb (arrayIncludes normalizedHeaderFields (toLowerCase unicodeLower field)))
    requiredFields.

(** [index >= 0 && index < values.length] for [index = headerFields.indexOf(field)] *)
Definition resolves (headerFields values : list string) (field : string) : bool :=
  let index := indexOf headerFields field in
  (0 <=? index) && (index <? Z.of_nat (length values)).

Definition headerCountWarning (n : nat) : Toast :=
  (ToastWarning,
   "Your CSV header has " ++ pretty n ++ " columns, but we recommend " ++
   pretty (length expectedHeader) ++
   " columns for best results. Download our template for reference.").

Definition mismatchWarning (nHeader nValues : nat) : Toast :=
  (ToastWarning,
   "Warning: Column count mismatch between header (" ++ pretty nHeader ++
   ") and data (" ++ pretty nValues ++
   "). The system will attempt to map fields based on header positions.").

Definition orderIdWarning : Toast :=
  (ToastWarning,
   "Order ID format may not be recognized. Expected format: XXX-XXXXXXX-XXXXXXX").

Definition skuWarning : Toast := (ToastWarning, "SKU should be a numeric value").

(** The soft check of the first row's order id. *)
Definition orderIdCheck (headerFields values : list string) : list Toast :=
  let orderIdIndex := indexOf headerFields "order-id" in
  if (0 <=? orderIdIndex) && (orderIdIndex <? Z.of_nat (length values)) then
    let orderId := default EmptyString (at_index values orderIdIndex) in
    if negb (Regex.search false Regex.amazonOrderId orderId)
       && negb (Regex.search false Regex.genericOrderId orderId)
    then [orderIdWarning] else []
  else [].

(** The soft check of the first row's SKU. *)
Definition skuCheck (headerFields values : list string) : list Toast :=
  let skuIndex := indexOf headerFields "sku" in
  if (0 <=? skuIndex) && (skuIndex <? Z.of_nat (length values)) then
    let sku := default EmptyString (at_index values skuIndex) in
    if negb (Regex.allDigits sku) then [skuWarning] else []
  else [].

(** The body of [fileReader.onload] up to the call of [uploadFile]: the
    toasts it raises, in order, and whether [uploadFile] is reached. *)
Definition validateContent (content : string) : list Toast * bool :=
  let lines := split "010"%char content in
  if (length lines <? 2)%nat then
    ([(ToastError, "CSV file must contain header row and at least one data row")],
     false)
  else
    let headerFields := headerFieldsOf (nth 0 lines EmptyString) in
    let missingFields := missingFieldsOf headerFields in
    if (0 <? length missingFields)%nat then
      ([(ToastError, "CSV missing required fields: " ++ join ", " missingFields)],
       false)
    else
      let countWarning :=
        if negb (length headerFields =? length expectedHeader)%nat
        then [headerCountWarning (length headerFields)] else [] in
      let firstDataRow := trim (nth 1 lines EmptyString) in
      let values := split ","%char firstDataRow in
      let mismatch := negb (length values =? length headerFields)%nat in
      let canProceed := forallb (resolves headerFields values) essentialFields in
      if mismatch && negb canProceed then
        ((countWarning ++
          [(ToastError,
            "Essential fields (order-id, sku, quantity) can't be mapped correctly. Please check your CSV format.")])%list,
         false)
      else
        ((countWarning
          ++ (if mismatch
              then [mismatchWarning (length headerFields) (length values)] else [])
          ++ orderIdCheck headerFields values
          ++ skuCheck headerFields values)%list,
         true).

End Validation.

Definition MAX_FILE_SIZE : Z := 10 * 1024 * 1024.

Fixpoint emit (ts : list Toast) : Eff unit :=
  match ts with
  | [] => mret tt
  | (kind, msg) :: r => toast kind msg;; emit r
  end.

(** [`${response.data.orders_processed}`] *)
Definition ordersProcessed (data : ResponseData) : Eff string :=
  match data with
  | DataNull => throw (typeError "null" "orders_processed")
  | DataObject o =>
      mret (match o.(orders_processed) with Some n => pretty n | None => "undefined" end)
  | DataText _ | DataArray _ => mret "undefined"
  end.

(** The message [uploadFile] shows for a failed upload. *)
Definition uploadErrorMessage (error : JsError) : string :=
  if negb (String.eqb error.(message) EmptyString) then error.(message)
  else match error.(response) with
       | Some r =>
           if r.(resp_status) =? 500 then
             "Server error processing your file. Please check the server logs."
           else if r.(resp_status) =? 422 then
             match truthyDetail r.(resp_data) with
             | Some (DetailStr s) => s
             | Some (DetailArr items) =>
                 match items with i :: _ => itemToString i | [] => "undefined" end
             | Some (DetailObj _) => "Invalid data in CSV file"
             | None => "File validation failed. Please check the format."
             end
           else if r.(resp_status) =? 401 then
             "Authentication failed. Please log in again."
           else "Failed to upload orders"
       | None => "Failed to upload orders"
       end.

Section Upload.

Variable unicodeLower : string -> string.

Variable backend : Backend.

(** [orderApi.uploadOrders(file)] *)
Definition uploadOrders (file : File) : Eff ResponseData :=
  tryCatch
    (response ← orderApiClient_postFile backend "/orders/upload" file.(name);
     processed ← ordersProcessed response.(resp_data);
     toast ToastSuccess ("Orders uploaded successfully. Processed: " ++ processed);;
     mret response.(resp_data))
    (fun error =>
       toast ToastError "Failed to upload orders. Please try again.";;
       throw error).

(** [uploadFile()], called with a file selected. *)
Definition uploadFile (file : File) (st : OrdersState) : Eff OrdersState :=
  let st := setUpload true st.(st_selectedFile) st.(st_uploadDialogOpen) st in
  st ← tryCatch
         (toast ToastInfo "Uploading file...";;
          _ ← uploadOrders file;
          toast ToastSuccess ("Successfully processed orders from " ++ file.(name));;
          let st := setUpload st.(st_isUploading) st.(st_selectedFile) false st in
          fetchTabOrders backend st.(st_selectedTab) st)
         (fun error =>
            toast ToastError (uploadErrorMessage error);;
            mret st);
  mret (setUpload false None st.(st_uploadDialogOpen) st).

(** [handleUpload()]; the text of the file is delivered to [onload] at once. *)
Definition handleUpload (st : OrdersState) : Eff OrdersState :=
  match st.(st_selectedFile) with
  | None => toast ToastError "Please select a file to upload";; mret st
  | Some selectedFile =>
      if negb (endsWith ".csv" selectedFile.(name)) then
        toast ToastError "Only CSV files are allowed";; mret st
      else if MAX_FILE_SIZE <? size selectedFile then
        toast ToastError "File too large. Maximum size is 10MB";; mret st
      else
        let '(raised, proceed) := validateContent unicodeLower selectedFile.(text) in
        emit raised;;
        if proceed then uploadFile selectedFile st else mret st
  end.

End Upload.

Definition templateHeader : string :=
  "order-id,ship-phone,sku,quantity-purchased,recipient-name,ship-address-1,ship-address-2,ship-address-3,ship-city,ship-state,ship-postal-code,consumer_price,order-item-id,product-name,shipping-price".

Definition templateSampleRow : string :=
  "123-4567890-1234567,9876543210,12345678,1,John Doe,123 Main St,Apt 456,Near Landmark,New York,NY,10001,29.99,01234567891234,Sample Product,4.99".

(** [csvContent = [header, sampleRow].join('\n')] *)
Definition csvContent : string :=
  join (String "010"%char EmptyString) [templateHeader; templateSampleRow].

(** [downloadTemplate()]: the file the browser is given (a [Blob] of the
    UTF-8 bytes of [csvContent]), and the toast. *)
Definition downloadTemplate : Eff File :=
  toast ToastSuccess
    "CSV template downloaded. Please follow this format for your order data.";;
  mret {| name := "order_template.csv";
          size := Z.of_nat (String.length csvContent); text := csvContent |}.

(** * Vocabulary of the statements *)

(** ** Query parameters and tabs *)

(** A filter field that is present and not the empty string. *)
Definition presentNonEmpty (o : option string) : Prop :=
  exists s, o = Some s /\ s <> EmptyString.

(** The tab ids the [switch] of [fetchTabOrders] names. *)
Definition knownTabs : list string :=
  [ "all"; "awaiting-payment"; "processing"; "shipped"; "abnormal";
    "ticketed"; "cancelled" ].

(** ** Order amounts *)

(** The amount as the specification words it: each product adds
    [final_price * quantity], a missing or non-numeric price adds 0. *)
Definition contribution (p : Product) : float :=
  match p.(final_price) with
  | PriceNumeric v => (v * p.(quantity))%float
  | PriceMissing | PriceNonNumeric _ => 0%float
  end.

(** The sum of the contributions, in list order. *)
Definition claimedAmount (ps : list Product) : float :=
  fold_left (fun sum p => (sum + contribution p)%float) ps 0%float.

(** A price [parseFloat] cannot read. *)
Definition unreadable (p : Product) : bool :=
  match p.(final_price) with
  | PriceNumeric _ => false
  | PriceMissing | PriceNonNumeric _ => true
  end.

(** The reducer of [calculateOrderAmount]. *)
Definition amountStep (sum : float) (product : Product) : float :=
  (sum + parseFloat product.(final_price) * product.(quantity))%float.

(** A product row. *)
Definition row (price : PriceField) (q : float) : Product :=
  {| final_price := price; quantity := q |}.

(** The doubles nearest to 0.1, 0.2 and 0.3. *)
Definition tenth : float := 0x1.999999999999ap-4%float.
Definition fifth : float := 0x1.999999999999ap-3%float.
Definition threeTenths : float := 0x1.3333333333333p-2%float.

(** ** The request log *)

(** [m] only ever appends to the log of sent requests. *)
Definition keepsSent {A : Type} (m : Eff A) : Prop :=
  forall w, exists more, (m w).2.(sent) = (w.(sent) ++ more)%list.

(** [m] sends a request satisfying [P] before anything else it sends. *)
Definition sends {A : Type} (P : Request -> Prop) (m : Eff A) : Prop :=
  forall w, exists req more,
    (m w).2.(sent) = (w.(sent) ++ req :: more)%list /\ P req.

(** What [clientCall] puts on the wire for [config]: the same request, with
    the [Authorization] header the interceptor may add. *)
Definition sameCall (config req : Request) : Prop :=
  req.(req_client) = config.(req_client)
  /\ req.(req_method) = config.(req_method)
  /\ req.(req_url) = config.(req_url)
  /\ req.(req_params) = config.(req_params)
  /\ req.(req_upload) = config.(req_upload).

(** The upload request of [file]. *)
Definition isUploadOf (file : File) (req : Request) : Prop :=
  req.(req_client) = OrderApiClient /\ req.(req_method) = POST
  /\ req.(req_url) = "/orders/upload" /\ req.(req_upload) = Some file.(name).

(** ** CSV texts *)

(** [content.split('\n')] *)
Definition csvLines (content : string) : list string := split "010"%char content.

(** The header fields of a CSV text, as [handleUpload] parses them. *)
Definition csvHeaderFields (unicodeLower : string -> string) (content : string)
    : list string :=
  headerFieldsOf unicodeLower (nth 0 (csvLines content) EmptyString).

(** The values of the first data row. *)
Definition csvFirstRow (content : string) : list string :=
  split ","%char (trim (nth 1 (csvLines content) EmptyString)).

(** The header in the words of the specification. Its column names are the
    pieces of the trimmed first line between the commas, each one trimmed and
    lower-cased. *)
Definition headerNames (unicodeLower : string -> string) (content : string)
    : list string :=
  map (fun cell => toLowerCase unicodeLower (trim cell))
    (split ","%char (trim (nth 0 (csvLines content) EmptyString))).

(** The ship/phone normalisation: a name that contains both [ship] and
    [phone] stands for [ship-phone]. *)
Definition shipPhone (columnName : string) : string :=
  if includes "ship" columnName && includes "phone" columnName
  then "ship-phone" else columnName.

(** The header after trimming, lower-casing and ship/phone normalisation. *)
Definition normalisedHeader (unicodeLower : string -> string) (content : string)
    : list string :=
  map shipPhone (headerNames unicodeLower content).

(** [field] resolves to a header index within the bounds of the row: it is
    the header name at a position that the row has too. *)
Definition resolvesWithin (header row : list string) (field : string) : Prop :=
  exists i : nat, (i < length row)%nat /\ header !! i = Some field.

(** A text of ASCII characters and white space is lower-cased without the
    Unicode tables; this mapping stands for them in the closed examples. *)
Definition noUnicodeLetters : string -> string := fun s => s.

(** A toast raised with [toast.warning]. *)
Definition isWarning (t : Toast) : Prop := t.1 = ToastWarning.

(** ** Tiers of the single-order lookup *)

(** The request [getOrderDetails] sends to a listing endpoint. *)
Definition lookupRequest (w : World) (orderId endpoint : string) : Request :=
  {| req_client := Axios; req_method := GET;
     req_url := API_BASE_URL ++ endpoint;
     req_params := <["order_id" := PStr orderId]> ∅;
     req_authorization :=
       Some ("Bearer " ++ default "null" (w.(localStorage) !! "accessToken"));
     req_upload := None |}.

(** The collection an answer carries: the body itself or its [orders]. *)
Definition collectionOf (data : ResponseData) : option (list Order) :=
  match data with
  | DataArray elements => Some elements
  | DataObject o => o.(orders)
  | DataNull | DataText _ => None
  end.

(** [order_id] (as a string) or [order_serial] equals the requested id. *)
Definition matchesId (orderId : string) (order : Order) : bool :=
  match order.(order_id) with
  | Some i => String.eqb (idToString i) orderId
  | None => false
  end || bool_decide (order.(order_serial) = Some orderId).

(** What one tier makes of the reply to its request. *)
Inductive Tier :=
| TierFound (r : LookupResult)
| TierNothing
| TierError (e : JsError).

(** The reply read as [tryEndpoint] reads it. *)
Definition tier (orderId : string) (reply : Reply) : Tier :=
  match reply with
  | Rejected e => TierError e
  | Fulfilled r =>
      match collectionOf r.(resp_data) with
      | Some elements =>
          match findOrder orderId elements with
          | Returned (Some order) => TierFound (FoundInList order)
          | Returned None => TierNothing
          | Thrown e => TierError e
          end
      | None =>
          match r.(resp_data) with
          | DataObject o =>
              if truthyId o.(fields).(order_id)
              then TierFound (SingleResource o) else TierNothing
          | _ => TierNothing
          end
      end
  end.

(** The error thrown when no attempt threw one. *)
Definition allTiersFailed : JsError :=
  newError "Failed to fetch order details after trying all endpoints".

(** [w] after [reqs] were sent and [raised] were shown. *)
Definition after (reqs : list Request) (raised : list Toast) (w : World) : World :=
  {| localStorage := w.(localStorage); pathname := w.(pathname);
     navigations := w.(navigations); toasts := (w.(toasts) ++ raised)%list;
     sent := (w.(sent) ++ reqs)%list |}.

(** The error [getOrderDetails] ends with when neither tier found the order:
    the last one met, or the generic one when none was. *)
Definition lastError (t1 t2 : Tier) : JsError :=
  match t2, t1 with
  | TierError e2, _ => e2
  | _, TierError e1 => e1
  | _, _ => allTiersFailed
  end.

(** ** Sample backends, browsers and sheets *)

(** An order of the backend. *)
Definition sampleOrder : Order :=
  {| order_id := Some (IdNum 42); order_serial := Some "171-42";
     status := Some "OS"; status_payment := Some "PD"; status_return := None;
     status_dispute := None; status_shipping := Some "SU";
     products := Some [] |}.

(** A listing body holding [sampleOrder]. *)
Definition sampleListing : JsonObject :=
  {| orders := Some [sampleOrder]; total_count := Some 1;
     orders_processed := Some 1; detail := None; fields :=
       {| order_id := None; order_serial := None; status := None;
          status_payment := None; status_return := None;
          status_dispute := None; status_shipping := None; products := None |};
     json_text := "{}" |}.

(** A backend that answers every request with [sampleListing]. *)
Definition sampleBackend : Backend := fun _ =>
  Fulfilled {| resp_status := 200; resp_statusText := "OK";
               resp_data := DataObject sampleListing |}.

(** A signed-in browser on the Orders page. *)
Definition signedIn : World :=
  {| localStorage :=
       <["accessToken" := "a.b.c"]>
         (<["refreshToken" := "r.s.t"]> (<["user" := "{}"]> ∅));
     pathname := "/orders"; navigations := []; toasts := []; sent := [] |}.

(** The axios error of a 404 answer. *)
Definition notFound : JsError :=
  {| message := "Request failed with status code 404";
     response := Some {| resp_status := 404; resp_statusText := "Not Found";
                         resp_data := DataNull |};
     request := true |}.


(** The axios error of a 401 answer. *)
Definition unauthorized : JsError :=
  {| message := "Request failed with status code 401";
     response := Some {| resp_status := 401; resp_statusText := "Unauthorized";
                         resp_data := DataNull |};
     request := true |}.

(** A backend for which the session has expired. *)
Definition expiredSession : Backend := fun _ => Rejected unauthorized.

(** A file holding [content] as UTF-8 text. *)
Definition csvFile (fileName content : string) : File :=
  {| name := fileName; size := Z.of_nat (String.length content); text := content |}.

(** A sheet whose header has no [sku] column; some names are padded or in
    upper case. *)
Definition sheetWithoutSku : File :=
  csvFile "orders.csv"
    (" Order-ID,quantity-purchased, Recipient-Name ,ship-address-1,ship-city,ship-state,ship-postal-code,order-item-id"
     ++ String "010"%char "171-1-1,2,Asha,12 Hill Rd,Pune,MH,411001,9001").

(** The sheet with [sku], its name in upper case between two no-break
    spaces; the first row stops after five columns. *)
Definition sheetShortRow : File :=
  csvFile "orders.csv"
    (" Order-ID," ++ utf8 160 ++ "SKU" ++ utf8 160
     ++ ",quantity-purchased, Recipient-Name ,ship-address-1,ship-city,ship-state,ship-postal-code,order-item-id"
     ++ String "010"%char "171-1-1,5512,2,Asha,12 Hill Rd").

(** A sheet that is a header line and nothing else. *)
Definition sheetHeaderOnly : File :=
  csvFile "orders.csv" "order-id,quantity-purchased,recipient-name".

(** A sheet with [sku] whose header lacks the address columns; its first row
    has one column more than the header. *)
Definition sheetWithoutAddress : File :=
  csvFile "orders.csv"
    ("order-id,sku,quantity-purchased,recipient-name"
     ++ String "010"%char "171-1-1,5512,2,Asha,Pune").

(** A workbook picked by mistake. *)
Definition workbook : File := csvFile "orders.xlsx" csvContent.

(** The page with [file] selected in the upload dialog. *)
Definition picked (file : File) : OrdersState :=
  setUpload false (Some file) true initialState.

(** * Further parts of the client *)

(** ** Authentication calls ([authApi.login], [authApi.logout], [authApi.refreshToken]) *)

(** [localStorage.setItem(key, value)] *)
Definition setItem (key value : string) : Eff unit := fun w =>
  (Returned tt,
   {| localStorage := <[key := value]> w.(localStorage); pathname := w.(pathname);
      navigations := w.(navigations); toasts := w.(toasts);
      sent := w.(sent) |}).

(** The body of a login or refresh answer: the fields the client reads.
    [user_json] is the text [JSON.stringify(user)] gives. *)
Record AuthBody := {
  access_token : option string;
  refresh_token : option string;
  user_json : option string
}.

(** How the adapter settles a call of the user service that answers with
    tokens; a fulfilled answer may have no body. *)
Inductive AuthReply :=
| AuthFulfilled (body : option AuthBody)
| AuthRejected (e : JsError).

(** The user service sees the request and the JSON body posted with it. *)
Definition AuthBackend : Type := Request -> gmap string string -> AuthReply.

(** The [TypeError] of destructuring a missing body. *)
Definition destructureError (property : string) : JsError :=
  newError ("Cannot destructure property '" ++ property
            ++ "' of 'response.data' as it is undefined.").

(** [localStorage.setItem] turns [undefined] into the text ["undefined"]. *)
Definition stored (value : option string) : string := default "undefined" value.

Section Auth.

Variable users : AuthBackend.

(** The request leaves the browser with its body and the adapter settles it. *)
Definition dispatchAuth (req : Request) (body : gmap string string) : Eff AuthReply :=
  fun w =>
    (Returned (users req body),
     {| localStorage := w.(localStorage); pathname := w.(pathname);
        navigations := w.(navigations); toasts := w.(toasts);
        sent := (w.(sent) ++ [req])%list |}).

(** [userApi.post(path, body)], through the interceptors of [userApi]. *)
Definition userApi_post (path : string) (body : gmap string string)
    : Eff (option AuthBody) :=
  config ← addAuthToken {| req_client := UserApi; req_method := POST;
                           req_url := path; req_params := ∅;
                           req_authorization := None; req_upload := None |};
  reply ← dispatchAuth config body;
  match reply with
  | AuthFulfilled data => mret data
  | AuthRejected e => responseErrorInterceptor e
  end.

(** [authApi.login({ email, password })] *)
Definition login (email password : string) : Eff AuthBody :=
  tryCatch
    (data ← userApi_post "/login" (<["email" := email]> (<["password" := password]> ∅));
     match data with
     | None => throw (destructureError "access_token")
     | Some body =>
         setItem "accessToken" (stored body.(access_token));;
         setItem "refreshToken" (stored body.(refresh_token));;
         setItem "user" (stored body.(user_json));;
         toast ToastSuccess "Login successful!";;
         mret body
     end)
    (fun error =>
       toast ToastError "Login failed. Please check your credentials and try again.";;
       throw error).

(** [authApi.logout()] *)
Definition logout : Eff unit :=
  removeItem "accessToken";;
  removeItem "refreshToken";;
  removeItem "user";;
  toast ToastInfo "You have been logged out.".

(** [authApi.refreshToken()] *)
Definition refreshToken : Eff (option string) :=
  tryCatch
    (held ← getItem "refreshToken";
     if truthy held then
       data ← userApi_post "/refresh-token"
                (<["refresh_token" := default EmptyString held]> ∅);
       match data with
       | None => throw (destructureError "access_token")
       | Some body =>
           setItem "accessToken" (stored body.(access_token));;
           mret body.(access_token)
       end
     else throw (newError "No refresh token available"))
    (fun error => logout;; throw error).

End Auth.

(** ** Wallet balance ([billApi.getWalletBalance]) *)

Section Bills.

Variable backend : Backend.

Definition userApi_get (path : string) (params : gmap string ParamVal)
    : Eff AxiosResponse :=
  clientCall backend {| req_client := UserApi; req_method := GET;
                        req_url := path; req_params := params;
                        req_authorization := None; req_upload := None |}.

Definition billApiClient_get (path : string) (params : gmap string ParamVal)
    : Eff AxiosResponse :=
  clientCall backend {| req_client := BillApiClient; req_method := GET;
                        req_url := path; req_params := params;
                        req_authorization := None; req_upload := None |}.

(** [billApi.getWalletBalance()]: the user service first, the bill service
    when that call fails; the outer [catch] logs and rethrows. *)
Definition getWalletBalance : Eff ResponseData :=
  tryCatch
    (tryCatch
       (response ← userApi_get "/get-customer-balance" ∅;
        mret response.(resp_data))
       (fun err =>
          response ← billApiClient_get "/wallet/balance" ∅;
          mret response.(resp_data)))
    (fun error => throw error).

End Bills.

(** ** Wallet transactions ([Wallet] page) *)

(** A numeric field that arrives as a number or as a text; a text carries the
    two readings the page makes of it: [Number(text)], used by [<], and
    [parseFloat(text)]. *)
Inductive Numeric :=
| NumNumber (n : float)
| NumText (raw : string) (asNumber parsed : float).

(** A bill of the user service; [bill_order_id] is its [order_id]. *)
Record Bill := {
  bill_id : option Z;
  bill_debitload_type : option Z;
  bill_sum : option Numeric;
  bill_order_id : option OrderId;
  bill_add_date : option string;
  bill_balance_after : option Numeric;
  bill_comments : option string
}.

(** A row of the transactions table. *)
Record Transaction := {
  tx_id : option Z;
  tx_date : string;
  tx_type : string;
  tx_amount : string;
  tx_balance : string;
  tx_details : string;
  transaction_type : string
}.

Definition BILL_TYPES : list (Z * string) :=
  [ (0, "Payment"); (1, "Recharge"); (2, "Withdrawal"); (3, "Refund") ].

Fixpoint assocZ (k : Z) (kvs : list (Z * string)) : option string :=
  match kvs with
  | [] => None
  | (k', v) :: r => if k' =? k then Some v else assocZ k r
  end.

(** Truthiness of a number: neither zero nor [NaN]. *)
Definition truthyFloat (f : float) : bool :=
  negb (PrimFloat.eqb f 0) && PrimFloat.eqb f f.

Definition truthyNumeric (x : option Numeric) : bool :=
  match x with
  | Some (NumNumber n) => truthyFloat n
  | Some (NumText raw _ _) => negb (String.eqb raw EmptyString)
  | None => false
  end.

(** [x < 0] for a field [x]: a text is read by [Number], [undefined] is
    never below zero. *)
Definition fieldBelowZero (x : option Numeric) : bool :=
  match x with
  | Some (NumNumber n) => PrimFloat.ltb n 0
  | Some (NumText _ asNumber _) => PrimFloat.ltb asNumber 0
  | None => false
  end.

(** [typeof x === 'string' ? parseFloat(x) : x]; [None] is [undefined]. *)
Definition billSumOf (x : option Numeric) : option float :=
  match x with
  | Some (NumNumber n) => Some n
  | Some (NumText _ _ parsed) => Some parsed
  | None => None
  end.

(** [billSum < 0] *)
Definition belowZero (billSum : option float) : bool :=
  match billSum with
  | Some f => PrimFloat.ltb f 0
  | None => false
  end.

(** [parseFloat(x)] of a truthy numeric field. *)
Definition parseNumeric (x : Numeric) : float :=
  match x with
  | NumNumber n => n
  | NumText _ _ parsed => parsed
  end.

Definition pageSize : Z := 10.

(** [xs.slice(start, end)]: a negative index counts from the end. *)
Definition relativeIndex (len i : Z) : Z :=
  if i <? 0 then Z.max (len + i) 0 else Z.min i len.

Definition slice {A : Type} (start stop : Z) (xs : list A) : list A :=
  let len := Z.of_nat (length xs) in
  let from := relativeIndex len start in
  let to := relativeIndex len stop in
  firstn (Z.to_nat (to - from)) (skipn (Z.to_nat from) xs).

(** The tab filter of [fetchTransactions]. *)
Definition filterBills (tab : string) (bills : list Bill) : list Bill :=
  if negb (String.eqb tab "all") then
    if String.eqb tab "recharges" then
      List.filter (fun bill => bool_decide (bill.(bill_debitload_type) = Some 1)) bills
    else if String.eqb tab "payments" then
      List.filter
        (fun bill =>
           bool_decide (bill.(bill_debitload_type) = Some 0)
           || (fieldBelowZero bill.(bill_sum) && truthyId bill.(bill_order_id)))
        bills
    else if String.eqb tab "refunds" then
      List.filter (fun bill => bool_decide (bill.(bill_debitload_type) = Some 3)) bills
    else bills
  else bills.

(** [Math.ceil(total / pageSize) || 1] for a list length [total]. *)
Definition totalPagesOf (total : nat) : Z :=
  let calculatedTotalPages := (Z.of_nat total + pageSize - 1) / pageSize in
  if calculatedTotalPages =? 0 then 1 else calculatedTotalPages.

(** The sign [fetchTransactions] gives a bill. *)
Definition signOf (bill : Bill) : string :=
  let billSum := billSumOf bill.(bill_sum) in
  if truthyId bill.(bill_order_id)
     && bool_decide (bill.(bill_debitload_type) = Some 0) then "-"
  else if belowZero billSum then "-"
  else if bool_decide (bill.(bill_debitload_type) = Some 1)
          || bool_decide (bill.(bill_debitload_type) = Some 3) then "+"
  else if bool_decide (bill.(bill_debitload_type) = Some 0)
          || bool_decide (bill.(bill_debitload_type) = Some 2) then "-"
  else "+".

(** State cells of the [Wallet] component that [fetchTransactions],
    [handleTabChange] and [handlePageChange] write. *)
Record WalletState := {
  ws_isLoading : bool;
  ws_transactions : list Transaction;
  ws_selectedTab : string;
  ws_currentPage : Z;
  ws_totalPages : Z
}.

(** How the adapter settles [GET /bills/]: the body is an array of bills or
    something else ([None]). *)
Inductive BillsReply :=
| BillsFulfilled (data : option (list Bill))
| BillsRejected (e : JsError).

Definition BillsBackend : Type := Request -> BillsReply.

Section Wallet.

(** [formatCurrency] renders through [Intl.NumberFormat], which belongs to
    the runtime. *)
Variable formatCurrency : float -> string.

Variable billing : BillsBackend.

(** The [map] callback of [fetchTransactions]. *)
Definition toTransaction (bill : Bill) : Transaction :=
  let type :=
    default "Transaction"
      (match bill.(bill_debitload_type) with
       | Some t => assocZ t BILL_TYPES
       | None => None
       end) in
  let sign := signOf bill in
  let billSum := billSumOf bill.(bill_sum) in
  let displayType :=
    if truthyId bill.(bill_order_id)
    then (if belowZero billSum then "Order Payment" else "Order Refund")
    else type in
  {| tx_id := bill.(bill_id);
     tx_date := strOr bill.(bill_add_date) "N/A";
     tx_type := displayType;
     tx_amount :=
       match billSum with
       | Some f =>
           if truthyFloat f then sign ++ formatCurrency (PrimFloat.abs f) else "N/A"
       | None => "N/A"
       end;
     tx_balance :=
       match bill.(bill_balance_after) with
       | Some x =>
           if truthyNumeric (Some x) then formatCurrency (parseNumeric x) else "N/A"
       | None => "N/A"
       end;
     tx_details :=
       if truthy bill.(bill_comments) then default EmptyString bill.(bill_comments)
       else match bill.(bill_order_id) with
            | Some i => if truthyId (Some i) then "Order #" ++ idToString i else "N/A"
            | None => "N/A"
            end;
     transaction_type := if String.eqb sign "+" then "add" else "subtract" |}.

(** The page [fetchTransactions] shows of an array of bills. *)
Definition pageOf (tab : string) (page : Z) (bills : list Bill) : list Transaction :=
  let filteredBills := filterBills tab bills in
  let startIndex := (page - 1) * pageSize in
  map toTransaction (slice startIndex (startIndex + pageSize) filteredBills).

(** The request leaves the browser and the adapter settles it. *)
Definition dispatchBills (req : Request) : Eff BillsReply := fun w =>
  (Returned (billing req),
   {| localStorage := w.(localStorage); pathname := w.(pathname);
      navigations := w.(navigations); toasts := w.(toasts);
      sent := (w.(sent) ++ [req])%list |}).

(** [userApi.get('/bills/', { params: {} })], through the interceptors. *)
Definition userApi_getBills : Eff (option (list Bill)) :=
  config ← addAuthToken {| req_client := UserApi; req_method := GET;
                           req_url := "/bills/"; req_params := ∅;
                           req_authorization := None; req_upload := None |};
  reply ← dispatchBills config;
  match reply with
  | BillsFulfilled data => mret data
  | BillsRejected e => responseErrorInterceptor e
  end.

(** [billApi.getAllBills()], called without an order id. *)
Definition getAllBills : Eff (option (list Bill)) :=
  tryCatch userApi_getBills
    (fun error =>
       toast ToastError "Failed to load billing information. Please try again.";;
       throw error).

(** [fetchTransactions(tab, page)] *)
Definition fetchTransactions (tab : string) (page : Z) (st : WalletState)
    : Eff WalletState :=
  st ← tryCatch
         (bills ← getAllBills;
          match bills with
          | Some bills =>
              mret {| ws_isLoading := true;
                      ws_transactions := pageOf tab page bills;
                      ws_selectedTab := st.(ws_selectedTab);
                      ws_currentPage := st.(ws_currentPage);
                      ws_totalPages :=
                        totalPagesOf (length (filterBills tab bills)) |}
          | None =>
              mret {| ws_isLoading := true; ws_transactions := [];
                      ws_selectedTab := st.(ws_selectedTab);
                      ws_currentPage := st.(ws_currentPage);
                      ws_totalPages := 1 |}
          end)
         (fun error =>
            mret {| ws_isLoading := true; ws_transactions := [];
                    ws_selectedTab := st.(ws_selectedTab);
                    ws_currentPage := st.(ws_currentPage);
                    ws_totalPages := 1 |});
  mret {| ws_isLoading := false; ws_transactions := st.(ws_transactions);
          ws_selectedTab := st.(ws_selectedTab);
          ws_currentPage := st.(ws_currentPage);
          ws_totalPages := st.(ws_totalPages) |}.

(** [handleTabChange(tab)] *)
Definition handleTabChange (tab : string) (st : WalletState) : Eff WalletState :=
  fetchTransactions tab 1
    {| ws_isLoading := st.(ws_isLoading); ws_transactions := st.(ws_transactions);
       ws_selectedTab := tab; ws_currentPage := 1;
       ws_totalPages := st.(ws_totalPages) |}.

(** [handlePageChange(newPage)] *)
Definition handlePageChange (newPage : Z) (st : WalletState) : Eff WalletState :=
  if (1 <=? newPage) && (newPage <=? st.(ws_totalPages)) then
    fetchTransactions st.(ws_selectedTab) newPage
      {| ws_isLoading := st.(ws_isLoading); ws_transactions := st.(ws_transactions);
         ws_selectedTab := st.(ws_selectedTab); ws_currentPage := newPage;
         ws_totalPages := st.(ws_totalPages) |}
  else mret st.

End Wallet.

(** * Further vocabulary *)

(** The request [config] as it leaves an intercepted client in browser [w]:
    with the stored access token, when there is one. *)
Definition withToken (w : World) (config : Request) : Request :=
  match w.(localStorage) !! "accessToken" with
  | Some token =>
      if String.eqb token EmptyString then config
      else {| req_client := config.(req_client);
              req_method := config.(req_method);
              req_url := config.(req_url);
              req_params := config.(req_params);
              req_authorization := Some ("Bearer " ++ token);
              req_upload := config.(req_upload) |}
  | None => config
  end.

(** A [GET] of the order service. *)
Definition orderGet (path : string) (params : gmap string ParamVal) : Request :=
  {| req_client := OrderApiClient; req_method := GET; req_url := path;
     req_params := params; req_authorization := None; req_upload := None |}.

(** The listing each tab of the Orders page asks for. *)
Definition tabRequest (tab : string) (filters : OrderFilters) : Request :=
  if String.eqb tab "awaiting-payment" then
    orderGet "/orders/get-unpaid-orders" (tabListing_params filters)
  else if String.eqb tab "processing" then
    orderGet "/orders/get-unshipped-orders" (tabListing_params filters)
  else if String.eqb tab "shipped" then
    orderGet "/orders/get-confirmed-orders" (tabListing_params filters)
  else if String.eqb tab "abnormal" then
    orderGet "/orders/get-returned-orders" (tabListing_params filters)
  else if String.eqb tab "ticketed" then
    orderGet "/orders/get-ticketed-orders" (tabListing_params filters)
  else if String.eqb tab "cancelled" then
    orderGet "/orders/get-cancelled-orders" (tabListing_params filters)
  else orderGet "/orders/get-all-orders" (getAllOrders_params filters).

(** [order] with the default return code [RN] and the default dispute code
    [DN] taken out. *)
Definition dropDefaults (order : Order) : Order :=
  {| order_id := order.(order_id); order_serial := order.(order_serial);
     status := order.(status); status_payment := order.(status_payment);
     status_return :=
       if bool_decide (order.(status_return) = Some "RN") then None
       else order.(status_return);
     status_dispute :=
       if bool_decide (order.(status_dispute) = Some "DN") then None
       else order.(status_dispute);
     status_shipping := order.(status_shipping);
     products := order.(products) |}.

(** The code is the name of a property every object inherits. *)
Definition inherited (code : option string) : bool :=
  arrayIncludes objectPrototypeKeys (default "undefined" code).

(** A [GET] without parameters through the client [client]. *)
Definition plainGet (client : Client) (path : string) : Request :=
  {| req_client := client; req_method := GET; req_url := path;
     req_params := ∅; req_authorization := None; req_upload := None |}.

(** A [POST] of the user service. *)
Definition userPost (path : string) : Request :=
  {| req_client := UserApi; req_method := POST; req_url := path;
     req_params := ∅; req_authorization := None; req_upload := None |}.

(** The three credentials kept in [localStorage]. *)
Definition credentialKeys : list string := ["accessToken"; "refreshToken"; "user"].

(** A user service that signs the user in. *)
Definition sampleTokens : AuthBody :=
  {| access_token := Some "n.e.w"; refresh_token := Some "r.e.f";
     user_json := Some "{}" |}.

Definition grantingUsers : AuthBackend := fun _ _ => AuthFulfilled (Some sampleTokens).

(** A user service that rejects with a 401. *)
Definition refusingUsers : AuthBackend := fun _ _ => AuthRejected unauthorized.

(** A browser that was never signed in. *)
Definition signedOut : World :=
  {| localStorage := ∅; pathname := "/auth/login"; navigations := [];
     toasts := []; sent := [] |}.

(** A user service that cannot be found. *)
Definition unavailableUsers : AuthBackend := fun _ _ => AuthRejected notFound.

(** A formatter standing for [Intl.NumberFormat] in closed examples. *)
Definition plainCurrency (amount : float) : string := "INR".

(** An order payment of 120. *)
Definition orderPayment : Bill :=
  {| bill_id := Some 31; bill_debitload_type := Some 0;
     bill_sum := Some (NumText "-120.00" (-120)%float (-120)%float);
     bill_order_id := Some (IdNum 42); bill_add_date := Some "2025-01-04";
     bill_balance_after := Some (NumText "880.00" 880%float 880%float);
     bill_comments := None |}.

(** A user service holding one bill. *)
Definition oneBill : BillsBackend := fun _ => BillsFulfilled (Some [orderPayment]).

(** The wallet page before its first load. *)
Definition firstPage : WalletState :=
  {| ws_isLoading := false; ws_transactions := []; ws_selectedTab := "all";
     ws_currentPage := 1; ws_totalPages := 1 |}.

(** * Properties *)

(** ** The string primitives on small inputs *)

Example split_keeps_empty_pieces :
  split ","%char "a,,b," = ["a"; EmptyString; "b"; EmptyString].
Proof. reflexivity. Qed.

Example trim_strips_carriage_return :
  trim (" sku " ++ String "013"%char EmptyString) = "sku".
Proof. reflexivity. Qed.

(** [trimStart] and [trimEnd] run to the end: what they return starts, or
    ends, with no white space. *)
Lemma dropPrefix_length (p s t : string) :
  dropPrefix p s = Some t ->
  String.length s = (String.length p + String.length t)%nat.
Proof.
  revert s. induction p as [|a p IH]; intros s H; simpl in H.
  - now injection H as ->.
  - destruct s as [|b s]; [discriminate|].
    destruct (Ascii.eqb a b); [|discriminate].
    simpl. f_equal. apply IH, H.
Qed.

Lemma dropMark_shorter (marks : list string) (s t : string) :
  Forall (fun m => m <> EmptyString) marks ->
  dropMark marks s = Some t ->
  (String.length t < String.length s)%nat.
Proof.
  induction 1 as [|m marks Hm _ IH]; simpl; [discriminate|].
  destruct (dropPrefix m s) as [r|] eqn:Hdrop; [|exact IH].
  intros [= ->]. apply dropPrefix_length in Hdrop.
  destruct m; [contradiction | simpl in Hdrop; lia].
Qed.

Lemma dropMarks_done (marks : list string) (fuel : nat) (s : string) :
  Forall (fun m => m <> EmptyString) marks ->
  (String.length s <= fuel)%nat ->
  dropMark marks (dropMarks fuel marks s) = None.
Proof.
  intros Hmarks. revert s. induction fuel as [|fuel IH]; intros s Hlen; simpl.
  - destruct s; [|simpl in Hlen; lia].
    clear Hlen. induction Hmarks as [|m marks Hm _ IHm]; [reflexivity|].
    simpl. destruct m; [contradiction | exact IHm].
  - destruct (dropMark marks s) as [t|] eqn:Hdrop; [|exact Hdrop].
    apply IH. apply (dropMark_shorter marks s t Hmarks) in Hdrop. lia.
Qed.

Lemma rev_app_length (s acc : string) :
  String.length (String.rev_app s acc)
  = (String.length s + String.length acc)%nat.
Proof.
  revert acc. induction s as [|c s IH]; intros acc; simpl; [reflexivity|].
  rewrite IH. simpl. lia.
Qed.

Lemma rev_app_rev_app (s a b : string) :
  String.rev_app (String.rev_app s a) b = String.rev_app a (s ++ b).
Proof.
  revert a b. induction s as [|c s IH]; intros a b; simpl; [reflexivity|].
  now rewrite IH.
Qed.

Lemma rev_involutive (s : string) : String.rev (String.rev s) = s.
Proof.
  unfold String.rev. rewrite rev_app_rev_app. simpl.
  induction s as [|c s IH]; [reflexivity|].
  change (String c s ++ EmptyString) with (String c (s ++ EmptyString)).
  now rewrite IH.
Qed.

Lemma whiteSpace_not_empty :
  Forall (fun m => m <> EmptyString) whiteSpace
  /\ Forall (fun m => m <> EmptyString) (map String.rev whiteSpace).
Proof. split; vm_compute; repeat constructor; discriminate. Qed.

Lemma trimStart_done (s : string) : dropMark whiteSpace (trimStart s) = None.
Proof.
  apply dropMarks_done; [apply whiteSpace_not_empty | lia].
Qed.

Lemma trimEnd_done (s : string) :
  dropMark (map String.rev whiteSpace) (String.rev (trimEnd s)) = None.
Proof.
  unfold trimEnd. rewrite rev_involutive.
  apply dropMarks_done; [apply whiteSpace_not_empty|].
  unfold String.rev. rewrite rev_app_length. simpl. lia.
Qed.

Example trim_strips_unicode_white_space :
  trim (utf8 65279 ++ utf8 160 ++ "s k" ++ utf8 160 ++ "u" ++ utf8 12288 ++ utf8 8232)
  = "s k" ++ utf8 160 ++ "u".
Proof. reflexivity. Qed.

Example trim_keeps_other_characters :
  trim (utf8 133 ++ "sku" ++ utf8 8203) = utf8 133 ++ "sku" ++ utf8 8203.
Proof. reflexivity. Qed.

Example toLowerCase_leaves_unicode_to_the_runtime (unicodeLower : string -> string) :
  toLowerCase unicodeLower "Ship-Phone_2" = "ship-phone_2"
  /\ toLowerCase unicodeLower ("S" ++ utf8 8490 ++ "U")
     = unicodeLower ("S" ++ utf8 8490 ++ "U").
Proof. split; reflexivity. Qed.

Example header_fields_are_normalised (unicodeLower : string -> string) :
  map normalizeFieldName
    (headerFieldsOf unicodeLower
       (" Order-ID, Ship_Phone_Number ," ++ utf8 160 ++ "SKU" ++ utf8 65279))
  = ["order-id"; "ship-phone"; "sku"].
Proof. reflexivity. Qed.

Example order_id_patterns :
  Regex.search false Regex.amazonOrderId "123-4567890-1234567" = true
  /\ Regex.search false Regex.amazonOrderId "AB-77" = false
  /\ Regex.search false Regex.genericOrderId "AB-77" = true
  /\ Regex.allDigits "12345678" = true
  /\ Regex.allDigits "12a" = false.
Proof. repeat split; reflexivity. Qed.

Example header_only_sheet_is_blocked (unicodeLower : string -> string) :
  validateContent unicodeLower "order-id,sku"
  = ([(ToastError, "CSV file must contain header row and at least one data row")],
     false).
Proof. reflexivity. Qed.

(** ** Query parameters *)

Lemma truthy_spec (o : option string) : truthy o = true <-> presentNonEmpty o.
Proof.
  unfold truthy, presentNonEmpty. destruct o as [s|].
  - rewrite negb_true_iff. split.
    + intros H. exists s. split; [reflexivity|].
      intros ->. rewrite String.eqb_refl in H. discriminate.
    + intros (s' & [= <-] & Hne). now apply String.eqb_neq.
  - split; [discriminate|]. intros (s & H & _). discriminate.
Qed.

Lemma lookup_spread_ne cond key key' value (m : gmap string ParamVal) :
  key <> key' -> spread cond key value m !! key' = m !! key'.
Proof.
  intros Hne. unfold spread. destruct value, cond; try reflexivity.
  now apply lookup_insert_ne.
Qed.

Lemma lookup_spread_fresh cond key value (m : gmap string ParamVal) :
  m !! key = None ->
  spread cond key value m !! key = if cond then PStr <$> value else None.
Proof.
  intros Hm. unfold spread. destruct value as [v|], cond; simpl; auto.
  apply lookup_insert_eq.
Qed.

Lemma is_Some_spread_fresh key value (m : gmap string ParamVal) :
  m !! key = None ->
  is_Some (spread (truthy value) key value m !! key) <-> presentNonEmpty value.
Proof.
  intros Hm. rewrite lookup_spread_fresh by assumption.
  rewrite <- truthy_spec. destruct value as [v|]; simpl.
  - destruct (negb (String.eqb v EmptyString)); split; intros H;
      try reflexivity; try (now apply is_Some_None in H); try discriminate.
    now exists (PStr v).
  - split; [intros H; now apply is_Some_None in H | discriminate].
Qed.

Ltac skip_other_keys :=
  repeat first
    [ rewrite lookup_insert_ne by discriminate
    | rewrite lookup_spread_ne by discriminate ].


(** When no source is given, none of the seven listings sends one. *)
Lemma source_option_absent (filters : OrderFilters) :
  truthy filters.(source_option) = false ->
  getAllOrders_params filters !! "source_option" = None
  /\ tabListing_params filters !! "source_option" = None.
Proof.
  intros Hno. unfold getAllOrders_params, tabListing_params. split.
  - skip_other_keys. rewrite lookup_spread_fresh, Hno.
    + reflexivity.
    + skip_other_keys. apply lookup_empty.
  - skip_other_keys. rewrite lookup_spread_fresh, Hno.
    + reflexivity.
    + skip_other_keys. apply lookup_empty.
Qed.

(** C1. The marketplace selector's value for "no constraint" is ["ALL"]; the
    guard of [getAllOrders] tests ["All"], and the six tab listings have no
    guard, so for every filter whose [source_option] is ["ALL"] each of the
    seven listings sends [source_option=ALL]. *)
Theorem source_option_ALL_is_sent (filters : OrderFilters) :
  filters.(source_option) = Some "ALL" ->
  getAllOrders_params filters !! "source_option" = Some (PStr "ALL")
  /\ getUnpaidOrders_params filters !! "source_option" = Some (PStr "ALL")
  /\ getWaitForShippingOrders_params filters !! "source_option" = Some (PStr "ALL")
  /\ getConfirmedOrders_params filters !! "source_option" = Some (PStr "ALL")
  /\ getAbnormalOrders_params filters !! "source_option" = Some (PStr "ALL")
  /\ getTicketedOrders_params filters !! "source_option" = Some (PStr "ALL")
  /\ getCancelledOrders_params filters !! "source_option" = Some (PStr "ALL").
Proof.
  intros HALL.
  assert (Htab : tabListing_params filters !! "source_option" = Some (PStr "ALL")).
  { unfold tabListing_params. skip_other_keys.
    rewrite lookup_spread_fresh, HALL.
    - reflexivity.
    - skip_other_keys. apply lookup_empty. }
  repeat match goal with |- _ /\ _ => split end; try exact Htab.
  unfold getAllOrders_params. skip_other_keys.
  rewrite lookup_spread_fresh, HALL.
  - reflexivity.
  - skip_other_keys. apply lookup_empty.
Qed.

(** The filter the Orders page builds when it mounts carries ["ALL"]. *)
Lemma source_option_ALL_is_sent_on_mount :
  (tabFilters initialState).(source_option) = Some "ALL"
  /\ getAllOrders_params (tabFilters initialState) !! "source_option"
     = Some (PStr "ALL")
  /\ getUnpaidOrders_params (tabFilters initialState) !! "source_option"
     = Some (PStr "ALL").
Proof.
  split; [reflexivity|].
  pose proof (source_option_ALL_is_sent (tabFilters initialState) eq_refl) as H.
  split; [exact (proj1 H) | exact (proj1 (proj2 H))].
Defined.

(** ** Status badges *)

(** C6. An order whose overall status is the cancelled code ["OC"] is shown
    as "Cancelled" with the destructive variant, whatever its payment,
    return, dispute and shipping codes are. *)
Theorem getDisplayStatus_cancelled (order : Order) :
  order.(status) = Some "OC" ->
  getDisplayStatus order
  = {| ds_status := Some "Cancelled"; ds_variant := Some "destructive" |}.
Proof.
  intros Hoc. unfold getDisplayStatus.
  rewrite bool_decide_eq_true_2 by exact Hoc. reflexivity.
Qed.

Lemma getDisplayStatus_cancelled_witness :
  getDisplayStatus
    {| order_id := Some (IdNum 7); order_serial := Some "171-1";
       status := Some "OC"; status_payment := Some "PU";
       status_return := Some "RR"; status_dispute := Some "DP";
       status_shipping := Some "SS"; products := None |}
  = {| ds_status := Some "Cancelled"; ds_variant := Some "destructive" |}.
Proof.
  apply getDisplayStatus_cancelled. reflexivity.
Defined.

(** ** Listing by tab *)

Lemma eqb_unknown_tab (tab known : string) :
  ~ In tab knownTabs -> In known knownTabs -> String.eqb tab known = false.
Proof.
  intros Hout Hin. apply String.eqb_neq. intros ->. contradiction.
Qed.

Lemma fetchByTab_unknown backend (tab : string) (filters : OrderFilters) :
  ~ In tab knownTabs ->
  fetchByTab backend tab filters = getAllOrders backend filters.
Proof.
  intros Hout. unfold fetchByTab.
  repeat (rewrite (eqb_unknown_tab tab) by (auto; simpl; tauto)).
  reflexivity.
Qed.

(** C5. For a tab id outside the known set, [fetchTabOrders] sends the
    request it sends for tab "all" under the same filter state and ends in
    the same outcome, page state and browser state. *)
Theorem fetchTabOrders_unknown_tab backend (tab : string) (st : OrdersState)
    (w : World) :
  ~ In tab knownTabs ->
  fetchTabOrders backend tab st w = fetchTabOrders backend "all" st w.
Proof.
  intros Hout. unfold fetchTabOrders.
  rewrite (fetchByTab_unknown backend tab) by exact Hout.
  reflexivity.
Qed.

Lemma fetchTabOrders_unknown_tab_witness :
  fetchTabOrders sampleBackend "archived" initialState signedIn
  = fetchTabOrders sampleBackend "all" initialState signedIn.
Proof.
  apply fetchTabOrders_unknown_tab.
  simpl. intros H. repeat destruct H as [H|H]; try discriminate H. exact H.
Defined.

(** ** CSV template and validator *)

(** C8. The file [downloadTemplate] produces (the 15-column header and the
    sample row) is accepted by the upload checks: its name and size pass, the
    content validation raises no toast at all (so no warning and no blocking
    error) and reaches the upload. *)
Theorem template_passes_validation (unicodeLower : string -> string)
    (w : World) :
  exists file w',
    downloadTemplate w = (Returned file, w')
    /\ file.(text) = csvContent
    /\ csvHeaderFields unicodeLower file.(text) = expectedHeader
    /\ length (csvFirstRow file.(text)) = 15%nat
    /\ endsWith ".csv" file.(name) = true
    /\ (MAX_FILE_SIZE <? size file) = false
    /\ validateContent unicodeLower file.(text) = ([], true).
Proof.
  eexists. eexists. split; [reflexivity|].
  simpl text. simpl name. simpl size.
  repeat split; vm_compute; reflexivity.
Qed.

(** ** Order amounts in binary64 arithmetic *)

Lemma add_nan_l (x : float) : (nan + x)%float = nan.
Proof. apply Prim2SF_inj. rewrite add_spec. reflexivity. Qed.

Lemma add_nan_r (x : float) : (x + nan)%float = nan.
Proof.
  apply Prim2SF_inj. rewrite add_spec. change (Prim2SF nan) with S754_nan.
  destruct (Prim2SF x); reflexivity.
Qed.

Lemma mul_nan_l (x : float) : (nan * x)%float = nan.
Proof. apply Prim2SF_inj. rewrite mul_spec. reflexivity. Qed.

Lemma SFadd_comm prec emax (x y : spec_float) :
  SFadd prec emax x y = SFadd prec emax y x.
Proof.
  destruct x as [sx|sx| |sx mx ex], y as [sy|sy| |sy my ey]; simpl;
    try reflexivity.
  - destruct sx, sy; reflexivity.
  - destruct sx, sy; reflexivity.
  - rewrite Z.min_comm. f_equal. apply Z.add_comm.
Qed.

Lemma add_from_zero_swap (a b : float) :
  (0 + a + b)%float = (0 + b + a)%float.
Proof.
  apply Prim2SF_inj. rewrite !add_spec.
  change (Prim2SF 0) with (S754_zero false).
  generalize (Prim2SF a) (Prim2SF b). intros x y.
  unfold SF64add.
  destruct x as [sx|sx| |sx mx ex], y as [sy|sy| |sy my ey];
    try reflexivity;
    try (destruct sx; reflexivity); try (destruct sy; reflexivity);
    try (destruct sx, sy; reflexivity).
  change (SFadd prec emax (S754_zero false) (S754_finite sx mx ex))
    with (S754_finite sx mx ex).
  change (SFadd prec emax (S754_zero false) (S754_finite sy my ey))
    with (S754_finite sy my ey).
  apply SFadd_comm.
Qed.

Lemma fold_amount_nan (ps : list Product) : fold_left amountStep ps nan = nan.
Proof.
  induction ps as [|p ps IH]; simpl; [reflexivity|].
  unfold amountStep at 2. rewrite add_nan_l. exact IH.
Qed.

Lemma fold_amount_split (ps : list Product) (acc : float) :
  fold_left amountStep ps acc
  = if existsb unreadable ps then nan
    else fold_left (fun sum p => (sum + contribution p)%float) ps acc.
Proof.
  revert acc. induction ps as [|p ps IH]; intros acc; simpl; [reflexivity|].
  destruct p as [price q]. unfold unreadable at 1, amountStep at 2, contribution at 2.
  simpl. destruct price as [|raw|v]; simpl.
  - rewrite mul_nan_l, add_nan_r. apply fold_amount_nan.
  - rewrite mul_nan_l, add_nan_r. apply fold_amount_nan.
  - apply IH.
Qed.

(** C2, as the code has it. Every product row enters the running sum of
    [parseFloat(final_price) * quantity]; a row whose [final_price] is missing
    or non-numeric contributes [NaN], not 0, so the amount is [NaN] as soon as
    one such row is present, and it is the sum of [final_price * quantity]
    over all rows otherwise. *)
Theorem calculateOrderAmount_reads_every_row (ps : list Product) :
  calculateOrderAmount (Some ps)
  = if existsb unreadable ps then nan else claimedAmount ps.
Proof. apply (fold_amount_split ps 0%float). Qed.

Lemma float_neq (x y : float) : Prim2SF x <> Prim2SF y -> x <> y.
Proof. intros H ->. now apply H. Qed.

(** A missing price next to a 10.00 x 2 row: the claimed amount is 20, the
    computed one is [NaN]. *)
Lemma missing_price_counterexample :
  let ps := [row PriceMissing 1; row (PriceNumeric 10) 2] in
  claimedAmount ps = 20%float /\ calculateOrderAmount (Some ps) = nan
  /\ calculateOrderAmount (Some ps) <> claimedAmount ps.
Proof.
  cbv zeta. split; [reflexivity|]. split; [reflexivity|].
  apply float_neq. vm_compute. discriminate.
Qed.

(** Prices 0.1, 0.2, 0.3 (as doubles) and their reversal add up to
    0.6000000000000001 and to 0.6. *)
Lemma reorder_counterexample :
  let ps := [ row (PriceNumeric tenth) 1; row (PriceNumeric fifth) 1;
              row (PriceNumeric threeTenths) 1 ] in
  let qs := [ row (PriceNumeric threeTenths) 1; row (PriceNumeric fifth) 1;
              row (PriceNumeric tenth) 1 ] in
  Permutation ps qs
  /\ calculateOrderAmount (Some ps) <> calculateOrderAmount (Some qs).
Proof.
  cbv zeta. split.
  - apply Permutation_rev.
  - apply float_neq. vm_compute. discriminate.
Qed.

(** C9, as the code has it. The amount of an empty or absent product list is
    0, and a list of at most two products has the same amount in either
    order. *)
Theorem calculateOrderAmount_reorder_upto_two (ps qs : list Product) :
  Permutation ps qs -> (length ps <= 2)%nat ->
  calculateOrderAmount (Some ps) = calculateOrderAmount (Some qs)
  /\ calculateOrderAmount (Some []) = 0%float
  /\ calculateOrderAmount None = 0%float.
Proof.
  intros Hperm Hlen. split; [|split; reflexivity].
  destruct ps as [|a [|b [|c r]]].
  - apply Permutation_nil in Hperm. now subst qs.
  - apply Permutation_length_1_inv in Hperm. now subst qs.
  - apply Permutation_length_2_inv in Hperm. destruct Hperm as [-> | ->].
    + reflexivity.
    + simpl. apply add_from_zero_swap.
  - simpl in Hlen. lia.
Qed.

Lemma calculateOrderAmount_reorder_upto_two_witness :
  calculateOrderAmount
    (Some [row (PriceNumeric tenth) 1; row (PriceNumeric fifth) 3])
  = calculateOrderAmount
      (Some [row (PriceNumeric fifth) 3; row (PriceNumeric tenth) 1])
  /\ calculateOrderAmount (Some []) = 0%float
  /\ calculateOrderAmount None = 0%float.
Proof.
  apply calculateOrderAmount_reorder_upto_two.
  - apply perm_swap.
  - simpl. lia.
Defined.

(** ** What a computation adds to the request log *)

Lemma keepsSent_same {A : Type} (m : Eff A) :
  (forall w, (m w).2.(sent) = w.(sent)) -> keepsSent m.
Proof. intros H w. exists []. rewrite H. now rewrite app_nil_r. Qed.

Lemma keepsSent_ret {A : Type} (a : A) : keepsSent (mret a).
Proof. now apply keepsSent_same. Qed.

Lemma keepsSent_throw {A : Type} (e : JsError) : keepsSent (@throw A e).
Proof. now apply keepsSent_same. Qed.

Lemma keepsSent_toast kind msg : keepsSent (toast kind msg).
Proof. now apply keepsSent_same. Qed.

Lemma keepsSent_getItem key : keepsSent (getItem key).
Proof. now apply keepsSent_same. Qed.

Lemma keepsSent_removeItem key : keepsSent (removeItem key).
Proof. now apply keepsSent_same. Qed.

Lemma keepsSent_getPathname : keepsSent getPathname.
Proof. now apply keepsSent_same. Qed.

Lemma keepsSent_setHref path : keepsSent (setHref path).
Proof. now apply keepsSent_same. Qed.

Lemma keepsSent_dispatch backend req : keepsSent (dispatch backend req).
Proof. intros w. now exists [req]. Qed.

Lemma keepsSent_bind {A B : Type} (m : Eff A) (f : A -> Eff B) :
  keepsSent m -> (forall a, keepsSent (f a)) -> keepsSent (m ≫= f).
Proof.
  intros Hm Hf w. unfold mbind, eff_bind.
  destruct (Hm w) as [l1 H1]. destruct (m w) as [[a|e] w1]; simpl in *.
  - destruct (Hf a w1) as [l2 H2]. exists (l1 ++ l2)%list.
    rewrite H2, H1. now rewrite app_assoc.
  - now exists l1.
Qed.

Lemma keepsSent_tryCatch {A : Type} (body : Eff A) (handler : JsError -> Eff A) :
  keepsSent body -> (forall e, keepsSent (handler e)) ->
  keepsSent (tryCatch body handler).
Proof.
  intros Hm Hf w. unfold tryCatch.
  destruct (Hm w) as [l1 H1]. destruct (body w) as [[a|e] w1]; simpl in *.
  - now exists l1.
  - destruct (Hf e w1) as [l2 H2]. exists (l1 ++ l2)%list.
    rewrite H2, H1. now rewrite app_assoc.
Qed.

Lemma sends_after_toast {A : Type} P kind msg (k : Eff A) :
  sends P k -> sends P (toast kind msg;; k).
Proof.
  intros Hk w. unfold mbind, eff_bind, toast.
  destruct (Hk {| localStorage := w.(localStorage); pathname := w.(pathname);
      navigations := w.(navigations); toasts := (w.(toasts) ++ [(kind, msg)])%list;
      sent := w.(sent) |}) as (req & more & Hs & HP).
  now exists req, more.
Qed.

Lemma sends_keepsSent {A : Type} P (m : Eff A) : sends P m -> keepsSent m.
Proof. intros H w. destruct (H w) as (req & more & Hs & _). eauto. Qed.

Lemma sends_bind {A B : Type} P (m : Eff A) (f : A -> Eff B) :
  sends P m -> (forall a, keepsSent (f a)) -> sends P (m ≫= f).
Proof.
  intros Hm Hf w. unfold mbind, eff_bind.
  destruct (Hm w) as (req & l1 & H1 & HP).
  destruct (m w) as [[a|e] w1]; simpl in *.
  - destruct (Hf a w1) as [l2 H2]. exists req, (l1 ++ l2)%list.
    split; [|exact HP]. rewrite H2, H1. now rewrite <- app_assoc.
  - now exists req, l1.
Qed.

Lemma sends_tryCatch {A : Type} P (body : Eff A) (handler : JsError -> Eff A) :
  sends P body -> (forall e, keepsSent (handler e)) ->
  sends P (tryCatch body handler).
Proof.
  intros Hm Hf w. unfold tryCatch.
  destruct (Hm w) as (req & l1 & H1 & HP).
  destruct (body w) as [[a|e] w1]; simpl in *.
  - now exists req, l1.
  - destruct (Hf e w1) as [l2 H2]. exists req, (l1 ++ l2)%list.
    split; [|exact HP]. rewrite H2, H1. now rewrite <- app_assoc.
Qed.

Lemma emit_run (raised : list Toast) (w : World) :
  emit raised w
  = (Returned tt,
     {| localStorage := w.(localStorage); pathname := w.(pathname);
        navigations := w.(navigations); toasts := (w.(toasts) ++ raised)%list;
        sent := w.(sent) |}).
Proof.
  revert w. induction raised as [|[kind msg] r IH]; intros [ls p n t s]; simpl.
  - now rewrite app_nil_r.
  - unfold mbind, eff_bind, toast. simpl. rewrite IH. simpl.
    now rewrite <- app_assoc.
Qed.

Lemma sends_after_emit {A : Type} P raised (k : Eff A) :
  sends P k -> sends P (emit raised;; k).
Proof.
  intros Hk w. unfold mbind, eff_bind. rewrite emit_run.
  exact (Hk {| localStorage := w.(localStorage); pathname := w.(pathname);
               navigations := w.(navigations);
               toasts := (w.(toasts) ++ raised)%list; sent := w.(sent) |}).
Qed.

(** ** The API client and the request log *)

Lemma keepsSent_responseErrorInterceptor {A : Type} (error : JsError) :
  keepsSent (@responseErrorInterceptor A error).
Proof.
  unfold responseErrorInterceptor. destruct (response error) as [r|].
  - apply keepsSent_bind; [|intros; apply keepsSent_throw].
    repeat match goal with
           | |- keepsSent (if ?c then _ else _) => destruct c
           | |- keepsSent (_ ≫= _) => apply keepsSent_bind; intros
           | |- _ => first [ apply keepsSent_toast | apply keepsSent_removeItem
                           | apply keepsSent_getPathname | apply keepsSent_setHref
                           | apply keepsSent_ret ]
           end.
  - apply keepsSent_bind; [apply keepsSent_toast|intros; apply keepsSent_throw].
Qed.

Lemma sends_clientCall backend (config : Request) :
  sends (sameCall config) (clientCall backend config).
Proof.
  intros w. unfold clientCall, addAuthToken, getItem, dispatch, mbind, eff_bind,
    mret, eff_ret. simpl.
  set (req := if truthy _ then _ else _).
  assert (Hreq : sameCall config req).
  { subst req. destruct (truthy _); repeat split. }
  destruct (backend req) as [r|e].
  - exists req, []. now split.
  - destruct (keepsSent_responseErrorInterceptor (A := AxiosResponse) e
                {| localStorage := w.(localStorage); pathname := w.(pathname);
                   navigations := w.(navigations); toasts := w.(toasts);
                   sent := (w.(sent) ++ [req])%list |}) as [more Hmore].
    exists req, more. split; [|exact Hreq].
    rewrite Hmore. simpl. now rewrite <- app_assoc.
Qed.

Lemma keepsSent_listing backend path params :
  keepsSent (listing backend path params).
Proof.
  unfold listing, orderApiClient_get.
  apply keepsSent_tryCatch; [|intros; apply keepsSent_throw].
  apply keepsSent_bind; [|intros; apply keepsSent_ret].
  eapply sends_keepsSent, sends_clientCall.
Qed.

Lemma keepsSent_fetchTabOrders backend tab st :
  keepsSent (fetchTabOrders backend tab st).
Proof.
  unfold fetchTabOrders.
  apply keepsSent_bind; [|intros; apply keepsSent_ret].
  apply keepsSent_tryCatch.
  - apply keepsSent_bind.
    + unfold fetchByTab.
      repeat match goal with |- keepsSent (if ?c then _ else _) => destruct c end;
        apply keepsSent_listing.
    + intros data. apply keepsSent_bind.
      * destruct data; first [apply keepsSent_throw | apply keepsSent_ret].
      * intros [os n]. apply keepsSent_ret.
  - intros e. apply keepsSent_bind; [apply keepsSent_toast|intros; apply keepsSent_ret].
Qed.

Lemma sends_uploadFile backend (file : File) (st : OrdersState) :
  sends (isUploadOf file) (uploadFile backend file st).
Proof.
  unfold uploadFile.
  apply sends_bind; [|intros; apply keepsSent_ret].
  apply sends_tryCatch.
  - apply sends_after_toast. apply sends_bind.
    + unfold uploadOrders. apply sends_tryCatch.
      * apply sends_bind.
        -- unfold orderApiClient_postFile. intros w.
           destruct (sends_clientCall backend
                       {| req_client := OrderApiClient; req_method := POST;
                          req_url := "/orders/upload"; req_params := ∅;
                          req_authorization := None;
                          req_upload := Some file.(name) |} w)
             as (req & more & Hs & Hc).
           exists req, more. split; [exact Hs|].
           destruct Hc as (? & ? & ? & ? & ?). now repeat split.
        -- intros r. apply keepsSent_bind.
           ++ destruct (resp_data r); first [apply keepsSent_throw | apply keepsSent_ret].
           ++ intros. apply keepsSent_bind; [apply keepsSent_toast|intros; apply keepsSent_ret].
      * intros e. apply keepsSent_bind; [apply keepsSent_toast|intros; apply keepsSent_throw].
    + intros _. apply keepsSent_bind; [apply keepsSent_toast|].
      intros _. apply keepsSent_fetchTabOrders.
  - intros e. apply keepsSent_bind; [apply keepsSent_toast|intros; apply keepsSent_ret].
Qed.

(** ** CSV validation scenarios *)

Lemma prefix_app (n r : string) : String.prefix n (n ++ r) = true.
Proof.
  induction n as [|a n IH]; simpl.
  - now destruct r.
  - destruct (ascii_dec a a); [exact IH | contradiction].
Qed.

Lemma prefix_refl (n : string) : String.prefix n n = true.
Proof.
  induction n as [|a n IH]; simpl; [reflexivity|].
  destruct (ascii_dec a a); [exact IH | contradiction].
Qed.

Lemma includes_unfold (n s : string) :
  includes n s
  = String.prefix n s
    || match s with EmptyString => false | String _ t => includes n t end.
Proof. now destruct s. Qed.

Lemma includes_app_l (n r : string) : includes n (n ++ r) = true.
Proof. rewrite includes_unfold, prefix_app. reflexivity. Qed.

Lemma includes_app_r (n a b : string) :
  includes n b = true -> includes n (a ++ b) = true.
Proof.
  intros H. induction a as [|c a IH]; simpl; [exact H|].
  rewrite IH. apply orb_true_r.
Qed.

Lemma includes_join (x sep : string) (l : list string) :
  In x l -> includes x (join sep l) = true.
Proof.
  induction l as [|y l IH]; [contradiction|].
  intros [->|Hin].
  - destruct l as [|z l]; simpl.
    + rewrite includes_unfold, prefix_refl. reflexivity.
    + apply includes_app_l.
  - destruct l as [|z l]; [contradiction|].
    change (join sep (y :: z :: l)) with (y ++ sep ++ join sep (z :: l)).
    apply includes_app_r, includes_app_r, IH, Hin.
Qed.

Lemma arrayIncludes_In (xs : list string) (x : string) :
  arrayIncludes xs x = true <-> In x xs.
Proof.
  unfold arrayIncludes. rewrite existsb_exists. split.
  - intros (y & Hin & Heq). apply String.eqb_eq in Heq. now subst y.
  - intros Hin. exists x. split; [exact Hin | apply String.eqb_refl].
Qed.

Lemma required_is_lower_case unicodeLower (field : string) :
  In field requiredFields -> toLowerCase unicodeLower field = field.
Proof.
  intros Hin. simpl in Hin.
  repeat destruct Hin as [<- | Hin]; try reflexivity. contradiction.
Qed.

(** The missing fields are the required fields that the normalised header
    does not hold. *)
Lemma missingFieldsOf_spec unicodeLower (headerFields : list string)
    (field : string) :
  In field (missingFieldsOf unicodeLower headerFields)
  <-> In field requiredFields
      /\ ~ In field (map normalizeFieldName headerFields).
Proof.
  unfold missingFieldsOf. rewrite filter_In. split.
  - intros [Hreq Hout]. split; [exact Hreq|].
    rewrite (required_is_lower_case unicodeLower field Hreq) in Hout.
    intros Hin. apply arrayIncludes_In in Hin. rewrite Hin in Hout.
    discriminate.
  - intros [Hreq Hout]. split; [exact Hreq|].
    rewrite (required_is_lower_case unicodeLower field Hreq).
    destruct (arrayIncludes (map normalizeFieldName headerFields) field)
      eqn:Hinc; [|reflexivity].
    exfalso. apply Hout, arrayIncludes_In, Hinc.
Qed.

Lemma required_present unicodeLower (headerFields : list string) :
  missingFieldsOf unicodeLower headerFields = [] <->
  forall field, In field requiredFields ->
                In field (map normalizeFieldName headerFields).
Proof.
  split.
  - intros Hnone field Hreq.
    destruct (in_dec string_dec field (map normalizeFieldName headerFields))
      as [Hin | Hout]; [exact Hin|].
    exfalso.
    assert (Hmiss : In field (missingFieldsOf unicodeLower headerFields))
      by (apply missingFieldsOf_spec; auto).
    rewrite Hnone in Hmiss. contradiction.
  - intros Hall.
    destruct (missingFieldsOf unicodeLower headerFields) as [|field rest]
      eqn:Hmiss; [reflexivity|].
    exfalso.
    assert (Hin : In field (missingFieldsOf unicodeLower headerFields))
      by (rewrite Hmiss; left; reflexivity).
    apply missingFieldsOf_spec in Hin as [Hreq Hout]. auto.
Qed.

(** The header [handleUpload] parses is the header of the specification,
    and its normalisation is the ship/phone normalisation. *)
Lemma csvHeaderFields_spec unicodeLower (content : string) :
  csvHeaderFields unicodeLower content = headerNames unicodeLower content
  /\ map normalizeFieldName (csvHeaderFields unicodeLower content)
     = normalisedHeader unicodeLower content.
Proof. split; reflexivity. Qed.

(** [indexOf] finds the first position of an element that occurs. *)
Lemma indexOfFrom_first (i : Z) (xs : list string) (x : string) (k : nat) :
  xs !! k = Some x ->
  exists j : nat,
    (j <= k)%nat /\ indexOfFrom i xs x = i + Z.of_nat j /\ xs !! j = Some x.
Proof.
  revert i k. induction xs as [|y xs IH]; intros i k Hk; [discriminate|].
  simpl. destruct (String.eqb y x) eqn:Heq.
  - apply String.eqb_eq in Heq. subst y. exists 0%nat.
    repeat split; [lia | lia].
  - destruct k as [|k].
    + simpl in Hk. injection Hk as ->. rewrite String.eqb_refl in Heq.
      discriminate.
    + destruct (IH (i + 1) k Hk) as (j & Hle & Hidx & Hj).
      exists (S j). repeat split; [lia | lia | exact Hj].
Qed.

Lemma indexOfFrom_range (i : Z) (xs : list string) (x : string) :
  indexOfFrom i xs x = -1
  \/ exists j : nat, indexOfFrom i xs x = i + Z.of_nat j /\ xs !! j = Some x.
Proof.
  revert i. induction xs as [|y xs IH]; intros i; [left; reflexivity|].
  simpl. destruct (String.eqb y x) eqn:Heq.
  - apply String.eqb_eq in Heq. subst y. right. exists 0%nat.
    split; [lia | reflexivity].
  - destruct (IH (i + 1)) as [Hnone | (j & Hidx & Hj)]; [left; exact Hnone|].
    right. exists (S j). split; [lia | exact Hj].
Qed.

(** The bounds test of [handleUpload] holds exactly when the field is the
    header name at a position that the row has too. *)
Lemma resolves_spec (headerFields values : list string) (field : string) :
  resolves headerFields values field = true
  <-> resolvesWithin headerFields values field.
Proof.
  unfold resolves, resolvesWithin, indexOf. cbv zeta.
  rewrite andb_true_iff, Z.leb_le, Z.ltb_lt. split.
  - intros [Hlow Hhigh].
    destruct (indexOfFrom_range 0 headerFields field)
      as [Hnone | (j & Hidx & Hj)]; [lia|].
    exists j. split; [lia | exact Hj].
  - intros (k & Hk & Hfield).
    destruct (indexOfFrom_first 0 headerFields field k Hfield)
      as (j & Hle & Hidx & _).
    lia.
Qed.

Lemma validateContent_missing unicodeLower (content : string) :
  (2 <= length (csvLines content))%nat ->
  missingFieldsOf unicodeLower (csvHeaderFields unicodeLower content) <> [] ->
  validateContent unicodeLower content
  = ([(ToastError,
       "CSV missing required fields: "
       ++ join ", "
            (missingFieldsOf unicodeLower (csvHeaderFields unicodeLower content)))],
     false).
Proof.
  intros Hlines Hmiss. unfold validateContent.
  fold (csvLines content). fold (csvHeaderFields unicodeLower content).
  replace (length (csvLines content) <? 2)%nat with false
    by (symmetry; apply Nat.ltb_ge; exact Hlines).
  destruct (missingFieldsOf unicodeLower (csvHeaderFields unicodeLower content))
    as [|m ms]; [contradiction|]. reflexivity.
Qed.

Lemma validateContent_mismatch unicodeLower (content : string) :
  (2 <= length (csvLines content))%nat ->
  missingFieldsOf unicodeLower (csvHeaderFields unicodeLower content) = [] ->
  length (csvFirstRow content) <> length (csvHeaderFields unicodeLower content) ->
  forallb (resolves (csvHeaderFields unicodeLower content) (csvFirstRow content))
    essentialFields = true ->
  exists raised,
    validateContent unicodeLower content = (raised, true)
    /\ In (mismatchWarning (length (csvHeaderFields unicodeLower content))
             (length (csvFirstRow content))) raised
    /\ Forall isWarning raised.
Proof.
  intros Hlines Hmiss Hneq Hess. unfold validateContent.
  fold (csvLines content). fold (csvHeaderFields unicodeLower content).
  fold (csvFirstRow content).
  replace (length (csvLines content) <? 2)%nat with false
    by (symmetry; apply Nat.ltb_ge; exact Hlines).
  rewrite Hmiss, Hess. simpl (0 <? length [])%nat. cbv iota.
  replace (length (csvFirstRow content)
           =? length (csvHeaderFields unicodeLower content))%nat
    with false by (symmetry; apply Nat.eqb_neq; exact Hneq).
  simpl negb. simpl andb. cbv iota.
  eexists. split; [reflexivity|]. split.
  - apply in_or_app. right. apply in_or_app. left. simpl. tauto.
  - repeat apply Forall_app_2.
    + destruct (negb _); repeat constructor.
    + repeat constructor.
    + unfold orderIdCheck.
      repeat match goal with |- Forall _ (if ?c then _ else _) => destruct c end;
        repeat constructor.
    + unfold skuCheck.
      repeat match goal with |- Forall _ (if ?c then _ else _) => destruct c end;
        repeat constructor.
Qed.

Lemma handleUpload_validated unicodeLower backend (st : OrdersState)
    (file : File) (raised : list Toast) (proceed : bool) :
  st.(st_selectedFile) = Some file ->
  endsWith ".csv" file.(name) = true ->
  size file <= MAX_FILE_SIZE ->
  validateContent unicodeLower file.(text) = (raised, proceed) ->
  handleUpload unicodeLower backend st
  = (emit raised;; if proceed then uploadFile backend file st else mret st).
Proof.
  intros Hfile Hname Hsize Hval. unfold handleUpload.
  rewrite Hfile, Hname. simpl negb. cbv iota.
  replace (MAX_FILE_SIZE <? size file) with false
    by (symmetry; apply Z.ltb_ge; exact Hsize).
  now rewrite Hval.
Qed.

(** C7. A [.csv] file within the size limit whose text has a header line and
    at least one more line. If its header, once the names are trimmed,
    lower-cased and ship/phone-normalised, lacks [sku], [handleUpload] raises
    one toast, a blocking error whose text names [sku], and sends no request.
    If that header holds every required field, the first data row has another
    number of columns than the header, and each of the four essential fields
    is the header name at a position inside the row, validation raises
    warnings only, the column-mismatch warning among them, and the upload
    request is sent. *)
Theorem csv_sku_scenario unicodeLower backend (st : OrdersState) (w : World)
    (file : File) :
  st.(st_selectedFile) = Some file ->
  endsWith ".csv" file.(name) = true ->
  size file <= MAX_FILE_SIZE ->
  (2 <= length (csvLines file.(text)))%nat ->
  let header := headerNames unicodeLower file.(text) in
  let values := csvFirstRow file.(text) in
  let w' := (handleUpload unicodeLower backend st w).2 in
  (~ In "sku" (normalisedHeader unicodeLower file.(text)) ->
   exists msg,
     validateContent unicodeLower file.(text) = ([(ToastError, msg)], false)
     /\ includes "sku" msg = true
     /\ w'.(toasts) = (w.(toasts) ++ [(ToastError, msg)])%list
     /\ w'.(sent) = w.(sent))
  /\ ((forall field, In field requiredFields ->
         In field (normalisedHeader unicodeLower file.(text))) ->
      length values <> length header ->
      (forall field, In field essentialFields ->
         resolvesWithin header values field) ->
      exists raised req more,
        validateContent unicodeLower file.(text) = (raised, true)
        /\ In (mismatchWarning (length header) (length values)) raised
        /\ Forall isWarning raised
        /\ w'.(sent) = (w.(sent) ++ req :: more)%list
        /\ isUploadOf file req).
Proof.
  intros Hfile Hname Hsize Hlines. cbv zeta.
  destruct (csvHeaderFields_spec unicodeLower file.(text)) as [Hnames Hnorm].
  split.
  - intros Hsku. rewrite <- Hnorm in Hsku.
    assert (Hin : In "sku" (missingFieldsOf unicodeLower
                              (csvHeaderFields unicodeLower file.(text)))).
    { apply missingFieldsOf_spec. split; [simpl; tauto | exact Hsku]. }
    assert (Hmiss : missingFieldsOf unicodeLower
                      (csvHeaderFields unicodeLower file.(text)) <> [])
      by (intros Hnil; rewrite Hnil in Hin; contradiction).
    pose proof (validateContent_missing unicodeLower _ Hlines Hmiss) as Hval.
    eexists. split; [exact Hval|]. split.
    + apply includes_app_r, includes_join, Hin.
    + rewrite (handleUpload_validated unicodeLower backend st file _ _
                 Hfile Hname Hsize Hval).
      unfold mbind, eff_bind. rewrite emit_run. split; reflexivity.
  - intros Hall Hneq Hess. rewrite <- Hnorm in Hall. rewrite <- Hnames in Hneq.
    apply (proj2 (required_present unicodeLower _)) in Hall.
    assert (Hbool : forallb (resolves (csvHeaderFields unicodeLower file.(text))
                               (csvFirstRow file.(text))) essentialFields = true).
    { apply forallb_forall. intros field Hfield. apply resolves_spec.
      rewrite Hnames. apply Hess, Hfield. }
    destruct (validateContent_mismatch unicodeLower _ Hlines Hall Hneq Hbool)
      as (raised & Hval & Hin & Hwarn).
    rewrite (handleUpload_validated unicodeLower backend st file _ _
               Hfile Hname Hsize Hval).
    destruct (sends_after_emit (isUploadOf file) raised _
                (sends_uploadFile backend file st) w)
      as (req & more & Hsent & Hreq).
    rewrite <- Hnames. exists raised, req, more. auto.
Qed.

Lemma csv_sku_scenario_witness :
  (exists msg,
     validateContent noUnicodeLetters sheetWithoutSku.(text)
     = ([(ToastError, msg)], false)
     /\ includes "sku" msg = true
     /\ (handleUpload noUnicodeLetters sampleBackend (picked sheetWithoutSku)
           signedIn).2.(toasts)
        = [(ToastError, msg)]
     /\ (handleUpload noUnicodeLetters sampleBackend (picked sheetWithoutSku)
           signedIn).2.(sent)
        = [])
  /\ (exists raised req more,
        validateContent noUnicodeLetters sheetShortRow.(text) = (raised, true)
        /\ In (mismatchWarning 9 5) raised
        /\ Forall isWarning raised
        /\ (handleUpload noUnicodeLetters sampleBackend (picked sheetShortRow)
              signedIn).2.(sent)
           = req :: more
        /\ isUploadOf sheetShortRow req).
Proof.
  split.
  - refine (proj1 (csv_sku_scenario noUnicodeLetters sampleBackend
                     (picked sheetWithoutSku) signedIn sheetWithoutSku
                     eq_refl eq_refl _ _) _).
    + vm_compute. discriminate.
    + vm_compute. lia.
    + intros Hin. apply arrayIncludes_In in Hin. vm_compute in Hin.
      discriminate.
  - refine (proj2 (csv_sku_scenario noUnicodeLetters sampleBackend
                     (picked sheetShortRow) signedIn sheetShortRow
                     eq_refl eq_refl _ _) _ _ _).
    + vm_compute. discriminate.
    + vm_compute. lia.
    + intros field Hin. apply arrayIncludes_In.
      simpl in Hin. repeat destruct Hin as [<- | Hin]; try reflexivity.
      contradiction.
    + vm_compute. lia.
    + intros field Hin. apply resolves_spec.
      simpl in Hin. repeat destruct Hin as [<- | Hin]; try reflexivity.
      contradiction.
Defined.

(** Two sheets outside the scenario. A header line without [sku] and nothing
    else is blocked by an error that does not name [sku]. A sheet with [sku]
    in its header, a first row of another width and the four essential fields
    inside the row, but without the address columns, is blocked by the
    missing-fields error and nothing is sent. *)
Lemma csv_sku_counterexample :
  (~ In "sku" (normalisedHeader noUnicodeLetters sheetHeaderOnly.(text))
   /\ (handleUpload noUnicodeLetters sampleBackend (picked sheetHeaderOnly)
         signedIn).2.(toasts)
      = [(ToastError, "CSV file must contain header row and at least one data row")]
   /\ includes "sku" "CSV file must contain header row and at least one data row"
      = false)
  /\ (In "sku" (normalisedHeader noUnicodeLetters sheetWithoutAddress.(text))
      /\ length (csvFirstRow sheetWithoutAddress.(text))
         <> length (headerNames noUnicodeLetters sheetWithoutAddress.(text))
      /\ (forall field, In field essentialFields ->
            resolvesWithin (headerNames noUnicodeLetters sheetWithoutAddress.(text))
              (csvFirstRow sheetWithoutAddress.(text)) field)
      /\ (handleUpload noUnicodeLetters sampleBackend (picked sheetWithoutAddress)
            signedIn).2.(toasts)
         = [(ToastError,
             "CSV missing required fields: ship-address-1, ship-city, ship-state, ship-postal-code, order-item-id")]
      /\ (handleUpload noUnicodeLetters sampleBackend (picked sheetWithoutAddress)
            signedIn).2.(sent)
         = []).
Proof.
  split.
  - split; [|split; reflexivity].
    intros Hin. apply arrayIncludes_In in Hin. vm_compute in Hin. discriminate.
  - split; [apply arrayIncludes_In; reflexivity|].
    split; [vm_compute; lia|].
    split; [|split; reflexivity].
    intros field Hin. apply resolves_spec.
    simpl in Hin. repeat destruct Hin as [<- | Hin]; try reflexivity.
    contradiction.
Qed.

(** ** Single-order lookup *)

Lemma tryEndpoint_run backend (orderId endpoint : string) (w : World) :
  let req := lookupRequest w orderId endpoint in
  let w' := {| localStorage := w.(localStorage); pathname := w.(pathname);
               navigations := w.(navigations); toasts := w.(toasts);
               sent := (w.(sent) ++ [req])%list |} in
  tryEndpoint backend orderId endpoint w
  = (match tier orderId (backend req) with
     | TierFound r => Returned (Found r)
     | TierNothing => Returned NotFound
     | TierError e => Thrown e
     end, w').
Proof.
  cbv zeta. unfold tryEndpoint, axios_get, getItem, dispatch, mbind, eff_bind.
  simpl. fold (lookupRequest w orderId endpoint).
  unfold tier.
  destruct (backend (lookupRequest w orderId endpoint)) as [r|e]; [|reflexivity].
  unfold mret, eff_ret, searchListing, collectionOf, throw.
  destruct (resp_data r) as [|s|elements|o]; try reflexivity.
  - destruct (findOrder orderId elements) as [[order|]|e]; reflexivity.
  - destruct (orders o) as [elements|].
    + destruct (findOrder orderId elements) as [[order|]|e]; reflexivity.
    + destruct (truthyId _); reflexivity.
Qed.

Lemma getOrderDetails_run backend (orderId : string) (w : World) :
  let first := lookupRequest w orderId "/orders/get-all-orders" in
  let second := lookupRequest w orderId "/orders" in
  let t1 := tier orderId (backend first) in
  let t2 := tier orderId (backend second) in
  getOrderDetails backend orderId w
  = match t1, t2 with
    | TierFound r, _ => (Returned r, after [first] [] w)
    | _, TierFound r => (Returned r, after [first; second] [] w)
    | _, _ =>
        (Thrown (lastError t1 t2),
         after [first; second]
           [(ToastError,
             lookupErrorMessage " No response received from server."
               (lastError t1 t2))] w)
    end.
Proof.
  cbv zeta. unfold getOrderDetails, lookupEndpoints, tryEndpoints, tryCatch.
  unfold mbind at 1, eff_bind at 1. unfold mbind at 1, eff_bind at 1.
  rewrite tryEndpoint_run. cbv zeta.
  destruct w as [ls p n t s]. unfold after, lookupRequest. simpl.
  destruct (tier orderId (backend _)) as [r1| |e1]; simpl.
  - now rewrite !app_nil_r.
  - unfold mbind, eff_bind. rewrite tryEndpoint_run. cbv zeta. simpl.
    unfold lookupRequest. simpl.
    destruct (tier orderId (backend _)) as [r2| |e2]; simpl;
      rewrite <- ?app_assoc, ?app_nil_r; reflexivity.
  - unfold mbind, eff_bind. rewrite tryEndpoint_run. cbv zeta. simpl.
    unfold lookupRequest. simpl.
    destruct (tier orderId (backend _)) as [r2| |e2]; simpl;
      rewrite <- ?app_assoc, ?app_nil_r; reflexivity.
Qed.






(** ** Credentials on a 401 answer *)

(** Through an intercepted client, a 401 answer clears the three stored
    credentials and sends the browser to the login route, once. *)
Lemma clientCall_401_clears_credentials backend (config : Request) (w : World)
    (e : JsError) (r : AxiosResponse) :
  (forall req, backend req = Rejected e) ->
  e.(response) = Some r -> r.(resp_status) = 401 ->
  includes "Network Error" e.(message) = false ->
  includes "CORS" e.(message) = false ->
  let w' := (clientCall backend config w).2 in
  w'.(localStorage)
  = delete "user" (delete "refreshToken" (delete "accessToken" w.(localStorage)))
  /\ w'.(pathname) = "/auth/login"
  /\ w'.(navigations)
     = (w.(navigations)
        ++ if String.eqb w.(pathname) "/auth/login" then [] else ["/auth/login"])%list.
Proof.
  intros Hb Hresp Hstatus Hnet Hcors. cbv zeta.
  unfold clientCall, addAuthToken, getItem, dispatch, mbind, eff_bind, mret,
    eff_ret. simpl. rewrite Hb.
  unfold responseErrorInterceptor. rewrite Hresp, Hnet, Hcors, Hstatus. simpl.
  unfold mbind, eff_bind, removeItem, toast, getPathname, setHref, throw, mret,
    eff_ret. simpl.
  destruct (String.eqb (pathname w) "/auth/login") eqn:Hp; simpl.
  - apply String.eqb_eq in Hp. rewrite app_nil_r. auto.
  - auto.
Qed.

(** C4. [getOrderDetails] calls the bare [axios] instance with a hand-made
    [Authorization] header, so no interceptor sees its answers: when every
    request is answered 401, both authenticated calls are made and the stored
    tokens and profile, the path and the navigation log are left as they
    were. *)
Theorem getOrderDetails_401_keeps_credentials backend (orderId : string)
    (w : World) :
  (forall req, exists e r,
      backend req = Rejected e /\ e.(response) = Some r /\ r.(resp_status) = 401) ->
  let w' := (getOrderDetails backend orderId w).2 in
  (exists req1 req2,
      w'.(sent) = (w.(sent) ++ [req1; req2])%list
      /\ is_Some req1.(req_authorization) /\ is_Some req2.(req_authorization))
  /\ w'.(localStorage) = w.(localStorage)
  /\ w'.(pathname) = w.(pathname)
  /\ w'.(navigations) = w.(navigations).
Proof.
  intros H401. cbv zeta. rewrite getOrderDetails_run. cbv zeta.
  destruct (H401 (lookupRequest w orderId "/orders/get-all-orders"))
    as (e1 & r1 & -> & _).
  destruct (H401 (lookupRequest w orderId "/orders")) as (e2 & r2 & -> & _).
  simpl. split; [|auto].
  eexists _, _. split; [reflexivity|]. split; eexists; reflexivity.
Qed.

Lemma getOrderDetails_401_keeps_credentials_witness :
  (exists req1 req2,
      (getOrderDetails expiredSession "42" signedIn).2.(sent)
      = (signedIn.(sent) ++ [req1; req2])%list
      /\ is_Some req1.(req_authorization) /\ is_Some req2.(req_authorization))
  /\ (getOrderDetails expiredSession "42" signedIn).2.(localStorage)
     = signedIn.(localStorage)
  /\ (getOrderDetails expiredSession "42" signedIn).2.(pathname)
     = signedIn.(pathname)
  /\ (getOrderDetails expiredSession "42" signedIn).2.(navigations)
     = signedIn.(navigations).
Proof.
  apply getOrderDetails_401_keeps_credentials.
  intros req. exists unauthorized. eexists. repeat split.
Defined.

(** The same expired session through [getOrderById] is signed out. *)
Lemma getOrderById_401_signs_out :
  (getOrderById expiredSession "42" signedIn).2.(localStorage) = ∅
  /\ (getOrderById expiredSession "42" signedIn).2.(navigations)
     = ["/auth/login"].
Proof. split; vm_compute; reflexivity. Qed.

(** * Further properties *)

(** ** Status badges: priority and fallbacks *)

(** X1. An order that is not cancelled and whose payment code is unpaid
    ([PU]) is shown as "Awaiting Payment" (outline), whatever its return,
    dispute and shipping codes are. *)
Theorem getDisplayStatus_unpaid (order : Order) :
  order.(status) <> Some "OC" ->
  order.(status_payment) = Some "PU" ->
  getDisplayStatus order
  = {| ds_status := Some "Awaiting Payment"; ds_variant := Some "outline" |}.
Proof.
  intros Hlive Hunpaid. unfold getDisplayStatus.
  rewrite bool_decide_eq_false_2 by exact Hlive.
  rewrite bool_decide_eq_true_2 by exact Hunpaid. reflexivity.
Qed.

Lemma getDisplayStatus_unpaid_witness :
  getDisplayStatus
    {| order_id := Some (IdNum 8); order_serial := None; status := Some "OS";
       status_payment := Some "PU"; status_return := Some "RR";
       status_dispute := Some "DP"; status_shipping := Some "SS";
       products := None |}
  = {| ds_status := Some "Awaiting Payment"; ds_variant := Some "outline" |}.
Proof.
  apply getDisplayStatus_unpaid; [discriminate | reflexivity].
Defined.

Lemma guarded_lookup_default (code : option string) (dflt : string) :
  let code' := if bool_decide (code = Some dflt) then None else code in
  (if truthy code' && negb (bool_decide (code' = Some dflt))
   then lookupVariant code' else None)
  = (if truthy code && negb (bool_decide (code = Some dflt))
     then lookupVariant code else None).
Proof.
  cbv zeta. destruct (bool_decide (code = Some dflt)) eqn:H.
  - simpl. rewrite andb_false_r. reflexivity.
  - rewrite H. reflexivity.
Qed.

(** X2. The default return code [RN] and the default dispute code [DN] are
    never displayed: an order carrying them gets the badge of the same order
    without them. *)
Theorem getDisplayStatus_ignores_default_codes (order : Order) :
  getDisplayStatus order = getDisplayStatus (dropDefaults order).
Proof.
  unfold getDisplayStatus, dropDefaults.
  cbn [status status_payment status_return status_dispute status_shipping].
  pose proof (guarded_lookup_default (status_return order) "RN") as Hr.
  pose proof (guarded_lookup_default (status_dispute order) "DN") as Hd.
  cbv zeta in Hr, Hd. rewrite Hr, Hd. reflexivity.
Qed.

Lemma lookupVariant_labelled (code : option string) (d : DisplayStatus) :
  inherited code = false ->
  lookupVariant code = Some d ->
  exists label variant,
    d = {| ds_status := Some label; ds_variant := Some variant |}.
Proof.
  unfold inherited, lookupVariant. intros Hown.
  destruct (assoc _ statusVariants) as [[variant label]|].
  - intros [= <-]. eauto.
  - rewrite Hown. discriminate.
Qed.

(** X3. Unless one of its status codes is the name of a property inherited
    from [Object.prototype], an order always gets a badge with a label and a
    variant. *)
Theorem getDisplayStatus_labelled (order : Order) :
  inherited order.(status) = false ->
  inherited order.(status_return) = false ->
  inherited order.(status_dispute) = false ->
  inherited order.(status_shipping) = false ->
  exists label variant,
    getDisplayStatus order
    = {| ds_status := Some label; ds_variant := Some variant |}.
Proof.
  intros Hs Hr Hd Hsh. unfold getDisplayStatus. cbv zeta.
  repeat match goal with
         | |- context [if ?c then _ else _] => destruct c
         | |- context [lookupVariant ?c] => destruct (lookupVariant c) eqn:?
         end;
    eauto using lookupVariant_labelled.
Qed.

Lemma getDisplayStatus_labelled_witness :
  exists label variant,
    getDisplayStatus sampleOrder
    = {| ds_status := Some label; ds_variant := Some variant |}.
Proof.
  apply getDisplayStatus_labelled; reflexivity.
Defined.

(** A return code named like an inherited property gives a badge without
    label. *)
Example getDisplayStatus_inherited_key :
  getDisplayStatus
    {| order_id := None; order_serial := None; status := Some "OS";
       status_payment := Some "PD"; status_return := Some "toString";
       status_dispute := None; status_shipping := Some "SS"; products := None |}
  = {| ds_status := None; ds_variant := None |}.
Proof. reflexivity. Qed.

(** ** The interceptors *)

Ltac run_eff :=
  unfold mbind, eff_bind, mret, eff_ret, tryCatch, throw, toast, getItem,
    removeItem, setItem, getPathname, setHref, dispatch; simpl.

(** The response interceptor rejects with the error it was given, shows one
    error toast and sends nothing. *)
Lemma responseErrorInterceptor_run {A : Type} (error : JsError) (w : World) :
  (@responseErrorInterceptor A error w).1 = Thrown error
  /\ (@responseErrorInterceptor A error w).2.(sent) = w.(sent)
  /\ exists text,
       (@responseErrorInterceptor A error w).2.(toasts)
       = (w.(toasts) ++ [(ToastError, text)])%list.
Proof.
  unfold responseErrorInterceptor. run_eff.
  destruct (response error) as [r|]; simpl; [|eauto].
  repeat match goal with
         | |- context [if ?c then _ else _] => destruct c; simpl
         end; eauto.
Qed.

(** X4. An answer that is not a 401 leaves the session alone: the response
    interceptor rejects with the same error after one error toast, and the
    stored credentials, the path and the navigation log are untouched. *)
Theorem responseErrorInterceptor_keeps_session (error : JsError) (w : World) :
  (forall r, error.(response) = Some r -> r.(resp_status) <> 401) ->
  (@responseErrorInterceptor AxiosResponse error w).1 = Thrown error
  /\ (exists text,
        (@responseErrorInterceptor AxiosResponse error w).2.(toasts)
        = (w.(toasts) ++ [(ToastError, text)])%list)
  /\ (@responseErrorInterceptor AxiosResponse error w).2.(localStorage)
     = w.(localStorage)
  /\ (@responseErrorInterceptor AxiosResponse error w).2.(pathname) = w.(pathname)
  /\ (@responseErrorInterceptor AxiosResponse error w).2.(navigations)
     = w.(navigations).
Proof.
  intros Hnot.
  destruct (responseErrorInterceptor_run (A := AxiosResponse) error w)
    as (Hout & _ & Htoast).
  split; [exact Hout|]. split; [exact Htoast|].
  unfold responseErrorInterceptor. run_eff.
  destruct (response error) as [r|] eqn:Hr; simpl; [|auto].
  specialize (Hnot r eq_refl). apply Z.eqb_neq in Hnot. rewrite Hnot.
  repeat match goal with
         | |- context [if ?c then _ else _] => destruct c; simpl
         end; auto.
Qed.

Lemma responseErrorInterceptor_keeps_session_witness :
  (@responseErrorInterceptor AxiosResponse notFound signedIn).1 = Thrown notFound
  /\ (exists text,
        (@responseErrorInterceptor AxiosResponse notFound signedIn).2.(toasts)
        = (signedIn.(toasts) ++ [(ToastError, text)])%list)
  /\ (@responseErrorInterceptor AxiosResponse notFound signedIn).2.(localStorage)
     = signedIn.(localStorage)
  /\ (@responseErrorInterceptor AxiosResponse notFound signedIn).2.(pathname)
     = signedIn.(pathname)
  /\ (@responseErrorInterceptor AxiosResponse notFound signedIn).2.(navigations)
     = signedIn.(navigations).
Proof.
  apply responseErrorInterceptor_keeps_session.
  intros r [= <-]. simpl. discriminate.
Defined.

Lemma addAuthToken_run (config : Request) (w : World) :
  addAuthToken config w = (Returned (withToken w config), w).
Proof.
  unfold addAuthToken, withToken. run_eff.
  destruct (localStorage w !! "accessToken") as [token|]; simpl; [|reflexivity].
  destruct (String.eqb token EmptyString); reflexivity.
Qed.

Lemma clientCall_unfold backend (config : Request) (w : World) :
  clientCall backend config w
  = let w1 := {| localStorage := w.(localStorage); pathname := w.(pathname);
                 navigations := w.(navigations); toasts := w.(toasts);
                 sent := (w.(sent) ++ [withToken w config])%list |} in
    match backend (withToken w config) with
    | Fulfilled r => (Returned r, w1)
    | Rejected e => responseErrorInterceptor e w1
    end.
Proof.
  unfold clientCall, mbind, eff_bind. rewrite addAuthToken_run.
  unfold dispatch. cbv zeta.
  destruct (backend (withToken w config)); reflexivity.
Qed.

(** A call through an intercepted client sends one request, the one
    [withToken] describes, and settles as the backend settles it. *)
Lemma clientCall_run backend (config : Request) (w : World) :
  (clientCall backend config w).2.(sent) = (w.(sent) ++ [withToken w config])%list
  /\ (clientCall backend config w).1
     = match backend (withToken w config) with
       | Fulfilled r => Returned r
       | Rejected e => Thrown e
       end
  /\ (forall r, backend (withToken w config) = Fulfilled r ->
      (clientCall backend config w).2.(toasts) = w.(toasts)
      /\ (clientCall backend config w).2.(localStorage) = w.(localStorage)).
Proof.
  rewrite clientCall_unfold. cbv zeta.
  destruct (backend (withToken w config)) as [r|e].
  - simpl. split; [reflexivity|]. split; [reflexivity|].
    intros _ _. split; reflexivity.
  - match goal with
    | |- context [responseErrorInterceptor e ?w1] =>
        destruct (responseErrorInterceptor_run (A := AxiosResponse) e w1)
          as (Hout & Hsent & _)
    end.
    rewrite Hout, Hsent. simpl. split; [reflexivity|]. split; [reflexivity|].
    discriminate.
Qed.

(** ** Listings of the Orders page *)

Lemma listing_run backend (path : string) (params : gmap string ParamVal)
    (w : World) :
  let req := withToken w (orderGet path params) in
  let w1 := {| localStorage := w.(localStorage); pathname := w.(pathname);
               navigations := w.(navigations); toasts := w.(toasts);
               sent := (w.(sent) ++ [req])%list |} in
  listing backend path params w
  = match backend req with
    | Fulfilled r => (Returned r.(resp_data), w1)
    | Rejected e => (Thrown e, (@responseErrorInterceptor AxiosResponse e w1).2)
    end.
Proof.
  cbv zeta. unfold listing, orderApiClient_get, tryCatch, mbind, eff_bind.
  fold (orderGet path params). rewrite clientCall_unfold. cbv zeta.
  destruct (backend (withToken w (orderGet path params))) as [r|e];
    [reflexivity|].
  match goal with
  | |- context [responseErrorInterceptor e ?w1] =>
      destruct (responseErrorInterceptor_run (A := AxiosResponse) e w1)
        as (Hout & _ & _);
      destruct (responseErrorInterceptor e w1) as [out w2]
  end.
  simpl in Hout. subst out. reflexivity.
Qed.

Lemma fetchByTab_listing backend (tab : string) (filters : OrderFilters) :
  fetchByTab backend tab filters
  = listing backend (tabRequest tab filters).(req_url)
      (tabRequest tab filters).(req_params)
  /\ orderGet (tabRequest tab filters).(req_url) (tabRequest tab filters).(req_params)
     = tabRequest tab filters.
Proof.
  unfold fetchByTab, tabRequest.
  repeat match goal with
         | |- context [if ?c then _ else _] => destruct c
         end; split; reflexivity.
Qed.

(** X5. Whatever the tab id, [fetchTabOrders] sends exactly one request: the
    listing of that tab (the listing of all orders for an unknown tab), built
    from the page's filter cells and carrying the stored access token when
    there is one. *)
Theorem fetchTabOrders_sends_one_listing backend (tab : string)
    (st : OrdersState) (w : World) :
  (fetchTabOrders backend tab st w).2.(sent)
  = (w.(sent) ++ [withToken w (tabRequest tab (tabFilters st))])%list.
Proof.
  unfold fetchTabOrders, tryCatch, mbind, eff_bind.
  change (tabFilters (setIsLoading true st)) with (tabFilters st).
  destruct (fetchByTab_listing backend tab (tabFilters st)) as [-> Hreq].
  rewrite listing_run. cbv zeta. rewrite Hreq.
  destruct (backend (withToken w (tabRequest tab (tabFilters st)))) as [r|e].
  - destruct (resp_data r); reflexivity.
  - match goal with
    | |- context [responseErrorInterceptor e ?w1] =>
        destruct (responseErrorInterceptor_run (A := AxiosResponse) e w1)
          as (_ & Hsent & _)
    end.
    simpl. exact Hsent.
Qed.

(** X6. [fetchTabOrders] never throws and always clears the loading flag
    without touching the filter cells. A rejected request or a [null] body
    keeps the orders and the count shown and ends with one "Failed to fetch
    orders" toast; an object body shows its [orders] and [total_count]
    (nothing and 0 when absent); any other body shows nothing. *)
Theorem fetchTabOrders_settles backend (tab : string) (st : OrdersState)
    (w : World) :
  exists st',
    (fetchTabOrders backend tab st w).1 = Returned st'
    /\ st'.(st_isLoading) = false
    /\ tabFilters st' = tabFilters st
    /\ st'.(st_selectedTab) = st.(st_selectedTab)
    /\ st'.(st_selectedFile) = st.(st_selectedFile)
    /\ match backend (withToken w (tabRequest tab (tabFilters st))) with
       | Rejected e =>
           st'.(st_orders) = st.(st_orders)
           /\ st'.(st_totalCount) = st.(st_totalCount)
           /\ last (fetchTabOrders backend tab st w).2.(toasts)
              = Some (ToastError, "Failed to fetch orders: " ++ getErrorMessage e)
       | Fulfilled r =>
           match r.(resp_data) with
           | DataNull =>
               st'.(st_orders) = st.(st_orders)
               /\ st'.(st_totalCount) = st.(st_totalCount)
               /\ last (fetchTabOrders backend tab st w).2.(toasts)
                  = Some (ToastError,
                          "Failed to fetch orders: "
                          ++ (typeError "null" "orders").(message))
           | DataObject o =>
               st'.(st_orders) = default [] o.(orders)
               /\ st'.(st_totalCount) = default 0 o.(total_count)
               /\ (fetchTabOrders backend tab st w).2.(toasts) = w.(toasts)
           | DataText _ | DataArray _ =>
               st'.(st_orders) = [] /\ st'.(st_totalCount) = 0
               /\ (fetchTabOrders backend tab st w).2.(toasts) = w.(toasts)
           end
       end.
Proof.
  unfold fetchTabOrders, tryCatch, mbind, eff_bind.
  change (tabFilters (setIsLoading true st)) with (tabFilters st).
  destruct (fetchByTab_listing backend tab (tabFilters st)) as [-> Hreq].
  rewrite listing_run. cbv zeta. rewrite Hreq.
  destruct (backend (withToken w (tabRequest tab (tabFilters st)))) as [r|e].
  - destruct (resp_data r) as [|s|elements|o]; simpl;
      eexists; repeat split; try reflexivity.
    apply last_snoc.
  - simpl. eexists. repeat split; try reflexivity. apply last_snoc.
Qed.

(** ** Upload: local checks *)

Lemma handleUpload_refusal unicodeLower backend (st : OrdersState) (w : World) :
  st.(st_selectedFile) = None
  \/ (exists file, st.(st_selectedFile) = Some file
        /\ (endsWith ".csv" file.(name) = false \/ MAX_FILE_SIZE < size file)) ->
  (handleUpload unicodeLower backend st w).1 = Returned st
  /\ (handleUpload unicodeLower backend st w).2.(sent) = w.(sent)
  /\ exists text,
       (handleUpload unicodeLower backend st w).2.(toasts)
       = (w.(toasts) ++ [(ToastError, text)])%list.
Proof.
  intros [Hnone | (file & Hfile & Hbad)]; unfold handleUpload.
  - rewrite Hnone. run_eff. eauto.
  - rewrite Hfile. destruct (endsWith ".csv" (name file)) eqn:Hname.
    + destruct Hbad as [Hbad | Hbig]; [discriminate|].
      apply Z.ltb_lt in Hbig. rewrite Hbig. run_eff. eauto.
    + run_eff. eauto.
Qed.

(** X7. With no file selected, a file whose name does not end in [.csv], or a
    file over 10 MB, [handleUpload] shows one error, returns the page state
    unchanged and sends no request; the content is not looked at. *)
Theorem handleUpload_refuses_file unicodeLower backend (st : OrdersState)
    (w : World) :
  st.(st_selectedFile) = None
  \/ (exists file, st.(st_selectedFile) = Some file
        /\ (endsWith ".csv" file.(name) = false \/ MAX_FILE_SIZE < size file)) ->
  (handleUpload unicodeLower backend st w).1 = Returned st
  /\ (handleUpload unicodeLower backend st w).2.(sent) = w.(sent)
  /\ exists text,
       (handleUpload unicodeLower backend st w).2.(toasts)
       = (w.(toasts) ++ [(ToastError, text)])%list.
Proof.
  intros Hbad.
  destruct (handleUpload_refusal unicodeLower backend st w Hbad) as (H1 & H2 & H3).
  auto.
Qed.

Lemma handleUpload_refuses_file_witness :
  (handleUpload noUnicodeLetters sampleBackend (picked workbook) signedIn).1
  = Returned (picked workbook)
  /\ (handleUpload noUnicodeLetters sampleBackend (picked workbook)
        signedIn).2.(sent)
     = signedIn.(sent)
  /\ exists text,
       (handleUpload noUnicodeLetters sampleBackend (picked workbook)
          signedIn).2.(toasts)
       = (signedIn.(toasts) ++ [(ToastError, text)])%list.
Proof.
  apply handleUpload_refuses_file. right.
  exists workbook. split; [reflexivity|]. left. reflexivity.
Defined.

(** ** Upload: content validation *)

Lemma checks_are_warnings (headerFields values : list string) :
  Forall isWarning (orderIdCheck headerFields values)
  /\ Forall isWarning (skuCheck headerFields values).
Proof.
  unfold orderIdCheck, skuCheck. split;
    repeat match goal with |- Forall _ (if ?c then _ else _) => destruct c end;
    repeat constructor.
Qed.

(** X8. The content validation never blocks on a warning and never goes on
    after an error: when it reaches the upload every toast it raised is a
    warning, and when it stops it raised warnings followed by exactly one
    error. *)
Theorem validateContent_verdict unicodeLower (content : string) :
  if (validateContent unicodeLower content).2
  then Forall isWarning (validateContent unicodeLower content).1
  else exists warnings text,
         (validateContent unicodeLower content).1
         = (warnings ++ [(ToastError, text)])%list
         /\ Forall isWarning warnings.
Proof.
  unfold validateContent.
  set (lines := split _ content).
  set (headerFields := headerFieldsOf _ _).
  set (values := split _ (trim _)).
  destruct (checks_are_warnings headerFields values) as [Hid Hsku].
  set (short := (length lines <? 2)%nat).
  set (missing := (0 <? length (missingFieldsOf unicodeLower headerFields))%nat).
  set (count := negb (length headerFields =? length expectedHeader)%nat).
  set (mismatch := negb (length values =? length headerFields)%nat).
  set (canProceed := forallb (resolves headerFields values) essentialFields).
  clearbody short missing count mismatch canProceed.
  destruct short, missing, count, mismatch, canProceed;
    cbn [fst snd andb negb];
    first [ solve [ repeat first [ apply Forall_app_2 | apply Forall_cons_2
                                 | apply Forall_nil_2 | assumption
                                 | reflexivity ] ]
          | solve [ eexists [_], _; split; [reflexivity | repeat constructor] ]
          | solve [ eexists [], _; split; [reflexivity | constructor] ] ].
Qed.

Lemma validateContent_proceeds unicodeLower (content : string)
    (raised : list Toast) :
  validateContent unicodeLower content = (raised, true) ->
  (2 <= length (csvLines content))%nat
  /\ missingFieldsOf unicodeLower (csvHeaderFields unicodeLower content) = [].
Proof.
  unfold validateContent.
  fold (csvLines content). fold (csvHeaderFields unicodeLower content).
  destruct (length (csvLines content) <? 2)%nat eqn:Hshort; [discriminate|].
  apply Nat.ltb_ge in Hshort.
  destruct (missingFieldsOf unicodeLower (csvHeaderFields unicodeLower content));
    [auto|].
  simpl. discriminate.
Qed.

(** X9. [handleUpload] sends a request only for a selected [.csv] file within
    the size limit whose text has at least two lines and whose header, once
    the names are trimmed, lower-cased and ship/phone-normalised, holds every
    required column. *)
Theorem handleUpload_sends_only_complete_sheets unicodeLower backend
    (st : OrdersState) (w : World) :
  (handleUpload unicodeLower backend st w).2.(sent) <> w.(sent) ->
  exists file,
    st.(st_selectedFile) = Some file
    /\ endsWith ".csv" file.(name) = true
    /\ size file <= MAX_FILE_SIZE
    /\ (2 <= length (csvLines file.(text)))%nat
    /\ forall field, In field requiredFields ->
         In field (normalisedHeader unicodeLower file.(text)).
Proof.
  intros Hsent.
  destruct (st_selectedFile st) as [file|] eqn:Hfile.
  2: { exfalso. apply Hsent.
       apply (handleUpload_refusal unicodeLower backend st w). now left. }
  destruct (endsWith ".csv" (name file)) eqn:Hname.
  2: { exfalso. apply Hsent.
       apply (handleUpload_refusal unicodeLower backend st w). right. eauto. }
  destruct (Z.lt_ge_cases MAX_FILE_SIZE (size file)) as [Hbig | Hsize].
  { exfalso. apply Hsent.
    apply (handleUpload_refusal unicodeLower backend st w). right. eauto. }
  destruct (validateContent unicodeLower (text file)) as [raised proceed]
    eqn:Hval.
  rewrite (handleUpload_validated unicodeLower backend st file raised proceed
             Hfile Hname Hsize Hval) in Hsent.
  destruct proceed.
  - apply validateContent_proceeds in Hval as [Hlines Hnone].
    exists file. repeat split; auto.
    destruct (csvHeaderFields_spec unicodeLower file.(text)) as [_ <-].
    apply (proj1 (required_present unicodeLower _)), Hnone.
  - exfalso. apply Hsent. unfold mbind, eff_bind. rewrite emit_run. reflexivity.
Qed.

Lemma handleUpload_sends_only_complete_sheets_witness :
  exists file,
    (picked sheetShortRow).(st_selectedFile) = Some file
    /\ endsWith ".csv" file.(name) = true
    /\ size file <= MAX_FILE_SIZE
    /\ (2 <= length (csvLines file.(text)))%nat
    /\ forall field, In field requiredFields ->
         In field (normalisedHeader noUnicodeLetters file.(text)).
Proof.
  apply (handleUpload_sends_only_complete_sheets noUnicodeLetters sampleBackend
           (picked sheetShortRow) signedIn).
  vm_compute. discriminate.
Defined.

Lemma normalize_keeps_required (field : string) (headerFields : list string) :
  In field requiredFields ->
  arrayIncludes (map normalizeFieldName headerFields) field
  = arrayIncludes headerFields field.
Proof.
  intros Hreq. unfold arrayIncludes.
  induction headerFields as [|h headerFields IH]; [reflexivity|].
  simpl. rewrite IH. f_equal.
  unfold normalizeFieldName.
  destruct (includes "ship" h && includes "phone" h) eqn:Hphone; [|reflexivity].
  destruct (String.eqb field h) eqn:Heq.
  - apply String.eqb_eq in Heq. subst h. exfalso.
    simpl in Hreq.
    repeat destruct Hreq as [<- | Hreq]; try discriminate Hphone. contradiction.
  - simpl in Hreq.
    repeat destruct Hreq as [<- | Hreq]; try reflexivity. contradiction.
Qed.

(** X10. The ship/phone normalisation never changes the verdict on required
    columns: the missing fields are the required fields that do not occur,
    trimmed and lower-cased, in the header as written. *)
Theorem missingFieldsOf_raw_header unicodeLower (headerFields : list string) :
  missingFieldsOf unicodeLower headerFields
  = List.filter (fun field => negb (arrayIncludes headerFields field))
      requiredFields.
Proof.
  unfold missingFieldsOf. apply filter_ext_in. intros field Hin.
  rewrite (required_is_lower_case unicodeLower field Hin).
  now rewrite normalize_keeps_required.
Qed.

(** X11. [uploadFile] never throws, whatever the backend answers, and always
    leaves the page with no file selected and the uploading flag cleared. *)
Theorem uploadFile_settles backend (file : File) (st : OrdersState) (w : World) :
  exists st',
    (uploadFile backend file st w).1 = Returned st'
    /\ st'.(st_selectedFile) = None
    /\ st'.(st_isUploading) = false.
Proof.
  unfold uploadFile, tryCatch.
  unfold mbind at 1, eff_bind at 1.
  match goal with
  | |- context [match ?body w with _ => _ end] => destruct (body w) as [[st1|e] w1]
  end.
  - simpl. eexists. repeat split.
  - unfold mbind, eff_bind, toast, mret, eff_ret. simpl. eexists. repeat split.
Qed.

(** ** The soft checks and their patterns *)

Lemma matchHere_plus (toEnd : bool) cls (rest : list Regex.item) (s : string) :
  Regex.matchHere toEnd (Regex.Plus cls :: rest) s
  = match s with
    | String c s' =>
        cls c && (Regex.matchHere toEnd (Regex.Plus cls :: rest) s'
                  || Regex.matchHere toEnd rest s')
    | EmptyString => false
    end.
Proof. destruct s; reflexivity. Qed.

Lemma matchHere_plus_mono (toEnd : bool) (cls1 cls2 : ascii -> bool)
    (rest1 rest2 : list Regex.item) :
  (forall c, cls1 c = true -> cls2 c = true) ->
  (forall s, Regex.matchHere toEnd rest1 s = true ->
             Regex.matchHere toEnd rest2 s = true) ->
  forall s, Regex.matchHere toEnd (Regex.Plus cls1 :: rest1) s = true ->
            Regex.matchHere toEnd (Regex.Plus cls2 :: rest2) s = true.
Proof.
  intros Hcls Hrest s. induction s as [|c s IH].
  - discriminate.
  - rewrite (matchHere_plus toEnd cls1 rest1 (String c s)),
      (matchHere_plus toEnd cls2 rest2 (String c s)).
    intros H. apply andb_true_iff in H as [Hc H].
    rewrite (Hcls c Hc). simpl. apply orb_true_iff.
    apply orb_true_iff in H as [H | H]; [left; now apply IH | right; now apply Hrest].
Qed.

Lemma matchHere_lit_mono (toEnd : bool) (c : ascii) (rest1 rest2 : list Regex.item) :
  (forall s, Regex.matchHere toEnd rest1 s = true ->
             Regex.matchHere toEnd rest2 s = true) ->
  forall s, Regex.matchHere toEnd (Regex.Lit c :: rest1) s = true ->
            Regex.matchHere toEnd (Regex.Lit c :: rest2) s = true.
Proof.
  intros Hrest [|c' s]; simpl; [discriminate|].
  intros H. apply andb_true_iff in H as [Hc H].
  rewrite Hc. simpl. now apply Hrest.
Qed.

Lemma digit_is_word (c : ascii) : Regex.digit c = true -> Regex.word c = true.
Proof. unfold Regex.word. now intros ->. Qed.

(** Whatever contains [\d+-\d+-\d+] contains [\w+-\d+]. *)
Lemma amazon_is_generic (s : string) :
  Regex.search false Regex.amazonOrderId s = true ->
  Regex.search false Regex.genericOrderId s = true.
Proof.
  assert (Hhere : forall t,
             Regex.matchHere false Regex.amazonOrderId t = true ->
             Regex.matchHere false Regex.genericOrderId t = true).
  { apply matchHere_plus_mono; [exact digit_is_word|].
    apply matchHere_lit_mono.
    apply matchHere_plus_mono; [auto|]. intros t _. reflexivity. }
  assert (Hunfold : forall items t,
             Regex.search false items t
             = Regex.matchHere false items t
               || match t with
                  | EmptyString => false
                  | String _ t' => Regex.search false items t'
                  end).
  { intros items [|c t]; reflexivity. }
  induction s as [|c s IH].
  - rewrite (Hunfold Regex.amazonOrderId EmptyString),
      (Hunfold Regex.genericOrderId EmptyString).
    intros H. apply orb_true_iff in H as [H | H]; [|discriminate H].
    apply orb_true_iff. left. exact (Hhere _ H).
  - rewrite (Hunfold Regex.amazonOrderId (String c s)),
      (Hunfold Regex.genericOrderId (String c s)).
    intros H. apply orb_true_iff in H as [H | H]; apply orb_true_iff.
    + left. exact (Hhere _ H).
    + right. exact (IH H).
Qed.

(** X12. The first order-id pattern of [handleUpload] is redundant: the
    order-id warning is raised exactly when the order-id cell of the first row
    is in range and does not contain the generic pattern [\w+-\d+]. *)
Theorem orderIdCheck_generic_only (headerFields values : list string) :
  orderIdCheck headerFields values
  = let orderIdIndex := indexOf headerFields "order-id" in
    if (0 <=? orderIdIndex) && (orderIdIndex <? Z.of_nat (length values)) then
      if Regex.search false Regex.genericOrderId
           (default EmptyString (at_index values orderIdIndex))
      then [] else [orderIdWarning]
    else [].
Proof.
  unfold orderIdCheck. cbv zeta.
  destruct (_ && _); [|reflexivity].
  destruct (Regex.search false Regex.genericOrderId _) eqn:Hgen.
  - now rewrite andb_false_r.
  - destruct (Regex.search false Regex.amazonOrderId _) eqn:Hama; [|reflexivity].
    apply amazon_is_generic in Hama. congruence.
Qed.

(** X13. The SKU pattern [^\d+$] accepts exactly the non-empty strings of
    ASCII digits, so the SKU warning is raised for an empty cell and for a
    cell with any other character, a space included. *)
Theorem allDigits_spec (s : string) :
  Regex.allDigits s
  = negb (String.eqb s EmptyString)
    && forallb Regex.digit (list_ascii_of_string s).
Proof.
  unfold Regex.allDigits. induction s as [|c s IH]; [reflexivity|].
  rewrite (matchHere_plus true Regex.digit [] (String c s)), IH. simpl.
  destruct s as [|c' s]; simpl.
  - now rewrite andb_true_r.
  - now rewrite orb_false_r.
Qed.

(** ** Searching a listing *)

(** X14. An element without [order_id] that comes before any match makes the
    search of a listing throw a [TypeError], even when the wanted order is
    further down the listing. *)
Theorem findOrder_missing_id (orderId : string) (before rest : list Order)
    (bad : Order) :
  Forall (fun o => o.(order_id) <> None /\ matchesId orderId o = false) before ->
  bad.(order_id) = None ->
  findOrder orderId (before ++ bad :: rest)%list
  = Thrown (typeError "undefined" "toString").
Proof.
  intros Hbefore Hbad. induction Hbefore as [|o before [Hid Hno] _ IH]; simpl.
  - now rewrite Hbad.
  - unfold matchesId in Hno. destruct (order_id o) as [i|]; [|contradiction].
    rewrite Hno. exact IH.
Qed.

Lemma findOrder_missing_id_witness :
  findOrder "42"
    ([ {| order_id := Some (IdNum 7); order_serial := None; status := None;
          status_payment := None; status_return := None; status_dispute := None;
          status_shipping := None; products := None |} ]
     ++ {| order_id := None; order_serial := Some "42"; status := None;
           status_payment := None; status_return := None; status_dispute := None;
           status_shipping := None; products := None |}
     :: [sampleOrder])%list
  = Thrown (typeError "undefined" "toString").
Proof.
  apply findOrder_missing_id.
  - constructor; [|constructor]. split; [discriminate | reflexivity].
  - reflexivity.
Defined.

(** ** The direct lookup *)

(** X15. [getOrderById] returns the body of a fulfilled answer only when it
    is an object (or an array); a missing or textual body is turned into the
    error "API returned invalid data format", and a rejected request is
    rethrown. Every failure ends with a "Could not retrieve order details"
    toast, a success shows none. *)
Theorem getOrderById_settles backend (orderId : string) (w : World) :
  let outcome := (getOrderById backend orderId w).1 in
  let shown := (getOrderById backend orderId w).2.(toasts) in
  match backend (withToken w (orderGet ("/orders/order/" ++ orderId) ∅)) with
  | Fulfilled r =>
      match r.(resp_data) with
      | DataNull | DataText _ =>
          outcome = Thrown (newError "API returned invalid data format")
          /\ shown
             = (w.(toasts)
                ++ [(ToastError,
                     "Could not retrieve order details. API returned invalid data format")])%list
      | data => outcome = Returned data /\ shown = w.(toasts)
      end
  | Rejected e =>
      outcome = Thrown e
      /\ last shown
         = Some (ToastError,
                 lookupErrorMessage
                   " No response received from server. Check network connection or CORS settings."
                   e)
  end.
Proof.
  cbv zeta. remember (getOrderById backend orderId w) as result eqn:Hres.
  unfold getOrderById, orderApiClient_get, tryCatch, mbind, eff_bind in Hres.
  fold (orderGet ("/orders/order/" ++ orderId) ∅) in Hres.
  rewrite clientCall_unfold in Hres. cbv zeta in Hres.
  destruct (backend _) as [r|e].
  - destruct (resp_data r); subst result; simpl; split; reflexivity.
  - match type of Hres with
    | context [responseErrorInterceptor e ?w1] =>
        destruct (responseErrorInterceptor_run (A := AxiosResponse) e w1)
          as (Hout & _ & _);
        destruct (responseErrorInterceptor e w1) as [out w2]
    end.
    simpl in Hout. subst out result. simpl.
    split; [reflexivity | apply last_snoc].
Qed.

(** ** Parameters of the tab listings *)

Ltac key_case :=
  unfold tabListing_params; skip_other_keys;
  first [ rewrite lookup_insert_eq
        | rewrite is_Some_spread_fresh by (skip_other_keys; apply lookup_empty) ].

(** X16. The parameters of the six tab listings hold [page], [page_size] and
    [store_by] always, each of [from_date], [to_date], [order_search_item]
    and [source_option] exactly when that filter field is present and not
    empty, and no other key. *)
Theorem tabListing_params_keys (filters : OrderFilters) (key : string) :
  is_Some (tabListing_params filters !! key)
  <-> In key ["page"; "page_size"; "store_by"]
      \/ (key = "from_date" /\ presentNonEmpty filters.(from_date))
      \/ (key = "to_date" /\ presentNonEmpty filters.(to_date))
      \/ (key = "order_search_item" /\ presentNonEmpty filters.(order_search_item))
      \/ (key = "source_option" /\ presentNonEmpty filters.(source_option)).
Proof.
  destruct (decide (key = "page")) as [-> | Hpage].
  { split; [intros _; left; simpl; tauto|]. intros _. key_case. eauto. }
  destruct (decide (key = "page_size")) as [-> | Hsize].
  { split; [intros _; left; simpl; tauto|]. intros _. key_case. eauto. }
  destruct (decide (key = "store_by")) as [-> | Hsort].
  { split; [intros _; left; simpl; tauto|]. intros _. key_case. eauto. }
  destruct (decide (key = "from_date")) as [-> | Hfrom].
  { key_case. split; [intros H; right; left; auto|].
    intros [H | [[_ H] | [[H _] | [[H _] | [H _]]]]]; try discriminate H; auto.
    simpl in H. repeat destruct H as [H | H]; try discriminate H; contradiction. }
  destruct (decide (key = "to_date")) as [-> | Hto].
  { key_case. split; [intros H; right; right; left; auto|].
    intros [H | [[H _] | [[_ H] | [[H _] | [H _]]]]]; try discriminate H; auto.
    simpl in H. repeat destruct H as [H | H]; try discriminate H; contradiction. }
  destruct (decide (key = "order_search_item")) as [-> | Hitem].
  { key_case. split; [intros H; right; right; right; left; auto|].
    intros [H | [[H _] | [[H _] | [[_ H] | [H _]]]]]; try discriminate H; auto.
    simpl in H. repeat destruct H as [H | H]; try discriminate H; contradiction. }
  destruct (decide (key = "source_option")) as [-> | Hsource].
  { key_case. split; [intros H; right; right; right; right; auto|].
    intros [H | [[H _] | [[H _] | [[H _] | [_ H]]]]]; try discriminate H; auto.
    simpl in H. repeat destruct H as [H | H]; try discriminate H; contradiction. }
  unfold tabListing_params.
  rewrite lookup_insert_ne by congruence.
  rewrite !lookup_spread_ne by congruence.
  rewrite !lookup_insert_ne by congruence.
  rewrite lookup_empty. split.
  - intros H. now apply is_Some_None in H.
  - intros [H | [[H _] | [[H _] | [[H _] | [H _]]]]]; try congruence.
    simpl in H. repeat destruct H as [H | H]; try congruence. contradiction.
Qed.

(** ** Wallet balance: the fallback *)

(** X17. [getWalletBalance] asks the user service first and returns its body
    after that single request; only when that request is rejected does it ask
    the bill service, whose body it returns or whose error it throws (the
    first error is dropped). *)
Theorem getWalletBalance_falls_back backend (w : World) :
  let first := withToken w (plainGet UserApi "/get-customer-balance") in
  let outcome := (getWalletBalance backend w).1 in
  let log := (getWalletBalance backend w).2.(sent) in
  match backend first with
  | Fulfilled r =>
      outcome = Returned r.(resp_data) /\ log = (w.(sent) ++ [first])%list
  | Rejected _ =>
      exists second,
        log = (w.(sent) ++ [first; second])%list
        /\ second.(req_client) = BillApiClient
        /\ second.(req_method) = GET
        /\ second.(req_url) = "/wallet/balance"
        /\ outcome = match backend second with
                     | Fulfilled r => Returned r.(resp_data)
                     | Rejected e => Thrown e
                     end
  end.
Proof.
  cbv zeta. remember (getWalletBalance backend w) as result eqn:Hres.
  unfold getWalletBalance, userApi_get, billApiClient_get, tryCatch, mbind,
    eff_bind in Hres.
  fold (plainGet UserApi "/get-customer-balance") in Hres.
  fold (plainGet BillApiClient "/wallet/balance") in Hres.
  rewrite clientCall_unfold in Hres. cbv zeta in Hres.
  destruct (backend (withToken w (plainGet UserApi "/get-customer-balance")))
    as [r|e].
  - subst result. simpl. split; reflexivity.
  - match type of Hres with
    | context [responseErrorInterceptor e ?w1] =>
        destruct (responseErrorInterceptor_run (A := AxiosResponse) e w1)
          as (Hout & Hsent & _);
        destruct (responseErrorInterceptor e w1) as [out w2]
    end.
    simpl in Hout, Hsent. subst out.
    rewrite clientCall_unfold in Hres. cbv zeta in Hres.
    exists (withToken w2 (plainGet BillApiClient "/wallet/balance")).
    assert (Hshape : forall (c : Request),
               (withToken w2 c).(req_client) = c.(req_client)
               /\ (withToken w2 c).(req_method) = c.(req_method)
               /\ (withToken w2 c).(req_url) = c.(req_url)).
    { intros c. unfold withToken.
      destruct (localStorage w2 !! "accessToken") as [t|]; [|auto].
      destruct (String.eqb t EmptyString); auto. }
    destruct (Hshape (plainGet BillApiClient "/wallet/balance")) as (Hc & Hm & Hu).
    destruct (backend (withToken w2 (plainGet BillApiClient "/wallet/balance")))
      as [r2|e2].
    + subst result. simpl. rewrite Hsent, <- app_assoc. auto.
    + match type of Hres with
      | context [responseErrorInterceptor e2 ?w3] =>
          destruct (responseErrorInterceptor_run (A := AxiosResponse) e2 w3)
            as (Hout2 & Hsent2 & _);
          destruct (responseErrorInterceptor e2 w3) as [out2 w4]
      end.
      simpl in Hout2, Hsent2. subst out2 result. simpl.
      rewrite Hsent2, Hsent, <- app_assoc. auto.
Qed.

(** ** Signing in and out *)

Lemma userApi_post_unfold users (path : string) (body : gmap string string)
    (w : World) :
  userApi_post users path body w
  = let req := withToken w (userPost path) in
    let w1 := {| localStorage := w.(localStorage); pathname := w.(pathname);
                 navigations := w.(navigations); toasts := w.(toasts);
                 sent := (w.(sent) ++ [req])%list |} in
    match users req body with
    | AuthFulfilled data => (Returned data, w1)
    | AuthRejected e => responseErrorInterceptor e w1
    end.
Proof.
  unfold userApi_post, mbind, eff_bind. fold (userPost path).
  rewrite addAuthToken_run. unfold dispatchAuth. cbv zeta.
  destruct (users (withToken w (userPost path)) body); reflexivity.
Qed.

(** The response interceptor never adds to the storage. *)
Lemma responseErrorInterceptor_stores_nothing {A : Type} (error : JsError)
    (w : World) (key value : string) :
  (@responseErrorInterceptor A error w).2.(localStorage) !! key = Some value ->
  w.(localStorage) !! key = Some value.
Proof.
  unfold responseErrorInterceptor. run_eff.
  destruct (response error) as [r|]; simpl; [|auto].
  repeat match goal with
         | |- context [if ?c then _ else _] => destruct c; simpl
         end; auto;
    intros H; repeat apply lookup_delete_Some in H as [_ H]; exact H.
Qed.

Lemma withToken_authorized (w : World) (config : Request) (token : string) :
  w.(localStorage) !! "accessToken" = Some token -> token <> EmptyString ->
  (withToken w config).(req_authorization) = Some ("Bearer " ++ token)
  /\ (withToken w config).(req_url) = config.(req_url).
Proof.
  intros Hstored Hne. unfold withToken. rewrite Hstored.
  apply String.eqb_neq in Hne. rewrite Hne. split; reflexivity.
Qed.

(** X18. After a login that the user service answers with tokens, the three
    credentials are stored, and the next call through an intercepted client
    carries the new access token as its bearer. *)
Theorem login_then_request users backend (email password path : string)
    (params : gmap string ParamVal) (w : World) (body : AuthBody)
    (token : string) :
  users (withToken w (userPost "/login"))
    (<["email" := email]> (<["password" := password]> ∅))
  = AuthFulfilled (Some body) ->
  body.(access_token) = Some token ->
  token <> EmptyString ->
  (login users email password w).1 = Returned body
  /\ (login users email password w).2.(localStorage)
     = <["user" := stored body.(user_json)]>
         (<["refreshToken" := stored body.(refresh_token)]>
            (<["accessToken" := token]> w.(localStorage)))
  /\ exists req,
       ((login users email password
         ≫= fun _ => orderApiClient_get backend path params) w).2.(sent)
       = (w.(sent) ++ [withToken w (userPost "/login"); req])%list
       /\ req.(req_url) = path
       /\ req.(req_authorization) = Some ("Bearer " ++ token).
Proof.
  intros Hreply Htoken Hne.
  assert (Hrun : login users email password w
                 = (Returned body,
                    {| localStorage :=
                         <["user" := stored body.(user_json)]>
                           (<["refreshToken" := stored body.(refresh_token)]>
                              (<["accessToken" := token]> w.(localStorage)));
                       pathname := w.(pathname); navigations := w.(navigations);
                       toasts := (w.(toasts)
                                  ++ [(ToastSuccess, "Login successful!")])%list;
                       sent := (w.(sent) ++ [withToken w (userPost "/login")])%list |})).
  { unfold login, tryCatch. unfold mbind at 1, eff_bind at 1.
    rewrite userApi_post_unfold. cbv zeta. rewrite Hreply, Htoken.
    reflexivity. }
  rewrite Hrun. split; [reflexivity|]. split; [reflexivity|].
  unfold mbind, eff_bind. rewrite Hrun. unfold orderApiClient_get.
  fold (orderGet path params).
  match goal with
  | |- context [clientCall backend ?c ?w1] =>
      destruct (clientCall_run backend c w1) as (Hsent & _);
      destruct (withToken_authorized w1 c token) as (Hauth & Hurl)
  end.
  { simpl. rewrite lookup_insert_ne by discriminate.
    rewrite lookup_insert_ne by discriminate. apply lookup_insert_eq. }
  { exact Hne. }
  eexists. split; [|split; [exact Hurl | exact Hauth]].
  rewrite Hsent. simpl. now rewrite <- app_assoc.
Qed.

Lemma login_then_request_witness :
  (login grantingUsers "a@b.co" "secret" signedOut).1 = Returned sampleTokens
  /\ (login grantingUsers "a@b.co" "secret" signedOut).2.(localStorage)
     = <["user" := stored sampleTokens.(user_json)]>
         (<["refreshToken" := stored sampleTokens.(refresh_token)]>
            (<["accessToken" := "n.e.w"]> signedOut.(localStorage)))
  /\ exists req,
       ((login grantingUsers "a@b.co" "secret"
         ≫= fun _ => orderApiClient_get sampleBackend "/orders/get-all-orders" ∅)
          signedOut).2.(sent)
       = (signedOut.(sent) ++ [withToken signedOut (userPost "/login"); req])%list
       /\ req.(req_url) = "/orders/get-all-orders"
       /\ req.(req_authorization) = Some ("Bearer " ++ "n.e.w").
Proof.
  apply login_then_request; [reflexivity | reflexivity | discriminate].
Defined.

(** X19. A login that throws stores nothing: whatever is in the storage
    afterwards was there before. *)
Theorem login_failure_stores_nothing users (email password : string) (w : World)
    (e : JsError) (key value : string) :
  (login users email password w).1 = Thrown e ->
  (login users email password w).2.(localStorage) !! key = Some value ->
  w.(localStorage) !! key = Some value.
Proof.
  remember (login users email password w) as result eqn:Hres.
  unfold login, tryCatch in Hres. unfold mbind at 1, eff_bind at 1 in Hres.
  rewrite userApi_post_unfold in Hres. cbv zeta in Hres.
  destruct (users _ _) as [[body|]|e'].
  - subst result. discriminate.
  - subst result. simpl. auto.
  - match type of Hres with
    | context [responseErrorInterceptor e' ?w1] =>
        pose proof (responseErrorInterceptor_stores_nothing
                      (A := option AuthBody) e' w1 key value) as Hle;
        destruct (responseErrorInterceptor_run (A := option AuthBody) e' w1)
          as (Hout & _ & _);
        destruct (responseErrorInterceptor e' w1) as [out w2]
    end.
    simpl in Hout, Hle. subst out result. simpl. intros _. exact Hle.
Qed.

Lemma login_failure_stores_nothing_witness :
  signedIn.(localStorage) !! "user" = Some "{}".
Proof.
  apply (login_failure_stores_nothing unavailableUsers "a@b.co" "secret"
           signedIn notFound "user" "{}"); vm_compute; reflexivity.
Defined.

Lemma logout_run (w : World) :
  logout w
  = (Returned tt,
     {| localStorage :=
          delete "user" (delete "refreshToken" (delete "accessToken" w.(localStorage)));
        pathname := w.(pathname); navigations := w.(navigations);
        toasts := (w.(toasts) ++ [(ToastInfo, "You have been logged out.")])%list;
        sent := w.(sent) |}).
Proof. reflexivity. Qed.

(** X20. [logout] removes the three credentials and nothing else, and the
    next call through an intercepted client goes out as configured, without
    a bearer token. *)
Theorem logout_then_request backend (config : Request) (w : World) :
  (forall key, In key credentialKeys -> (logout w).2.(localStorage) !! key = None)
  /\ (forall key, ~ In key credentialKeys ->
        (logout w).2.(localStorage) !! key = w.(localStorage) !! key)
  /\ ((logout ≫= fun _ => clientCall backend config) w).2.(sent)
     = (w.(sent) ++ [config])%list.
Proof.
  rewrite logout_run. simpl. split; [|split].
  - intros key Hin. simpl in Hin.
    destruct Hin as [<- | [<- | [<- | []]]];
      repeat first [ apply lookup_delete_eq
                   | rewrite lookup_delete_ne by discriminate ].
  - intros key Hout. simpl in Hout.
    rewrite !lookup_delete_ne; [reflexivity | | |]; intros <-; tauto.
  - unfold mbind, eff_bind. rewrite logout_run.
    match goal with
    | |- context [clientCall backend config ?w1] =>
        destruct (clientCall_run backend config w1) as (Hsent & _)
    end.
    rewrite Hsent. simpl. unfold withToken. simpl.
    rewrite lookup_delete_ne by discriminate.
    rewrite lookup_delete_ne by discriminate.
    rewrite lookup_delete_eq. reflexivity.
Qed.

(** X21. Whenever [refreshToken] throws (no stored refresh token, a rejected
    request, an answer without body), the user is logged out: none of the
    three credentials is left in the storage. *)
Theorem refreshToken_failure_logs_out users (w : World) (e : JsError)
    (key : string) :
  (refreshToken users w).1 = Thrown e ->
  In key credentialKeys ->
  (refreshToken users w).2.(localStorage) !! key = None.
Proof.
  unfold refreshToken, tryCatch.
  match goal with
  | |- context [match ?body w with _ => _ end] =>
      destruct (body w) as [[a|e'] w1]
  end.
  - discriminate.
  - intros _ Hin. unfold mbind, eff_bind. rewrite logout_run. simpl.
    simpl in Hin.
    destruct Hin as [<- | [<- | [<- | []]]];
      repeat first [ apply lookup_delete_eq
                   | rewrite lookup_delete_ne by discriminate ].
Qed.

Lemma refreshToken_failure_logs_out_witness :
  (refreshToken refusingUsers signedIn).2.(localStorage) !! "accessToken" = None.
Proof.
  apply (refreshToken_failure_logs_out refusingUsers signedIn unauthorized).
  - vm_compute. reflexivity.
  - simpl. tauto.
Defined.

(** X22. Without a stored refresh token (none, or an empty one)
    [refreshToken] sends no request: it logs out and throws "No refresh token
    available". *)
Theorem refreshToken_without_token users (w : World) :
  truthy (w.(localStorage) !! "refreshToken") = false ->
  (refreshToken users w).1 = Thrown (newError "No refresh token available")
  /\ (refreshToken users w).2.(sent) = w.(sent)
  /\ (refreshToken users w).2.(toasts)
     = (w.(toasts) ++ [(ToastInfo, "You have been logged out.")])%list.
Proof.
  intros Hnone.
  assert (Hrun : refreshToken users w
                 = (Thrown (newError "No refresh token available"),
                    (logout w).2)).
  { unfold refreshToken, tryCatch, mbind, eff_bind, getItem.
    rewrite Hnone. reflexivity. }
  rewrite Hrun, logout_run. repeat split.
Qed.

Lemma refreshToken_without_token_witness :
  (refreshToken grantingUsers signedOut).1
  = Thrown (newError "No refresh token available")
  /\ (refreshToken grantingUsers signedOut).2.(sent) = signedOut.(sent)
  /\ (refreshToken grantingUsers signedOut).2.(toasts)
     = (signedOut.(toasts) ++ [(ToastInfo, "You have been logged out.")])%list.
Proof.
  apply refreshToken_without_token. reflexivity.
Defined.

(** X23. A refresh that the user service answers with a body replaces the
    stored access token and leaves every other stored key, the refresh token
    included; a body without [access_token] stores the text "undefined". *)
Theorem refreshToken_replaces_access_token users (w : World) (held : string)
    (body : AuthBody) :
  w.(localStorage) !! "refreshToken" = Some held ->
  held <> EmptyString ->
  users (withToken w (userPost "/refresh-token")) (<["refresh_token" := held]> ∅)
  = AuthFulfilled (Some body) ->
  (refreshToken users w).1 = Returned body.(access_token)
  /\ (refreshToken users w).2.(localStorage)
     = <["accessToken" := default "undefined" body.(access_token)]> w.(localStorage)
  /\ (refreshToken users w).2.(sent)
     = (w.(sent) ++ [withToken w (userPost "/refresh-token")])%list.
Proof.
  intros Hheld Hne Hreply. apply String.eqb_neq in Hne.
  assert (Hrun : refreshToken users w
                 = (Returned body.(access_token),
                    {| localStorage :=
                         <["accessToken" := stored body.(access_token)]>
                           w.(localStorage);
                       pathname := w.(pathname); navigations := w.(navigations);
                       toasts := w.(toasts);
                       sent := (w.(sent)
                                ++ [withToken w (userPost "/refresh-token")])%list |})).
  { assert (Ht : truthy (Some held) = true)
      by (unfold truthy; rewrite Hne; reflexivity).
    unfold refreshToken, tryCatch. unfold mbind at 1, eff_bind at 1.
    unfold getItem. rewrite Hheld, Ht.
    unfold mbind at 1, eff_bind at 1.
    rewrite userApi_post_unfold. cbv zeta. simpl default.
    rewrite Hreply. reflexivity. }
  rewrite Hrun. repeat split.
Qed.

Lemma refreshToken_replaces_access_token_witness :
  (refreshToken grantingUsers signedIn).1 = Returned sampleTokens.(access_token)
  /\ (refreshToken grantingUsers signedIn).2.(localStorage)
     = <["accessToken" := default "undefined" sampleTokens.(access_token)]>
         signedIn.(localStorage)
  /\ (refreshToken grantingUsers signedIn).2.(sent)
     = (signedIn.(sent) ++ [withToken signedIn (userPost "/refresh-token")])%list.
Proof.
  apply (refreshToken_replaces_access_token grantingUsers signedIn "r.s.t"
           sampleTokens); [reflexivity | discriminate | reflexivity].
Defined.

(** ** Wallet transactions: pages *)

Lemma slice_page {A : Type} (s : nat) (xs : list A) :
  slice (Z.of_nat s) (Z.of_nat s + pageSize) xs = firstn 10 (skipn s xs).
Proof.
  unfold slice, relativeIndex, pageSize.
  replace (Z.of_nat s <? 0) with false by (symmetry; apply Z.ltb_ge; lia).
  replace (Z.of_nat s + 10 <? 0) with false by (symmetry; apply Z.ltb_ge; lia).
  destruct (Nat.le_gt_cases (length xs) s) as [Hout | Hin].
  - rewrite Z.min_r by lia. rewrite Z.min_r by lia.
    rewrite Z.sub_diag. simpl. rewrite (skipn_all2 (n := s)) by exact Hout.
    reflexivity.
  - rewrite (Z.min_l (Z.of_nat s)) by lia. rewrite Nat2Z.id.
    destruct (Z.le_gt_cases (Z.of_nat s + 10) (Z.of_nat (length xs))) as [Hfull | Hlast].
    + rewrite Z.min_l by lia. f_equal. lia.
    + rewrite Z.min_r by lia.
      rewrite (firstn_all2 (n := 10)) by (rewrite length_skipn; lia).
      apply firstn_all2. rewrite length_skipn. lia.
Qed.

Lemma firstn_plus {A : Type} (a b : nat) (xs : list A) :
  firstn (a + b) xs = (firstn a xs ++ firstn b (skipn a xs))%list.
Proof.
  revert xs. induction a as [|a IH]; intros xs; [reflexivity|].
  destruct xs as [|x xs]; simpl.
  - now rewrite firstn_nil.
  - now rewrite IH.
Qed.

Lemma chunks_cover {A : Type} (k : nat) (xs : list A) :
  concat (map (fun p => firstn 10 (skipn (p * 10) xs)) (seq 0 k))
  = firstn (k * 10) xs.
Proof.
  induction k as [|k IH]; [reflexivity|].
  rewrite seq_S, map_app, concat_app, IH. cbn [map concat Nat.add].
  rewrite app_nil_r.
  replace (S k * 10)%nat with (k * 10 + 10)%nat by lia.
  now rewrite firstn_plus.
Qed.

Lemma totalPagesOf_covers (total : nat) :
  1 <= totalPagesOf total
  /\ (total <= Z.to_nat (totalPagesOf total) * 10)%nat.
Proof.
  unfold totalPagesOf, pageSize. cbv zeta.
  pose proof (Z.div_mod (Z.of_nat total + 10 - 1) 10 ltac:(lia)) as Hdiv.
  pose proof (Z.mod_pos_bound (Z.of_nat total + 10 - 1) 10 ltac:(lia)) as Hmod.
  destruct (Z.eqb_spec ((Z.of_nat total + 10 - 1) / 10) 0) as [H0 | Hpos].
  - split; [lia|]. rewrite H0 in Hdiv. lia.
  - assert (0 <= (Z.of_nat total + 10 - 1) / 10)
      by (apply Z.div_pos; lia).
    split; [lia|]. lia.
Qed.

(** X24. The pages of a tab, from the first to the last one, put one after
    the other are the transactions of all the bills of that tab, in order:
    paging drops and repeats nothing. *)
Theorem pages_cover_the_tab formatCurrency (tab : string) (bills : list Bill) :
  concat
    (map (fun page => pageOf formatCurrency tab (Z.of_nat page) bills)
       (seq 1 (Z.to_nat (totalPagesOf (length (filterBills tab bills))))))
  = map (toTransaction formatCurrency) (filterBills tab bills).
Proof.
  set (filtered := filterBills tab bills).
  set (k := Z.to_nat (totalPagesOf (length filtered))).
  assert (Hpage : forall p,
             pageOf formatCurrency tab (Z.of_nat (S p)) bills
             = map (toTransaction formatCurrency)
                 (firstn 10 (skipn (p * 10) filtered))).
  { intros p. unfold pageOf. fold filtered. cbv zeta.
    replace ((Z.of_nat (S p) - 1) * pageSize) with (Z.of_nat (p * 10))
      by (unfold pageSize; lia).
    now rewrite slice_page. }
  rewrite <- seq_shift, map_map.
  rewrite (map_ext _ _ Hpage).
  rewrite <- (map_map (fun p => firstn 10 (skipn (p * 10) filtered))
                (map (toTransaction formatCurrency))).
  rewrite <- concat_map, chunks_cover.
  rewrite firstn_all2; [reflexivity|].
  apply (proj2 (totalPagesOf_covers (length filtered))).
Qed.

Lemma pageOf_length formatCurrency (tab : string) (page : Z)
    (bills : list Bill) :
  (length (pageOf formatCurrency tab page bills) <= 10)%nat.
Proof.
  unfold pageOf, slice, relativeIndex, pageSize. cbv zeta.
  rewrite length_map.
  etransitivity; [apply firstn_le_length|].
  destruct (Z.ltb_spec ((page - 1) * 10) 0);
    destruct (Z.ltb_spec ((page - 1) * 10 + 10) 0); lia.
Qed.

(** X25. A page never holds more than ten transactions, whatever the page
    number is (zero and negative numbers included). *)
Theorem page_has_at_most_ten formatCurrency (tab : string) (page : Z)
    (bills : list Bill) :
  (length (pageOf formatCurrency tab page bills) <= 10)%nat.
Proof.
  pose proof (pageOf_length formatCurrency tab page bills) as H. exact H.
Qed.

(** X26. A page after the last one is empty. *)
Theorem page_after_last_is_empty formatCurrency (tab : string) (page : Z)
    (bills : list Bill) :
  totalPagesOf (length (filterBills tab bills)) < page ->
  pageOf formatCurrency tab page bills = [].
Proof.
  intros Hlate.
  destruct (totalPagesOf_covers (length (filterBills tab bills))) as [Hone Hcover].
  assert (Hp : page = Z.of_nat (S (Z.to_nat (page - 1)))) by lia.
  rewrite Hp. unfold pageOf. cbv zeta.
  replace ((Z.of_nat (S (Z.to_nat (page - 1))) - 1) * pageSize)
    with (Z.of_nat (Z.to_nat (page - 1) * 10)) by (unfold pageSize; lia).
  rewrite slice_page, skipn_all2; [reflexivity|]. lia.
Qed.

Lemma page_after_last_is_empty_witness :
  pageOf plainCurrency "all" 2 [orderPayment] = [].
Proof.
  apply page_after_last_is_empty. vm_compute. reflexivity.
Defined.

(** ** Wallet transactions: signs *)

Lemma SFcompare_refl (x : spec_float) :
  x <> S754_nan -> SFcompare x x = Some Eq.
Proof.
  destruct x as [s|s| |s m e]; simpl; intros Hx; try reflexivity.
  - now destruct s.
  - contradiction.
  - destruct s; rewrite Z.compare_refl, Pos.compare_cont_refl; reflexivity.
Qed.

(** A number below zero is truthy. *)
Lemma below_zero_is_truthy (f : float) :
  PrimFloat.ltb f 0 = true -> truthyFloat f = true.
Proof.
  unfold truthyFloat. rewrite ltb_spec, !FloatAxioms.eqb_spec.
  unfold SFltb, SFeqb. change (Prim2SF 0) with (S754_zero false).
  intros Hlt.
  assert (Hnan : Prim2SF f <> S754_nan).
  { intros Hn. rewrite Hn in Hlt. discriminate Hlt. }
  rewrite (SFcompare_refl _ Hnan).
  destruct (SFcompare (Prim2SF f) (S754_zero false)) as [[| |]|];
    try discriminate Hlt. reflexivity.
Qed.

(** X27. A bill whose sum is below zero is always shown as a subtraction:
    its amount is the minus sign followed by the formatted absolute value,
    whatever its type and order are. *)
Theorem negative_sum_is_a_subtraction formatCurrency (bill : Bill) (f : float) :
  billSumOf bill.(bill_sum) = Some f ->
  PrimFloat.ltb f 0 = true ->
  (toTransaction formatCurrency bill).(transaction_type) = "subtract"
  /\ (toTransaction formatCurrency bill).(tx_amount)
     = "-" ++ formatCurrency (PrimFloat.abs f).
Proof.
  intros Hsum Hneg.
  assert (Hsign : signOf bill = "-").
  { unfold signOf. rewrite Hsum. cbv zeta. simpl belowZero. rewrite Hneg.
    now destruct (_ && _). }
  unfold toTransaction. cbv zeta. simpl. rewrite Hsign, Hsum.
  rewrite (below_zero_is_truthy f Hneg). split; reflexivity.
Qed.

Lemma negative_sum_is_a_subtraction_witness :
  (toTransaction plainCurrency orderPayment).(transaction_type) = "subtract"
  /\ (toTransaction plainCurrency orderPayment).(tx_amount)
     = "-" ++ plainCurrency (PrimFloat.abs (-120)%float).
Proof.
  apply negative_sum_is_a_subtraction; reflexivity.
Defined.

(** An order bill of type 0 with a sum that is not below zero is labelled
    "Order Refund" while its sign is minus. *)
Example order_refund_with_minus :
  let bill := {| bill_id := Some 32; bill_debitload_type := Some 0;
                 bill_sum := Some (NumNumber 120); bill_order_id := Some (IdNum 42);
                 bill_add_date := None; bill_balance_after := None;
                 bill_comments := None |} in
  (toTransaction plainCurrency bill).(tx_type) = "Order Refund"
  /\ (toTransaction plainCurrency bill).(transaction_type) = "subtract".
Proof. split; reflexivity. Qed.

(** ** Wallet transactions: loading *)

Lemma getAllBills_unfold billing (w : World) :
  let req := withToken w (plainGet UserApi "/bills/") in
  let w1 := {| localStorage := w.(localStorage); pathname := w.(pathname);
               navigations := w.(navigations); toasts := w.(toasts);
               sent := (w.(sent) ++ [req])%list |} in
  (getAllBills billing w).1
  = match billing req with
    | BillsFulfilled data => Returned data
    | BillsRejected e => Thrown e
    end
  /\ (getAllBills billing w).2.(sent) = w1.(sent).
Proof.
  cbv zeta. remember (getAllBills billing w) as result eqn:Hres.
  unfold getAllBills, userApi_getBills, tryCatch, mbind, eff_bind in Hres.
  fold (plainGet UserApi "/bills/") in Hres.
  rewrite addAuthToken_run in Hres. unfold dispatchBills in Hres.
  destruct (billing (withToken w (plainGet UserApi "/bills/"))) as [data|e].
  - subst result. split; reflexivity.
  - match type of Hres with
    | context [responseErrorInterceptor e ?w1] =>
        destruct (responseErrorInterceptor_run (A := option (list Bill)) e w1)
          as (Hout & Hsent & _);
        destruct (responseErrorInterceptor e w1) as [out w2]
    end.
    simpl in Hout, Hsent. subst out result. simpl. split; [reflexivity | exact Hsent].
Qed.

Lemma fetchTransactions_run formatCurrency billing (tab : string)
    (page : Z) (st : WalletState) (w : World) :
  exists st',
    (fetchTransactions formatCurrency billing tab page st w).1 = Returned st'
    /\ st'.(ws_isLoading) = false
    /\ st'.(ws_selectedTab) = st.(ws_selectedTab)
    /\ st'.(ws_currentPage) = st.(ws_currentPage)
    /\ match billing (withToken w (plainGet UserApi "/bills/")) with
       | BillsFulfilled (Some bills) =>
           st'.(ws_transactions) = pageOf formatCurrency tab page bills
           /\ st'.(ws_totalPages) = totalPagesOf (length (filterBills tab bills))
       | _ => st'.(ws_transactions) = [] /\ st'.(ws_totalPages) = 1
       end
    /\ 1 <= st'.(ws_totalPages)
    /\ (length st'.(ws_transactions) <= 10)%nat.
Proof.
  unfold fetchTransactions, tryCatch. unfold mbind at 1 2, eff_bind at 1 2.
  destruct (getAllBills_unfold billing w) as [Hout _]. cbv zeta in Hout.
  destruct (getAllBills billing w) as [out w1]. simpl in Hout. subst out.
  destruct (billing (withToken w (plainGet UserApi "/bills/"))) as [[bills|]|e];
    simpl; eexists; repeat split; simpl; try lia.
  - apply totalPagesOf_covers.
  - apply pageOf_length.
Qed.

(** X28. [fetchTransactions] never throws and always clears the loading
    flag, leaving the selected tab and the current page as they were. An
    array of bills shows the requested page of the tab and its page count; a
    rejected request or any other body shows no transaction and one page. In
    every case there is at least one page and at most ten transactions. *)
Theorem fetchTransactions_settles formatCurrency billing (tab : string)
    (page : Z) (st : WalletState) (w : World) :
  exists st',
    (fetchTransactions formatCurrency billing tab page st w).1 = Returned st'
    /\ st'.(ws_isLoading) = false
    /\ st'.(ws_selectedTab) = st.(ws_selectedTab)
    /\ st'.(ws_currentPage) = st.(ws_currentPage)
    /\ match billing (withToken w (plainGet UserApi "/bills/")) with
       | BillsFulfilled (Some bills) =>
           st'.(ws_transactions) = pageOf formatCurrency tab page bills
           /\ st'.(ws_totalPages) = totalPagesOf (length (filterBills tab bills))
       | _ => st'.(ws_transactions) = [] /\ st'.(ws_totalPages) = 1
       end
    /\ 1 <= st'.(ws_totalPages)
    /\ (length st'.(ws_transactions) <= 10)%nat.
Proof.
  destruct (fetchTransactions_run formatCurrency billing tab page st w)
    as (st' & H). exists st'. exact H.
Qed.

Lemma handlePageChange_out_of_range formatCurrency billing (newPage : Z)
    (st : WalletState) (w : World) :
  newPage < 1 \/ st.(ws_totalPages) < newPage ->
  handlePageChange formatCurrency billing newPage st w = (Returned st, w).
Proof.
  intros Hout. unfold handlePageChange.
  replace ((1 <=? newPage) && (newPage <=? ws_totalPages st)) with false;
    [reflexivity|].
  symmetry. apply andb_false_iff.
  destruct Hout; [left; apply Z.leb_gt | right; apply Z.leb_gt]; assumption.
Qed.

Lemma page_in_range_is_not_empty formatCurrency (tab : string) (page : Z)
    (bills : list Bill) :
  1 <= page <= totalPagesOf (length (filterBills tab bills)) ->
  filterBills tab bills <> [] ->
  pageOf formatCurrency tab page bills <> [].
Proof.
  intros [Hlow Hhigh] Hsome.
  set (filtered := filterBills tab bills) in *.
  assert (Hlen : (0 < length filtered)%nat)
    by (destruct filtered; [contradiction | simpl; lia]).
  assert (Hstart : (Z.to_nat (page - 1) * 10 < length filtered)%nat).
  { unfold totalPagesOf, pageSize in Hhigh. cbv zeta in Hhigh.
    pose proof (Z.mul_div_le (Z.of_nat (length filtered) + 10 - 1) 10
                  ltac:(lia)) as Hdiv.
    destruct (Z.eqb_spec ((Z.of_nat (length filtered) + 10 - 1) / 10) 0); lia. }
  assert (Hp : page = Z.of_nat (S (Z.to_nat (page - 1)))) by lia.
  rewrite Hp. unfold pageOf. fold filtered. cbv zeta.
  replace ((Z.of_nat (S (Z.to_nat (page - 1))) - 1) * pageSize)
    with (Z.of_nat (Z.to_nat (page - 1) * 10)) by (unfold pageSize; lia).
  rewrite slice_page.
  destruct (skipn (Z.to_nat (page - 1) * 10) filtered) as [|b rest] eqn:Hskip.
  - apply (f_equal (@length Bill)) in Hskip. rewrite length_skipn in Hskip.
    simpl in Hskip. lia.
  - simpl. discriminate.
Qed.

(** X29. [handlePageChange] acts only on a page number between one and the
    page count. When that count is the one of the bills the service holds for
    the selected tab, the page becomes the current one and the transactions
    shown are that page of the tab, which is not empty. *)
Theorem handlePageChange_in_range formatCurrency billing (newPage : Z)
    (st : WalletState) (w : World) (bills : list Bill) :
  1 <= newPage <= st.(ws_totalPages) ->
  billing (withToken w (plainGet UserApi "/bills/")) = BillsFulfilled (Some bills) ->
  st.(ws_totalPages) = totalPagesOf (length (filterBills st.(ws_selectedTab) bills)) ->
  filterBills st.(ws_selectedTab) bills <> [] ->
  exists st',
    (handlePageChange formatCurrency billing newPage st w).1 = Returned st'
    /\ st'.(ws_currentPage) = newPage
    /\ st'.(ws_totalPages) = st.(ws_totalPages)
    /\ st'.(ws_transactions)
       = pageOf formatCurrency st.(ws_selectedTab) newPage bills
    /\ st'.(ws_transactions) <> [].
Proof.
  intros [Hlow Hhigh] Hreply Hcount Hsome. unfold handlePageChange.
  replace ((1 <=? newPage) && (newPage <=? ws_totalPages st)) with true
    by (symmetry; apply andb_true_iff; split; apply Z.leb_le; assumption).
  match goal with
  | |- context [fetchTransactions _ _ ?tab ?page ?st0 w] =>
      destruct (fetchTransactions_run formatCurrency billing tab page st0 w)
        as (st' & Hout & _ & _ & Hpage & Hshown & _)
  end.
  rewrite Hreply in Hshown. destruct Hshown as [Htx Htotal].
  exists st'. simpl in Hpage. repeat split; auto.
  - congruence.
  - rewrite Htx. apply page_in_range_is_not_empty; [|exact Hsome].
    rewrite <- Hcount. auto.
Qed.

Lemma handlePageChange_in_range_witness :
  exists st',
    (handlePageChange plainCurrency oneBill 1 firstPage signedIn).1 = Returned st'
    /\ st'.(ws_currentPage) = 1
    /\ st'.(ws_totalPages) = firstPage.(ws_totalPages)
    /\ st'.(ws_transactions)
       = pageOf plainCurrency firstPage.(ws_selectedTab) 1 [orderPayment]
    /\ st'.(ws_transactions) <> [].
Proof.
  apply (handlePageChange_in_range plainCurrency oneBill 1 firstPage signedIn
           [orderPayment]).
  - simpl. lia.
  - reflexivity.
  - reflexivity.
  - discriminate.
Defined.

Lemma responseErrorInterceptor_401 {A : Type} (e : JsError) (r : AxiosResponse)
    (w : World) :
  e.(response) = Some r -> r.(resp_status) = 401 ->
  includes "Network Error" e.(message) = false ->
  includes "CORS" e.(message) = false ->
  @responseErrorInterceptor A e w
  = (Thrown e,
     {| localStorage :=
          delete "user" (delete "refreshToken" (delete "accessToken" w.(localStorage)));
        pathname := "/auth/login";
        navigations :=
          (w.(navigations)
           ++ if String.eqb w.(pathname) "/auth/login" then [] else ["/auth/login"])%list;
        toasts :=
          (w.(toasts)
           ++ [(ToastError, "Your session has expired. Please log in again.")])%list;
        sent := w.(sent) |}).
Proof.
  intros Hresp Hstatus Hnet Hcors.
  unfold responseErrorInterceptor. rewrite Hresp, Hnet, Hcors, Hstatus. run_eff.
  destruct (String.eqb (pathname w) "/auth/login") eqn:Hp; simpl.
  - apply String.eqb_eq in Hp. rewrite app_nil_r, Hp. reflexivity.
  - reflexivity.
Qed.

(** X30. When the listing of a tab is answered 401, [fetchTabOrders] still
    returns: the orders shown are kept and the loading flag is cleared, the
    three credentials are removed, the browser is on the login route (one
    navigation, none when it was there already), and the user sees two
    errors, the expired session and then the failed fetch. *)
Theorem fetchTabOrders_expired_session backend (tab : string) (st : OrdersState)
    (w : World) (e : JsError) (r : AxiosResponse) :
  backend (withToken w (tabRequest tab (tabFilters st))) = Rejected e ->
  e.(response) = Some r -> r.(resp_status) = 401 ->
  includes "Network Error" e.(message) = false ->
  includes "CORS" e.(message) = false ->
  (fetchTabOrders backend tab st w).1 = Returned (setIsLoading false st)
  /\ (fetchTabOrders backend tab st w).2.(localStorage)
     = delete "user" (delete "refreshToken" (delete "accessToken" w.(localStorage)))
  /\ (fetchTabOrders backend tab st w).2.(pathname) = "/auth/login"
  /\ (fetchTabOrders backend tab st w).2.(navigations)
     = (w.(navigations)
        ++ if String.eqb w.(pathname) "/auth/login" then [] else ["/auth/login"])%list
  /\ (fetchTabOrders backend tab st w).2.(toasts)
     = (w.(toasts)
        ++ [(ToastError, "Your session has expired. Please log in again.");
            (ToastError, ("Failed to fetch orders: " ++ getErrorMessage e)%string)])%list.
Proof.
  intros Hreply Hresp Hstatus Hnet Hcors.
  remember (fetchTabOrders backend tab st w) as result eqn:Hres.
  unfold fetchTabOrders, tryCatch, mbind, eff_bind in Hres.
  change (tabFilters (setIsLoading true st)) with (tabFilters st) in Hres.
  destruct (fetchByTab_listing backend tab (tabFilters st)) as [Hlist Hreq].
  rewrite Hlist, listing_run in Hres. cbv zeta in Hres.
  rewrite Hreq, Hreply in Hres.
  rewrite (responseErrorInterceptor_401 e r _ Hresp Hstatus Hnet Hcors) in Hres.
  simpl in Hres. subst result. simpl.
  rewrite <- app_assoc. simpl.
  destruct st; repeat split; reflexivity.
Qed.

Lemma fetchTabOrders_expired_session_witness :
  (fetchTabOrders expiredSession "shipped" initialState signedIn).1
  = Returned (setIsLoading false initialState)
  /\ (fetchTabOrders expiredSession "shipped" initialState signedIn).2.(localStorage)
     = delete "user" (delete "refreshToken"
         (delete "accessToken" signedIn.(localStorage)))
  /\ (fetchTabOrders expiredSession "shipped" initialState signedIn).2.(pathname)
     = "/auth/login"
  /\ (fetchTabOrders expiredSession "shipped" initialState signedIn).2.(navigations)
     = (signedIn.(navigations)
        ++ if String.eqb signedIn.(pathname) "/auth/login" then []
           else ["/auth/login"])%list
  /\ (fetchTabOrders expiredSession "shipped" initialState signedIn).2.(toasts)
     = (signedIn.(toasts)
        ++ [(ToastError, "Your session has expired. Please log in again.");
            (ToastError,
             ("Failed to fetch orders: " ++ getErrorMessage unauthorized)%string)])%list.
Proof.
  apply (fetchTabOrders_expired_session expiredSession "shipped" initialState
           signedIn unauthorized
           {| resp_status := 401; resp_statusText := "Unauthorized";
              resp_data := DataNull |});
    reflexivity.
Defined.
